(** * qparse: the Qmodem capture-log scanner, embedded in Rocq

    A shallow embedding of [qmodem/qparse.py]: the regular expressions of
    the line scanner (run by a small backtracking matcher with Python's
    priorities), the timestamp parser, [CallRecord] with its derived
    durations, the class-level counters, the diagnostic-block parser
    ([ATIParserBase.parse_output]) and the scanning loop of [read_file].

    Not modelled: opening and decoding the file, the printed report
    ([print_report2], the statistics of [report_aggregates] other than the
    download percentage) and the unused [CallRecordRepository].

    Conventions.
    - A Python [str] is a [string]; only ASCII text is modelled, so [\d] is
      [0-9] and [\s] is the ASCII part of [str.isspace].
    - A raised exception is a value [Raise e] of [result]; the scanner and
      the report derivations are written in that error monad.
    - The class attributes [CallRecord.count_*] are the process-wide
      counters; they are threaded through the loop as [Counters]. *)

From Stdlib Require Import ZArith QArith Ascii String List Lia Bool.
From Stdlib Require Import DecimalString.
From stdpp Require Import gmap strings list.

Local Open Scope string_scope.
Local Open Scope list_scope.

(** ** Exceptions *)

Inductive exn := AttributeError | ValueError | TypeError | ZeroDivisionError.

Inductive result (A : Type) :=
| Ok (a : A)
| Raise (e : exn).
Arguments Ok {A} a.
Arguments Raise {A} e.

Definition rbind {A B} (x : result A) (f : A -> result B) : result B :=
  match x with
  | Ok a => f a
  | Raise e => Raise e
  end.

Notation "x <- e1 ;; e2" := (rbind e1 (fun x => e2))
  (at level 100, e1 at next level, right associativity).

(** ** Character classes of the patterns *)

Module Re.

Inductive cls :=
| CLit (a : ascii)   (* a literal character *)
| CAny               (* [.]  : anything but a newline *)
| CDigit             (* [\d] *)
| CSpace             (* [\s] *)
| CNotSpace.         (* [\S] *)

Definition is_digit (a : ascii) : bool :=
  let n := nat_of_ascii a in (48 <=? n)%nat && (n <=? 57)%nat.

(** ASCII whitespace as Python's [str.isspace] and [\s] have it:
    TAB, LF, VT, FF, CR, the separators 0x1c-0x1f and the space. *)
Definition is_space (a : ascii) : bool :=
  let n := nat_of_ascii a in
  ((9 <=? n)%nat && (n <=? 13)%nat) || ((28 <=? n)%nat && (n <=? 32)%nat).

Definition is_newline (a : ascii) : bool := (nat_of_ascii a =? 10)%nat.

Definition cls_test (p : cls) (a : ascii) : bool :=
  match p with
  | CLit b => Ascii.eqb b a
  | CAny => negb (is_newline a)
  | CDigit => is_digit a
  | CSpace => is_space a
  | CNotSpace => negb (is_space a)
  end.

(** ** Patterns *)

Inductive re :=
| Eps
| Chr (p : cls)
| Seq (r1 r2 : re)
| Alt (r1 r2 : re)                (* [r1|r2], [r1] tried first *)
| Star (greedy : bool) (r : re)   (* [r*] when greedy, [r*?] otherwise *)
| Grp (n : nat) (r : re).         (* capturing group number [n] *)

Definition Plus (greedy : bool) (r : re) : re := Seq r (Star greedy r).
Definition Opt (r : re) : re := Alt r Eps.

Fixpoint lit_chars (l : list ascii) : re :=
  match l with
  | [] => Eps
  | a :: l' => Seq (Chr (CLit a)) (lit_chars l')
  end.

Definition Lit (s : string) : re := lit_chars (list_ascii_of_string s).

(** A capture is kept as the number of characters that remained when the
    group was entered and when it was left. *)
Definition caps := list (nat * (nat * nat)).

Fixpoint cap_lookup (n : nat) (c : caps) : option (nat * nat) :=
  match c with
  | [] => None
  | (k, v) :: c' => if (k =? n)%nat then Some v else cap_lookup n c'
  end.

(** One repetition loop: [body] matches the repeated pattern once; a turn
    must consume something; [n] bounds the number of turns (the length of
    the subject is enough). *)
Section StarLoop.
Variable body : list ascii -> caps -> (list ascii -> caps -> option caps) -> option caps.
Variable greedy : bool.
Variable k : list ascii -> caps -> option caps.

Fixpoint star_loop (n : nat) (s : list ascii) (c : caps) {struct n} : option caps :=
  match n with
  | O => k s c
  | S n' =>
      if greedy then
        match body s c (fun s' c' =>
                if (length s' <? length s)%nat then star_loop n' s' c' else None) with
        | Some x => Some x
        | None => k s c
        end
      else
        match k s c with
        | Some x => Some x
        | None =>
            body s c (fun s' c' =>
              if (length s' <? length s)%nat then star_loop n' s' c' else None)
        end
  end.
End StarLoop.

(** The backtracking matcher, in continuation-passing style: [k] is what
    remains to be matched after [r].  Alternatives are tried in Python's
    order (left before right, greedy repetition before stopping, lazy
    repetition after). *)
Fixpoint m (r : re) (s : list ascii) (c : caps)
    (k : list ascii -> caps -> option caps) {struct r} : option caps :=
  match r with
  | Eps => k s c
  | Chr p =>
      match s with
      | [] => None
      | a :: s' => if cls_test p a then k s' c else None
      end
  | Seq r1 r2 => m r1 s c (fun s' c' => m r2 s' c' k)
  | Alt r1 r2 =>
      match m r1 s c k with
      | Some x => Some x
      | None => m r2 s c k
      end
  | Star g r1 => star_loop (m r1) g k (length s) s c
  | Grp n r1 => m r1 s c (fun s' c' => k s' ((n, (length s, length s')) :: c'))
  end.

Definition match_here (r : re) (s : list ascii) : option caps :=
  m r s [] (fun _ c => Some c).

Fixpoint search_from (r : re) (s : list ascii) : option caps :=
  match match_here r s with
  | Some c => Some c
  | None =>
      match s with
      | [] => None
      | _ :: s' => search_from r s'
      end
  end.

(** A match object: the subject line and the captures. *)
Record Match := { m_line : list ascii; m_caps : caps }.

(** [pattern.search(line)] and [pattern.match(line)]. *)
Definition search (r : re) (line : string) : option Match :=
  let l := list_ascii_of_string line in
  match search_from r l with
  | Some c => Some {| m_line := l; m_caps := c |}
  | None => None
  end.

Definition rmatch (r : re) (line : string) : option Match :=
  let l := list_ascii_of_string line in
  match match_here r l with
  | Some c => Some {| m_line := l; m_caps := c |}
  | None => None
  end.

Definition slice (l : list ascii) (a b : nat) : list ascii :=
  firstn (a - b) (skipn (length l - a) l).

(** [mo.group(n)]: [None] when the group did not take part in the match. *)
Definition group (mo : Match) (n : nat) : option string :=
  match cap_lookup n (m_caps mo) with
  | Some (a, b) => Some (string_of_list_ascii (slice (m_line mo) a b))
  | None => None
  end.

End Re.

Import Re.

(** ** The compiled patterns of the scanner *)

Notation "r1 ;> r2" := (Seq r1 r2) (at level 60, right associativity).

Definition D2 : re := Chr CDigit ;> Chr CDigit.

(** [\d{2}-\d{2}-\d{2} \d{2}:\d{2}:\d{2}] *)
Definition TS : re :=
  D2 ;> Lit "-" ;> D2 ;> Lit "-" ;> D2 ;> Lit " " ;>
  D2 ;> Lit ":" ;> D2 ;> Lit ":" ;> D2.

(** Group numbers of the named groups, as Python numbers them. *)
Definition g_ts_abort : nat := 1.
Definition g_reason : nat := 3.
Definition g_wc_connect_bps : nat := 1.
Definition g_wc_reliable : nat := 2.
Definition g_wc_ansi_detect : nat := 3.
Definition g_ts_start_qmodem : nat := 3.

Definition r_abort : re :=
  Lit "### aborting " ;> Grp 1 TS ;>
  Grp 2 (Alt (Lit "," ;> Chr CSpace) (Chr CSpace ;> Lit "-" ;> Chr CSpace)) ;>
  Grp 3 (Star true (Chr CAny)).

Definition r_wc_banner : re :=
  Lit "Connected at " ;> Grp 1 (Plus true (Chr CDigit)) ;> Lit " bps" ;> Chr CAny ;>
  Opt (Grp 2 (Lit "Reliable connection" ;> Chr CAny ;> Plus true (Chr CSpace))) ;>
  Opt (Grp 3 (Lit "ANSI detected" ;> Chr CAny)).

Definition r_start_qmodem : re :=
  Lit "#### start_qmodem " ;>
  Opt (Lit "testsize:" ;> Grp 1 (Plus true (Chr CNotSpace)) ;> Chr CSpace ;>
       Lit "proto:" ;> Grp 2 (Plus true (Chr CNotSpace)) ;> Chr CSpace) ;>
  Grp 3 TS.

Definition r_start_dial : re := Lit "#### start_dial " ;> Grp 1 TS.
Definition r_connected : re := Lit "#### connected " ;> Grp 1 TS.
Definition r_start_download : re := Lit "### start_download " ;> Grp 1 TS.
Definition r_end_download : re := Lit "### end_download " ;> Grp 1 TS.

Definition r_dl_status_cps : re :=
  Plus true (Chr CNotSpace) ;> Plus true (Chr CSpace) ;> Lit "-" ;>
  Plus true (Chr CSpace) ;>
  Grp 1 (Alt (Lit "SUCCESSFUL!") (Lit "UNSUCCESSFUL" ;> Chr CAny)) ;>
  Opt (Plus true (Chr CSpace) ;> Lit "CPS = " ;> Grp 2 (Plus true (Chr CNotSpace))).

Definition r_stats_ati6 : re := Lit "### stats_ati6".
Definition r_stats_ati6_end : re := Lit "### end_stats_ati6".
Definition r_stats_ati11 : re := Lit "### stats_ati11".
Definition r_stats_ati11_end : re := Lit "### end_stats_ati11".

Definition r_end_call : re := Lit "#### end_call " ;> Grp 1 TS.
Definition r_exit_qmodem : re := Lit "#### exit_qmodem " ;> Grp 1 TS.

(** The four patterns of [ATIParserBase.parse_output]. *)
Definition r_usr : re := Lit "USRobotics".
Definition r_pair2 : re :=
  Grp 1 (Plus false (Chr CAny)) ;> Plus true (Chr CSpace) ;>
  Grp 2 (Plus true (Chr CDigit)) ;> Plus true (Chr CSpace) ;>
  Grp 3 (Plus false (Chr CAny)) ;> Plus true (Chr CSpace) ;>
  Grp 4 (Plus true (Chr CDigit)).
Definition r_pair1_num : re :=
  Grp 1 (Plus false (Chr CAny)) ;> Chr CSpace ;> Plus true (Chr CSpace) ;>
  Grp 2 (Plus true (Chr CDigit)).
Definition r_pair1_str : re :=
  Grp 1 (Plus false (Chr CAny)) ;> Chr CSpace ;> Plus true (Chr CSpace) ;>
  Grp 2 (Plus true (Chr CAny)).

(** ** Python string helpers *)

Module Py.

Fixpoint lstrip (l : list ascii) : list ascii :=
  match l with
  | a :: l' => if is_space a then lstrip l' else l
  | [] => []
  end.

Definition strip_chars (l : list ascii) : list ascii :=
  rev (lstrip (rev (lstrip l))).

(** [s.strip()] *)
Definition strip (s : string) : string :=
  string_of_list_ascii (strip_chars (list_ascii_of_string s)).

(** [s.replace(",", "")] *)
Definition remove_commas (s : string) : string :=
  string_of_list_ascii
    (List.filter (fun a => negb (Ascii.eqb a ","%char)) (list_ascii_of_string s)).

Definition digit_val (a : ascii) : Z := Z.of_nat (nat_of_ascii a - 48).

(** Value of a run of decimal digits, most significant first. *)
Fixpoint digits_val (acc : Z) (l : list ascii) : Z :=
  match l with
  | [] => acc
  | a :: l' => digits_val (10 * acc + digit_val a) l'
  end.

(** The digit part of an integer literal: digits, with single underscores
    allowed between digits. [prev] tells whether the previous character
    was a digit. *)
Fixpoint int_body (prev : bool) (acc : Z) (l : list ascii) : option Z :=
  match l with
  | [] => if prev then Some acc else None
  | a :: l' =>
      if is_digit a then int_body true (10 * acc + digit_val a) l'
      else if Ascii.eqb a "_"%char then
        (if prev then
           match l' with
           | b :: _ => if is_digit b then int_body false acc l' else None
           | [] => None
           end
         else None)
      else None
  end.

(** The white space [int] skips around an ASCII literal: tab, line feed,
    vertical tab, form feed, carriage return and space.  The separators
    28..31, which [str.strip] removes, are not among them. *)
Definition is_int_space (a : ascii) : bool :=
  let n := nat_of_ascii a in
  ((9 <=? n)%nat && (n <=? 13)%nat) || (n =? 32)%nat.

Fixpoint int_lstrip (l : list ascii) : list ascii :=
  match l with
  | a :: l' => if is_int_space a then int_lstrip l' else l
  | [] => []
  end.

Definition int_strip (l : list ascii) : list ascii :=
  rev (int_lstrip (rev (int_lstrip l))).

(** [sys.get_int_max_str_digits()], which the program leaves at the
    interpreter's default. *)
Definition int_max_str_digits : Z := 4300.

(** The number of digit characters of a literal; underscores and the sign
    do not count. *)
Definition count_digits (l : list ascii) : Z :=
  Z.of_nat (length (List.filter is_digit l)).

(** The digits of a literal, once the sign is off.  A literal with more
    digits than the interpreter converts is a [ValueError], and so is one
    that is not well formed. *)
Definition int_unsigned (l : list ascii) : result Z :=
  if (count_digits l <=? int_max_str_digits)%Z then
    match int_body false 0 l with
    | Some n => Ok n
    | None => Raise ValueError
    end
  else Raise ValueError.

(** [int(s)] on a string: surrounding whitespace, an optional sign, then
    the digits. *)
Definition int (s : string) : result Z :=
  match int_strip (list_ascii_of_string s) with
  | [] => Raise ValueError
  | a :: l =>
      if Ascii.eqb a "-"%char then n <- int_unsigned l ;; Ok (- n)%Z
      else if Ascii.eqb a "+"%char then int_unsigned l
      else int_unsigned (a :: l)
  end.

End Py.

(** ** Timestamps *)

Record datetime := mk_datetime {
  dt_year : Z; dt_month : Z; dt_day : Z;
  dt_hour : Z; dt_minute : Z; dt_second : Z
}.

Definition is_leap (y : Z) : bool :=
  ((y mod 4 =? 0) && (negb (y mod 100 =? 0) || (y mod 400 =? 0)))%Z.

Definition days_in_month (y mo : Z) : Z :=
  if (mo =? 2)%Z then (if is_leap y then 29 else 28)%Z
  else if ((mo =? 4) || (mo =? 6) || (mo =? 9) || (mo =? 11))%Z then 30%Z
  else 31%Z.

Definition days_before_year (y : Z) : Z :=
  let p := (y - 1)%Z in (p * 365 + p / 4 - p / 100 + p / 400)%Z.

Fixpoint days_before_month_nat (y : Z) (mo : nat) : Z :=
  match mo with
  | O => 0%Z
  | S k => (days_before_month_nat y k + days_in_month y (Z.of_nat (S k)))%Z
  end.

Definition days_before_month (y mo : Z) : Z :=
  days_before_month_nat y (Z.to_nat (mo - 1)).

(** [date.toordinal()] *)
Definition toordinal (d : datetime) : Z :=
  (days_before_year (dt_year d) + days_before_month (dt_year d) (dt_month d) + dt_day d)%Z.

Definition to_seconds (d : datetime) : Z :=
  (toordinal d * 86400 + dt_hour d * 3600 + dt_minute d * 60 + dt_second d)%Z.

(** [int((a - b).total_seconds())] for two datetimes: the capture has no
    fractions of a second, so the difference is a whole number. *)
Definition seconds_between (a b : datetime) : Z := (to_seconds a - to_seconds b)%Z.

Definition num2 (a b : ascii) : Z := (10 * Py.digit_val a + Py.digit_val b)%Z.

Definition valid_datetime (d : datetime) : bool :=
  ((1 <=? dt_month d) && (dt_month d <=? 12) &&
   (1 <=? dt_day d) && (dt_day d <=? days_in_month (dt_year d) (dt_month d)) &&
   (0 <=? dt_hour d) && (dt_hour d <=? 23) &&
   (0 <=? dt_minute d) && (dt_minute d <=? 59) &&
   (0 <=? dt_second d) && (dt_second d <=? 59))%Z.

(** [datetime.strptime(ts, '%m-%d-%y %H:%M:%S')] on the text captured by
    [TS] (the only text the scanner passes): six two-digit fields.  [%y]
    maps 00-68 to 2000-2068 and 69-99 to 1969-1999; a field out of range,
    or a day the month does not have, is a [ValueError]. *)
Definition parse_log_ts (ts : string) : result datetime :=
  match list_ascii_of_string ts with
  | [m1; m2; s1; d1; d2; s2; y1; y2; s3; h1; h2; s4; n1; n2; s5; c1; c2] =>
      if forallb is_digit [m1; m2; d1; d2; y1; y2; h1; h2; n1; n2; c1; c2] &&
         Ascii.eqb s1 "-"%char && Ascii.eqb s2 "-"%char && Ascii.eqb s3 " "%char &&
         Ascii.eqb s4 ":"%char && Ascii.eqb s5 ":"%char
      then
        let yy := num2 y1 y2 in
        let d := {| dt_year := if (yy <=? 68)%Z then (2000 + yy)%Z else (1900 + yy)%Z;
                    dt_month := num2 m1 m2; dt_day := num2 d1 d2;
                    dt_hour := num2 h1 h2; dt_minute := num2 n1 n2;
                    dt_second := num2 c1 c2 |} in
        if valid_datetime d then Ok d else Raise ValueError
      else Raise ValueError
  | _ => Raise ValueError
  end.

(** ** Call records *)

Inductive ConnectionType := MODEM | DIRECTSERIAL.

(** The enum has no member [DIRECT]: looking it up raises. *)
Definition ConnectionType_DIRECT : result ConnectionType := Raise AttributeError.

(** A value of a parsed diagnostic block: [int(value)] or [value.strip()]. *)
Inductive value := VInt (n : Z) | VStr (s : string).

(** What a flag attribute can hold at run time: the fields are declared
    [Optional[bool]], the scanner stores the text of a group in them. *)
Inductive pyval := PyBool (b : bool) | PyStr (s : string).

(** The instance attributes of [CallRecord] ([None] is [None]).  The four
    [count_*] dataclass fields are left out: each instance keeps them at
    their default 0, the code counts in the class attributes ([Counters]
    below).  [remote_ansi_detected] is not a declared field: the scanner
    creates it on the instance (outer [None]: not created). *)
Record CallRecord := mk_CallRecord {
  connected : option bool;
  start_qmodem : option datetime;
  start_dial : option datetime;
  connect_time : option datetime;
  start_download : option datetime;
  end_download : option datetime;
  download_success : option bool;
  end_call : option datetime;
  exit_qmodem : option datetime;
  aborted_time : option datetime;
  abort_reason : option string;
  connect_type : ConnectionType;
  remote_connect_bps : option Z;
  remote_reliable : option pyval;
  remote_ansi : option bool;
  download_cps : option Z;
  ati6 : option (gmap string value);
  ati11 : option (gmap string value);
  aty11 : option string;
  atv : option string;
  remote_ansi_detected : option (option string)
}.

(** [CallRecord()] without its counting side effect. *)
Definition CallRecord_default : CallRecord :=
  {| connected := None;
     start_qmodem := None;
     start_dial := None;
     connect_time := None;
     start_download := None;
     end_download := None;
     download_success := None;
     end_call := None;
     exit_qmodem := None;
     aborted_time := None;
     abort_reason := None;
     connect_type := MODEM;
     remote_connect_bps := None;
     remote_reliable := None;
     remote_ansi := None;
     download_cps := None;
     ati6 := None;
     ati11 := None;
     aty11 := None;
     atv := None;
     remote_ansi_detected := None |}.

(** Attribute assignment [r.f = v], one function per assigned attribute. *)
Definition set_connected (v : option bool) (r : CallRecord) : CallRecord :=
  {| connected := v; start_qmodem := start_qmodem r; start_dial := start_dial r; connect_time :=
     connect_time r; start_download := start_download r; end_download := end_download r;
     download_success := download_success r; end_call := end_call r; exit_qmodem := exit_qmodem
     r; aborted_time := aborted_time r; abort_reason := abort_reason r; connect_type :=
     connect_type r; remote_connect_bps := remote_connect_bps r; remote_reliable :=
     remote_reliable r; remote_ansi := remote_ansi r; download_cps := download_cps r; ati6 :=
     ati6 r; ati11 := ati11 r; aty11 := aty11 r; atv := atv r; remote_ansi_detected :=
     remote_ansi_detected r |}.

Definition set_start_qmodem (v : option datetime) (r : CallRecord) : CallRecord :=
  {| connected := connected r; start_qmodem := v; start_dial := start_dial r; connect_time :=
     connect_time r; start_download := start_download r; end_download := end_download r;
     download_success := download_success r; end_call := end_call r; exit_qmodem := exit_qmodem
     r; aborted_time := aborted_time r; abort_reason := abort_reason r; connect_type :=
     connect_type r; remote_connect_bps := remote_connect_bps r; remote_reliable :=
     remote_reliable r; remote_ansi := remote_ansi r; download_cps := download_cps r; ati6 :=
     ati6 r; ati11 := ati11 r; aty11 := aty11 r; atv := atv r; remote_ansi_detected :=
     remote_ansi_detected r |}.

Definition set_start_dial (v : option datetime) (r : CallRecord) : CallRecord :=
  {| connected := connected r; start_qmodem := start_qmodem r; start_dial := v; connect_time :=
     connect_time r; start_download := start_download r; end_download := end_download r;
     download_success := download_success r; end_call := end_call r; exit_qmodem := exit_qmodem
     r; aborted_time := aborted_time r; abort_reason := abort_reason r; connect_type :=
     connect_type r; remote_connect_bps := remote_connect_bps r; remote_reliable :=
     remote_reliable r; remote_ansi := remote_ansi r; download_cps := download_cps r; ati6 :=
     ati6 r; ati11 := ati11 r; aty11 := aty11 r; atv := atv r; remote_ansi_detected :=
     remote_ansi_detected r |}.

Definition set_connect_time (v : option datetime) (r : CallRecord) : CallRecord :=
  {| connected := connected r; start_qmodem := start_qmodem r; start_dial := start_dial r;
     connect_time := v; start_download := start_download r; end_download := end_download r;
     download_success := download_success r; end_call := end_call r; exit_qmodem := exit_qmodem
     r; aborted_time := aborted_time r; abort_reason := abort_reason r; connect_type :=
     connect_type r; remote_connect_bps := remote_connect_bps r; remote_reliable :=
     remote_reliable r; remote_ansi := remote_ansi r; download_cps := download_cps r; ati6 :=
     ati6 r; ati11 := ati11 r; aty11 := aty11 r; atv := atv r; remote_ansi_detected :=
     remote_ansi_detected r |}.

Definition set_start_download (v : option datetime) (r : CallRecord) : CallRecord :=
  {| connected := connected r; start_qmodem := start_qmodem r; start_dial := start_dial r;
     connect_time := connect_time r; start_download := v; end_download := end_download r;
     download_success := download_success r; end_call := end_call r; exit_qmodem := exit_qmodem
     r; aborted_time := aborted_time r; abort_reason := abort_reason r; connect_type :=
     connect_type r; remote_connect_bps := remote_connect_bps r; remote_reliable :=
     remote_reliable r; remote_ansi := remote_ansi r; download_cps := download_cps r; ati6 :=
     ati6 r; ati11 := ati11 r; aty11 := aty11 r; atv := atv r; remote_ansi_detected :=
     remote_ansi_detected r |}.

Definition set_end_download (v : option datetime) (r : CallRecord) : CallRecord :=
  {| connected := connected r; start_qmodem := start_qmodem r; start_dial := start_dial r;
     connect_time := connect_time r; start_download := start_download r; end_download := v;
     download_success := download_success r; end_call := end_call r; exit_qmodem := exit_qmodem
     r; aborted_time := aborted_time r; abort_reason := abort_reason r; connect_type :=
     connect_type r; remote_connect_bps := remote_connect_bps r; remote_reliable :=
     remote_reliable r; remote_ansi := remote_ansi r; download_cps := download_cps r; ati6 :=
     ati6 r; ati11 := ati11 r; aty11 := aty11 r; atv := atv r; remote_ansi_detected :=
     remote_ansi_detected r |}.

Definition set_download_success (v : option bool) (r : CallRecord) : CallRecord :=
  {| connected := connected r; start_qmodem := start_qmodem r; start_dial := start_dial r;
     connect_time := connect_time r; start_download := start_download r; end_download :=
     end_download r; download_success := v; end_call := end_call r; exit_qmodem := exit_qmodem
     r; aborted_time := aborted_time r; abort_reason := abort_reason r; connect_type :=
     connect_type r; remote_connect_bps := remote_connect_bps r; remote_reliable :=
     remote_reliable r; remote_ansi := remote_ansi r; download_cps := download_cps r; ati6 :=
     ati6 r; ati11 := ati11 r; aty11 := aty11 r; atv := atv r; remote_ansi_detected :=
     remote_ansi_detected r |}.

Definition set_end_call (v : option datetime) (r : CallRecord) : CallRecord :=
  {| connected := connected r; start_qmodem := start_qmodem r; start_dial := start_dial r;
     connect_time := connect_time r; start_download := start_download r; end_download :=
     end_download r; download_success := download_success r; end_call := v; exit_qmodem :=
     exit_qmodem r; aborted_time := aborted_time r; abort_reason := abort_reason r; connect_type
     := connect_type r; remote_connect_bps := remote_connect_bps r; remote_reliable :=
     remote_reliable r; remote_ansi := remote_ansi r; download_cps := download_cps r; ati6 :=
     ati6 r; ati11 := ati11 r; aty11 := aty11 r; atv := atv r; remote_ansi_detected :=
     remote_ansi_detected r |}.

Definition set_exit_qmodem (v : option datetime) (r : CallRecord) : CallRecord :=
  {| connected := connected r; start_qmodem := start_qmodem r; start_dial := start_dial r;
     connect_time := connect_time r; start_download := start_download r; end_download :=
     end_download r; download_success := download_success r; end_call := end_call r; exit_qmodem
     := v; aborted_time := aborted_time r; abort_reason := abort_reason r; connect_type :=
     connect_type r; remote_connect_bps := remote_connect_bps r; remote_reliable :=
     remote_reliable r; remote_ansi := remote_ansi r; download_cps := download_cps r; ati6 :=
     ati6 r; ati11 := ati11 r; aty11 := aty11 r; atv := atv r; remote_ansi_detected :=
     remote_ansi_detected r |}.

Definition set_aborted_time (v : option datetime) (r : CallRecord) : CallRecord :=
  {| connected := connected r; start_qmodem := start_qmodem r; start_dial := start_dial r;
     connect_time := connect_time r; start_download := start_download r; end_download :=
     end_download r; download_success := download_success r; end_call := end_call r; exit_qmodem
     := exit_qmodem r; aborted_time := v; abort_reason := abort_reason r; connect_type :=
     connect_type r; remote_connect_bps := remote_connect_bps r; remote_reliable :=
     remote_reliable r; remote_ansi := remote_ansi r; download_cps := download_cps r; ati6 :=
     ati6 r; ati11 := ati11 r; aty11 := aty11 r; atv := atv r; remote_ansi_detected :=
     remote_ansi_detected r |}.

Definition set_abort_reason (v : option string) (r : CallRecord) : CallRecord :=
  {| connected := connected r; start_qmodem := start_qmodem r; start_dial := start_dial r;
     connect_time := connect_time r; start_download := start_download r; end_download :=
     end_download r; download_success := download_success r; end_call := end_call r; exit_qmodem
     := exit_qmodem r; aborted_time := aborted_time r; abort_reason := v; connect_type :=
     connect_type r; remote_connect_bps := remote_connect_bps r; remote_reliable :=
     remote_reliable r; remote_ansi := remote_ansi r; download_cps := download_cps r; ati6 :=
     ati6 r; ati11 := ati11 r; aty11 := aty11 r; atv := atv r; remote_ansi_detected :=
     remote_ansi_detected r |}.

Definition set_connect_type (v : ConnectionType) (r : CallRecord) : CallRecord :=
  {| connected := connected r; start_qmodem := start_qmodem r; start_dial := start_dial r;
     connect_time := connect_time r; start_download := start_download r; end_download :=
     end_download r; download_success := download_success r; end_call := end_call r; exit_qmodem
     := exit_qmodem r; aborted_time := aborted_time r; abort_reason := abort_reason r;
     connect_type := v; remote_connect_bps := remote_connect_bps r; remote_reliable :=
     remote_reliable r; remote_ansi := remote_ansi r; download_cps := download_cps r; ati6 :=
     ati6 r; ati11 := ati11 r; aty11 := aty11 r; atv := atv r; remote_ansi_detected :=
     remote_ansi_detected r |}.

Definition set_remote_connect_bps (v : option Z) (r : CallRecord) : CallRecord :=
  {| connected := connected r; start_qmodem := start_qmodem r; start_dial := start_dial r;
     connect_time := connect_time r; start_download := start_download r; end_download :=
     end_download r; download_success := download_success r; end_call := end_call r; exit_qmodem
     := exit_qmodem r; aborted_time := aborted_time r; abort_reason := abort_reason r;
     connect_type := connect_type r; remote_connect_bps := v; remote_reliable := remote_reliable
     r; remote_ansi := remote_ansi r; download_cps := download_cps r; ati6 := ati6 r; ati11 :=
     ati11 r; aty11 := aty11 r; atv := atv r; remote_ansi_detected := remote_ansi_detected r |}.

Definition set_remote_reliable (v : option pyval) (r : CallRecord) : CallRecord :=
  {| connected := connected r; start_qmodem := start_qmodem r; start_dial := start_dial r;
     connect_time := connect_time r; start_download := start_download r; end_download :=
     end_download r; download_success := download_success r; end_call := end_call r; exit_qmodem
     := exit_qmodem r; aborted_time := aborted_time r; abort_reason := abort_reason r;
     connect_type := connect_type r; remote_connect_bps := remote_connect_bps r; remote_reliable
     := v; remote_ansi := remote_ansi r; download_cps := download_cps r; ati6 := ati6 r; ati11
     := ati11 r; aty11 := aty11 r; atv := atv r; remote_ansi_detected := remote_ansi_detected r
     |}.

Definition set_download_cps (v : option Z) (r : CallRecord) : CallRecord :=
  {| connected := connected r; start_qmodem := start_qmodem r; start_dial := start_dial r;
     connect_time := connect_time r; start_download := start_download r; end_download :=
     end_download r; download_success := download_success r; end_call := end_call r; exit_qmodem
     := exit_qmodem r; aborted_time := aborted_time r; abort_reason := abort_reason r;
     connect_type := connect_type r; remote_connect_bps := remote_connect_bps r; remote_reliable
     := remote_reliable r; remote_ansi := remote_ansi r; download_cps := v; ati6 := ati6 r;
     ati11 := ati11 r; aty11 := aty11 r; atv := atv r; remote_ansi_detected :=
     remote_ansi_detected r |}.

Definition set_ati6 (v : option (gmap string value)) (r : CallRecord) : CallRecord :=
  {| connected := connected r; start_qmodem := start_qmodem r; start_dial := start_dial r;
     connect_time := connect_time r; start_download := start_download r; end_download :=
     end_download r; download_success := download_success r; end_call := end_call r; exit_qmodem
     := exit_qmodem r; aborted_time := aborted_time r; abort_reason := abort_reason r;
     connect_type := connect_type r; remote_connect_bps := remote_connect_bps r; remote_reliable
     := remote_reliable r; remote_ansi := remote_ansi r; download_cps := download_cps r; ati6 :=
     v; ati11 := ati11 r; aty11 := aty11 r; atv := atv r; remote_ansi_detected :=
     remote_ansi_detected r |}.

Definition set_ati11 (v : option (gmap string value)) (r : CallRecord) : CallRecord :=
  {| connected := connected r; start_qmodem := start_qmodem r; start_dial := start_dial r;
     connect_time := connect_time r; start_download := start_download r; end_download :=
     end_download r; download_success := download_success r; end_call := end_call r; exit_qmodem
     := exit_qmodem r; aborted_time := aborted_time r; abort_reason := abort_reason r;
     connect_type := connect_type r; remote_connect_bps := remote_connect_bps r; remote_reliable
     := remote_reliable r; remote_ansi := remote_ansi r; download_cps := download_cps r; ati6 :=
     ati6 r; ati11 := v; aty11 := aty11 r; atv := atv r; remote_ansi_detected :=
     remote_ansi_detected r |}.

Definition set_remote_ansi_detected (v : option (option string)) (r : CallRecord) : CallRecord :=
  {| connected := connected r; start_qmodem := start_qmodem r; start_dial := start_dial r;
     connect_time := connect_time r; start_download := start_download r; end_download :=
     end_download r; download_success := download_success r; end_call := end_call r; exit_qmodem
     := exit_qmodem r; aborted_time := aborted_time r; abort_reason := abort_reason r;
     connect_type := connect_type r; remote_connect_bps := remote_connect_bps r; remote_reliable
     := remote_reliable r; remote_ansi := remote_ansi r; download_cps := download_cps r; ati6 :=
     ati6 r; ati11 := ati11 r; aty11 := aty11 r; atv := atv r; remote_ansi_detected := v |}.

(** ** The class-level counters *)

Record Counters := mk_Counters {
  count_start_dial : nat;
  count_connected : nat;
  count_download_failure : nat;
  count_download_success : nat
}.

(** The class attributes when the module has just been loaded. *)
Definition counters0 : Counters := mk_Counters 0 0 0 0.

(** [CallRecord()]: the defaults, and [__post_init__] counts the attempt. *)
Definition new_CallRecord (c : Counters) : CallRecord * Counters :=
  (CallRecord_default,
   mk_Counters (S (count_start_dial c)) (count_connected c)
     (count_download_failure c) (count_download_success c)).

Definition mark_connected (success : bool) (r : CallRecord) (c : Counters)
  : CallRecord * Counters :=
  (set_connected (Some success) r,
   if success then
     mk_Counters (count_start_dial c) (S (count_connected c))
       (count_download_failure c) (count_download_success c)
   else c).

Definition mark_download_success (success : bool) (r : CallRecord) (c : Counters)
  : CallRecord * Counters :=
  if success then
    (set_download_success (Some true) r,
     mk_Counters (count_start_dial c) (count_connected c)
       (count_download_failure c) (S (count_download_success c)))
  else
    (set_download_success (Some false) r,
     mk_Counters (count_start_dial c) (count_connected c)
       (S (count_download_failure c)) (count_download_success c)).

Definition connect_failure_count (c : Counters) : Z :=
  (Z.of_nat (count_start_dial c) - Z.of_nat (count_connected c))%Z.

Definition Q_of_nat (n : nat) : Q := inject_Z (Z.of_nat n).

(** Python's true division [a / b]; the float result is kept as the exact
    rational. *)
Definition py_div (a b : Q) : result Q :=
  if Qeq_bool b 0 then Raise ZeroDivisionError else Ok (a / b)%Q.

Definition connect_success_percent (c : Counters) : result Q :=
  if (count_start_dial c =? 0)%nat then Ok 0%Q
  else
    q <- py_div (Q_of_nat (count_connected c)) (Q_of_nat (count_start_dial c)) ;;
    Ok (q * 100)%Q.

(** The percentage that [report_aggregates] prints. *)
Definition download_success_pct (c : Counters) : result Q :=
  if (count_download_failure c =? 0)%nat then Ok 100%Q
  else
    q <- py_div (Q_of_nat (count_download_success c))
           (Q_of_nat (count_download_success c + count_download_failure c)) ;;
    Ok (q * 100)%Q.

(** ** Derived durations *)

(** [int((a - b).total_seconds())] on two attributes: subtracting with a
    [None] operand is a [TypeError]. *)
Definition sub_seconds (a b : option datetime) : result Z :=
  match a, b with
  | Some x, Some y => Ok (seconds_between x y)
  | _, _ => Raise TypeError
  end.

(** The three strings [termination_reason] returns. *)
Inductive Termination :=
| AbortedAfter (sec : Z)   (* 'ABORTED after {sec} sec.' *)
| NormalEnd                (* 'normal' *)
| UnknownEnd.              (* 'unknown' *)

Definition termination_reason (r : CallRecord) : result Termination :=
  match aborted_time r with
  | Some _ =>
      aborted_after <- sub_seconds (aborted_time r) (connect_time r) ;;
      Ok (AbortedAfter aborted_after)
  | None =>
      match end_call r with
      | Some _ => Ok NormalEnd
      | None => Ok UnknownEnd
      end
  end.

Definition call_duration (r : CallRecord) : result (option Z) :=
  match connect_type r with
  | DIRECTSERIAL =>
      d <- sub_seconds (exit_qmodem r) (start_qmodem r) ;; Ok (Some d)
  | MODEM =>
      match end_call r with
      | Some _ => d <- sub_seconds (end_call r) (connect_time r) ;; Ok (Some d)
      | None =>
          match aborted_time r with
          | Some _ => d <- sub_seconds (aborted_time r) (connect_time r) ;; Ok (Some d)
          | None =>
              match exit_qmodem r with
              | Some _ => d <- sub_seconds (exit_qmodem r) (connect_time r) ;; Ok (Some d)
              | None => Ok None
              end
          end
      end
  end.

Definition download_duration (r : CallRecord) : result (option Z) :=
  match download_success r with
  | Some true => d <- sub_seconds (end_download r) (start_download r) ;; Ok (Some d)
  | _ => Ok None
  end.

Definition handshake_duration (r : CallRecord) : option Z :=
  match connect_type r with
  | DIRECTSERIAL => Some 0%Z
  | MODEM =>
      match start_dial r, connect_time r with
      | Some d, Some c => Some (seconds_between c d)
      | _, _ => None
      end
  end.

(** ** The diagnostic-block parser *)

(** [m.group(n)] used as a string. *)
Definition group_str (mo : Match) (n : nat) : result string :=
  match group mo n with
  | Some s => Ok s
  | None => Raise AttributeError
  end.

Definition nonempty (s : string) : bool :=
  match s with EmptyString => false | _ => true end.

Section ParseOutput.
Variable mapping : gmap string string.

Definition mapped_name (in_key : string) : option string := mapping !! in_key.

(** [if (k := self.mapped_name(key.strip())): data[k] = v] *)
Definition store (key : string) (v : result value) (data : gmap string value)
  : result (gmap string value) :=
  match mapped_name (Py.strip key) with
  | Some k =>
      if nonempty k then (x <- v ;; Ok (<[k := x]> data)) else Ok data
  | None => Ok data
  end.

Definition int_value (text : string) : result value :=
  n <- Py.int text ;; Ok (VInt n).

(** One turn of the loop over the block's lines. *)
Definition parse_line (data : gmap string value) (line : string)
  : result (gmap string value) :=
  match rmatch r_usr line with
  | Some _ => Ok data
  | None =>
  match rmatch r_pair2 line with
  | Some mo =>
      key1 <- group_str mo 1 ;; value1 <- group_str mo 2 ;;
      key2 <- group_str mo 3 ;; value2 <- group_str mo 4 ;;
      data1 <- store key1 (int_value value1) data ;;
      store key2 (int_value value2) data1
  | None =>
  match rmatch r_pair1_num line with
  | Some mo =>
      key <- group_str mo 1 ;; val <- group_str mo 2 ;;
      store key (int_value val) data
  | None =>
  match rmatch r_pair1_str line with
  | Some mo =>
      key <- group_str mo 1 ;; val <- group_str mo 2 ;;
      store key (Ok (VStr (Py.strip val))) data
  | None => Ok data
  end end end end.

Fixpoint parse_lines (data : gmap string value) (lines : list string)
  : result (gmap string value) :=
  match lines with
  | [] => Ok data
  | line :: rest => data' <- parse_line data line ;; parse_lines data' rest
  end.

Definition parse_output (input_lines : list string) : result (gmap string value) :=
  match input_lines with
  | [] => Ok ∅
  | _ => parse_lines ∅ input_lines
  end.
End ParseOutput.

Definition ATI6_mapping : gmap string string :=
  list_to_map
    [ ("Chars sent", "chars_tx"); ("Chars Received", "chars_rx");
      ("Chars lost", "chars_lost"); ("Octets sent", "octets_tx");
      ("Octets Received", "octets_rx"); ("Blocks sent", "blocks_tx");
      ("Blocks Received", "blocks_rx"); ("Blocks resent", "blocks_resent");
      ("Retrains Requested", "retr_req"); ("Retrains Granted", "retr_granted");
      ("Line Reversals", "line_reversals"); ("Blers", "blers");
      ("Link Timeouts", "link_timeouts"); ("Link Naks", "link_naks");
      ("Data Compression", "data_compression"); ("Equalization", "equalization");
      ("Fallback", "fallback"); ("Protocol", "protocol"); ("Speed", "speed");
      ("Last Call", "last_call"); ("Disconnect Reason is", "disconnect_reason") ].

Definition ATI11_mapping : gmap string string :=
  list_to_map
    [ ("Modulation", "modulation"); ("Carrier Freq ( Hz )", "carrier_freq");
      ("Symbol Rate", "symbol_rate"); ("Trellis Code", "trellis_code");
      ("Nonlinear Encoding", "nonlinear_encoding"); ("Precoding", "precoding");
      ("Shaping", "shaping"); ("Preemphasis Index", "preemphasis_index");
      ("Recv/Xmit Level (-dBm)", "recv_xmit_level");
      ("SNR             ( dB )", "snr");
      ("Near Echo Loss  ( dB )", "near_echo_loss");
      ("Far Echo Loss   ( dB )", "far_echo_loss");
      ("Roundtrip Delay (msec)", "roundtrip_delay");
      ("Round Trip Delay (msec)", "roundtrip_delay");
      ("Timing Offset   ( ppm)", "timing_offset");
      ("Carrier Offset  ( ppm)", "carrier_offset");
      ("RX Upshifts", "rx_upshifts"); ("RX Downshifts", "rx_downshifts");
      ("TX Speedshifts", "tx_speedshifts"); ("x2 Status", "x2_status") ].

(** [ATI6Parser(lines)] and [ATI11Parser(lines)]: the object is its [data]. *)
Definition ATI6Parser (input_lines : list string) : result (gmap string value) :=
  parse_output ATI6_mapping input_lines.
Definition ATI11Parser (input_lines : list string) : result (gmap string value) :=
  parse_output ATI11_mapping input_lines.

(** ** The scanning loop of [read_file] *)

Record Args := { nullmodem : bool }.

(** The local variables of [read_file] and the class counters. *)
Record LoopState := mk_LoopState {
  repo : list CallRecord;        (* [repo.records] *)
  in_ati : bool;
  ati_lines : list string;
  aborted : bool;
  record : option CallRecord;
  counters : Counters
}.

Definition loop_init (c : Counters) : LoopState :=
  {| repo := []; in_ati := false; ati_lines := []; aborted := false;
     record := None; counters := c |}.

(** Reaching an attribute of [record]: [None] has none. *)
Definition the_record (st : LoopState) : result CallRecord :=
  match record st with
  | Some r => Ok r
  | None => Raise AttributeError
  end.

(** [parse_log_ts(mo.group(n))] *)
Definition parse_group (mo : Match) (n : nat) : result datetime :=
  match group mo n with
  | Some t => parse_log_ts t
  | None => Raise TypeError
  end.

(** [int(mo.group(n))] *)
Definition int_group (mo : Match) (n : nat) : result Z :=
  match group mo n with
  | Some t => Py.int t
  | None => Raise TypeError
  end.

Definition with_record (st : LoopState) (r : CallRecord) : LoopState :=
  {| repo := repo st; in_ati := in_ati st; ati_lines := ati_lines st;
     aborted := aborted st; record := Some r; counters := counters st |}.

(** [record.f = parse_log_ts(mo.group(1))]: the right-hand side first. *)
Definition stamp (set : option datetime -> CallRecord -> CallRecord)
    (mo : Match) (st : LoopState) : result LoopState :=
  ts <- parse_group mo 1 ;;
  r <- the_record st ;;
  Ok (with_record st (set (Some ts) r)).

(** The body of [for line in file]; each [continue] ends the turn. *)
Definition body (args : Args) (line : string) (st : LoopState) : result LoopState :=
  match search r_start_qmodem line with
  | Some mo =>
      ts_start <- parse_group mo g_ts_start_qmodem ;;
      let repo1 :=
        match record st with
        | Some r =>
            match start_qmodem r with
            | Some _ => repo st ++ [r]
            | None => repo st
            end
        | None => repo st
        end in
      let '(r0, c1) := new_CallRecord (counters st) in
      ct <- (if nullmodem args then ConnectionType_DIRECT else Ok MODEM) ;;
      let r1 := set_start_qmodem (Some ts_start) (set_connect_type ct r0) in
      ts_again <- parse_group mo g_ts_start_qmodem ;;
      Ok {| repo := repo1; in_ati := in_ati st; ati_lines := ati_lines st;
            aborted := false; record := Some (set_start_qmodem (Some ts_again) r1);
            counters := c1 |}
  | None =>
  match search r_abort line with
  | Some mo =>
      ts <- parse_group mo g_ts_abort ;;
      r <- the_record st ;;
      let r1 := set_aborted_time (Some ts) r in
      let r2 := set_abort_reason (group mo g_reason) r1 in
      Ok {| repo := repo st; in_ati := in_ati st; ati_lines := ati_lines st;
            aborted := true; record := Some r2; counters := counters st |}
  | None =>
  match search r_start_dial line with
  | Some mo => stamp set_start_dial mo st
  | None =>
  match search r_connected line with
  | Some mo =>
      ts <- parse_group mo 1 ;;
      r <- the_record st ;;
      let '(r1, c1) := mark_connected true (set_connect_time (Some ts) r) (counters st) in
      Ok {| repo := repo st; in_ati := in_ati st; ati_lines := ati_lines st;
            aborted := aborted st; record := Some r1; counters := c1 |}
  | None =>
  match search r_wc_banner line with
  | Some mo =>
      bps <- int_group mo g_wc_connect_bps ;;
      r <- the_record st ;;
      let r1 := set_remote_connect_bps (Some bps) r in
      let r2 := set_remote_reliable (option_map PyStr (group mo g_wc_reliable)) r1 in
      let r3 := set_remote_ansi_detected (Some (group mo g_wc_ansi_detect)) r2 in
      Ok (with_record st r3)
  | None =>
  match search r_start_download line with
  | Some mo => stamp set_start_download mo st
  | None =>
  match search r_end_download line with
  | Some mo => stamp set_end_download mo st
  | None =>
  match search r_dl_status_cps line with
  | Some mo =>
      let download_result := group mo 1 in
      r <- the_record st ;;
      let '(r1, c1) :=
        mark_download_success
          (match download_result with
           | Some s => String.eqb s "SUCCESSFUL!"
           | None => false
           end) r (counters st) in
      r2 <- match group mo 2 with
            | Some cps =>
                if nonempty cps then
                  n <- Py.int (Py.remove_commas cps) ;; Ok (set_download_cps (Some n) r1)
                else Ok r1
            | None => Ok r1
            end ;;
      Ok {| repo := repo st; in_ati := in_ati st; ati_lines := ati_lines st;
            aborted := aborted st; record := Some r2; counters := c1 |}
  | None =>
  match rmatch r_end_call line with
  | Some mo => stamp set_end_call mo st
  | None =>
  match rmatch r_stats_ati6 line with
  | Some _ =>
      Ok {| repo := repo st; in_ati := true; ati_lines := [];
            aborted := aborted st; record := record st; counters := counters st |}
  | None =>
  let lines1 := if in_ati st then ati_lines st ++ [Py.strip line] else ati_lines st in
  match rmatch r_stats_ati6_end line with
  | Some _ =>
      parsed <- ATI6Parser lines1 ;;
      r <- the_record st ;;
      Ok {| repo := repo st; in_ati := false; ati_lines := [];
            aborted := aborted st; record := Some (set_ati6 (Some parsed) r);
            counters := counters st |}
  | None =>
  let '(in_ati2, lines2) :=
    match rmatch r_stats_ati11 line with
    | Some _ => (true, [])
    | None => (in_ati st, lines1)
    end in
  match rmatch r_stats_ati11_end line with
  | Some _ =>
      parsed <- ATI11Parser lines2 ;;
      r <- the_record st ;;
      Ok {| repo := repo st; in_ati := false; ati_lines := [];
            aborted := aborted st; record := Some (set_ati11 (Some parsed) r);
            counters := counters st |}
  | None =>
  match rmatch r_exit_qmodem line with
  | Some mo =>
      ts <- parse_group mo 1 ;;
      r <- the_record st ;;
      Ok {| repo := repo st ++ [set_exit_qmodem (Some ts) r]; in_ati := in_ati2;
            ati_lines := lines2; aborted := aborted st; record := None;
            counters := counters st |}
  | None =>
      Ok {| repo := repo st; in_ati := in_ati2; ati_lines := lines2;
            aborted := aborted st; record := record st; counters := counters st |}
  end end end end end end end end end end end end end.

(** The [for] loop over the lines of the file. *)
Fixpoint scan (args : Args) (lines : list string) (st : LoopState) : result LoopState :=
  match lines with
  | [] => Ok st
  | line :: rest => st' <- body args line st ;; scan args rest st'
  end.

(** [read_file], once the file is open: [lines] are the lines the file
    yields, in order, and [c] the class counters as they stand at the call.
    It returns the records of the store and the counters as it leaves them;
    the last statement before [return] formats the connect percentage. *)
Definition read_file (args : Args) (lines : list string) (c : Counters)
  : result (list CallRecord * Counters) :=
  st <- scan args lines (loop_init c) ;;
  let records :=
    match record st with
    | Some r => repo st ++ [r]
    | None => repo st
    end in
  _ <- connect_success_percent (counters st) ;;
  Ok (records, counters st).

(** ** The report: [print_report2] and [report_aggregates]

    The line printed for each record is modelled as the string the
    f-string builds; its fields are evaluated and formatted from left to
    right, so the first field that raises decides the exception.  Of
    [report_aggregates], the count of the termination reasons, the download
    percentage (above) and the integer columns of [stats] are modelled; the
    [p95] column (a floating-point percentile) and the printing are not. *)

Module Fmt.

(** [str(n)] for an integer. *)
Definition str_of_int (n : Z) : string := NilZero.string_of_int (Z.to_int n).

Fixpoint spaces (n : nat) : string :=
  match n with
  | O => EmptyString
  | S k => String " " (spaces k)
  end.

(** Right and left alignment in a field of [width] characters; a longer
    text is not cut. *)
Definition rjust (width : nat) (s : string) : string :=
  spaces (width - String.length s) +:+ s.
Definition ljust (width : nat) (s : string) : string :=
  s +:+ spaces (width - String.length s).

(** [f"{v:{width}}"]: an integer goes to the right, a string to the left. *)
Definition format_value (v : value) (width : nat) : string :=
  match v with
  | VInt n => rjust width (str_of_int n)
  | VStr s => ljust width s
  end.

(** [f"{v}"] *)
Definition str_value (v : value) : string :=
  match v with
  | VInt n => str_of_int n
  | VStr s => s
  end.

(** Two digits, with a leading zero. *)
Definition zero2 (n : Z) : string :=
  if (n <? 10)%Z then "0" +:+ str_of_int n else str_of_int n.

(** [d.strftime('%Y-%m-%d %H:%M:%S')], for a year of four digits. *)
Definition strftime (d : datetime) : string :=
  str_of_int (dt_year d) +:+ "-" +:+ zero2 (dt_month d) +:+ "-" +:+ zero2 (dt_day d) +:+
  " " +:+ zero2 (dt_hour d) +:+ ":" +:+ zero2 (dt_minute d) +:+ ":" +:+ zero2 (dt_second d).

End Fmt.

Definition download_success_msg (r : CallRecord) : option string :=
  match download_success r with
  | Some true => Some "SUCCESS"
  | Some false => Some "FAILED"
  | None => None
  end.

(** The nested [fmt_optional] of [print_report2]. *)
Definition fmt_optional (val : option value) (width : nat) : string :=
  match val with
  | Some v => Fmt.format_value v width
  | None => Fmt.rjust width "-"
  end.

(** [d.get(key, '-')] on the data of a block. *)
Definition get_or_dash (d : gmap string value) (key : string) : value :=
  match d !! key with
  | Some v => v
  | None => VStr "-"
  end.

(** The text [termination_reason] returns. *)
Definition termination_text (t : Termination) : string :=
  match t with
  | AbortedAfter sec => "ABORTED after " +:+ Fmt.str_of_int sec +:+ " sec."
  | NormalEnd => "normal"
  | UnknownEnd => "unknown"
  end.

(** The line [print_report2] prints for one record. *)
Definition report_row (rec : CallRecord) : result string :=
  let data6 := match ati6 rec with Some d => d | None => ∅ end in
  let data11 := match ati11 rec with Some d => d | None => ∅ end in
  started <- match start_qmodem rec with
             | Some d => Ok (Fmt.strftime d)
             | None => Raise AttributeError
             end ;;
  let bps := fmt_optional (option_map VInt (remote_connect_bps rec)) 6 in
  handshake <- match handshake_duration rec with
               | Some n => Ok (Fmt.rjust 3 (Fmt.str_of_int n))
               | None => Raise TypeError
               end ;;
  let msg := fmt_optional (option_map VStr (download_success_msg rec)) 10 in
  let cps := fmt_optional (option_map VInt (download_cps rec)) 6 in
  dd <- download_duration rec ;;
  let dl := fmt_optional (option_map VInt dd) 4 in
  let speed := fmt_optional (Some (get_or_dash data6 "speed")) 5 in
  let protocol := fmt_optional (Some (get_or_dash data6 "protocol")) 16 in
  let delay := Fmt.str_value (get_or_dash data11 "roundtrip_delay") in
  cd <- call_duration rec ;;
  let call := fmt_optional (option_map VInt cd) 4 in
  let retrains :=
    Fmt.str_value (get_or_dash data6 "retr_req") +:+ "/" +:+
    Fmt.str_value (get_or_dash data6 "retr_granted") +:+ "  " +:+
    Fmt.str_value (get_or_dash data6 "blers") in
  reason <- termination_reason rec ;;
  Ok (started +:+ ": " +:+ bps +:+ "   " +:+ handshake +:+ "   " +:+ msg +:+ "  " +:+
      cps +:+ "  " +:+ dl +:+ "  " +:+ speed +:+ "  " +:+ protocol +:+ "  " +:+
      delay +:+ "  " +:+ call +:+ "  " +:+ retrains +:+ " " +:+
      termination_text reason +:+ " ").

(** The loop of [print_report2] over [sessions.all()]: the lines printed,
    and how the loop ended. *)
Fixpoint print_rows (records : list CallRecord) : list string * result unit :=
  match records with
  | [] => ([], Ok tt)
  | rec :: rest =>
      match report_row rec with
      | Ok row => let '(out, res) := print_rows rest in (row :: out, res)
      | Raise e => ([], Raise e)
      end
  end.

(** The first loop of [report_aggregates]: the counter of the termination
    reasons, as ([normal], [aborted_unknown]). *)
Fixpoint termination_reasons (records : list CallRecord) (normal other : nat)
  : result (nat * nat) :=
  match records with
  | [] => Ok (normal, other)
  | r :: rest =>
      reason <- termination_reason r ;;
      match reason with
      | NormalEnd => termination_reasons rest (S normal) other
      | _ => termination_reasons rest normal (S other)
      end
  end.

(** [CallSessionStore.durations]: the values the extractor gives, without
    the missing ones; the extractor may raise. *)
Fixpoint durations (extractor : CallRecord -> result (option Z))
    (records : list CallRecord) : result (list Z) :=
  match records with
  | [] => Ok []
  | r :: rest =>
      v <- extractor r ;;
      results <- durations extractor rest ;;
      Ok (match v with Some x => x :: results | None => results end)
  end.

(** The integer columns of [stats]: [sum(values)//len(values)],
    [min(values)] and [max(values)]; [None] stands for the line [N/A]. *)
Definition stats_numbers (values : list Z) : option (Z * Z * Z) :=
  match values with
  | [] => None
  | x :: rest =>
      Some ((fold_left Z.add values 0 / Z.of_nat (length values))%Z,
            fold_left Z.min rest x, fold_left Z.max rest x)
  end.

(** * Notions used in the statements *)

(** ** What a successful match is

    [Matches r s c s' c']: [r] matches a prefix of [s], leaving [s'], and
    turns the captures [c] into [c']. *)
Inductive Matches : re -> list ascii -> caps -> list ascii -> caps -> Prop :=
| M_eps s c : Matches Eps s c s c
| M_chr p a s c : cls_test p a = true -> Matches (Chr p) (a :: s) c s c
| M_seq r1 r2 s c s1 c1 s2 c2 :
    Matches r1 s c s1 c1 -> Matches r2 s1 c1 s2 c2 -> Matches (Seq r1 r2) s c s2 c2
| M_alt_l r1 r2 s c s1 c1 : Matches r1 s c s1 c1 -> Matches (Alt r1 r2) s c s1 c1
| M_alt_r r1 r2 s c s1 c1 : Matches r2 s c s1 c1 -> Matches (Alt r1 r2) s c s1 c1
| M_star_stop g r s c : Matches (Star g r) s c s c
| M_star_more g r s c s1 c1 s2 c2 :
    Matches r s c s1 c1 -> (length s1 < length s)%nat ->
    Matches (Star g r) s1 c1 s2 c2 -> Matches (Star g r) s c s2 c2
| M_grp n r s c s1 c1 :
    Matches r s c s1 c1 -> Matches (Grp n r) s c s1 ((n, (length s, length s1)) :: c1).

(** Two characters the patterns below cannot tell apart: equal, or both
    decimal digits. *)
Definition same_class (a b : ascii) : bool :=
  Ascii.eqb a b || (is_digit a && is_digit b).

Definition blind_cls (p : cls) : bool :=
  match p with
  | CLit a => negb (is_digit a)
  | _ => true
  end.

(** A pattern no literal of which is a digit. *)
Fixpoint blind (r : re) : bool :=
  match r with
  | Eps => true
  | Chr p => blind_cls p
  | Seq r1 r2 | Alt r1 r2 => blind r1 && blind r2
  | Star _ r1 | Grp _ r1 => blind r1
  end.

(** Two continuations that do not tell such characters apart either. *)
Definition agree (k k' : list ascii -> caps -> option caps) : Prop :=
  forall t t' c, Forall2 (fun a b => same_class a b = true) t t' -> k t c = k' t' c.

(** ** The lines the capture script writes *)

Definition nl : string := String (ascii_of_nat 10) EmptyString.

Definition digit_char (n : Z) : ascii := ascii_of_nat (48 + Z.to_nat n).

Definition two_digits (n : Z) : list ascii :=
  [digit_char (n / 10); digit_char (n mod 10)].

(** [MM-DD-YY HH:MM:SS] *)
Definition format_ts_chars (d : datetime) : list ascii :=
  two_digits (dt_month d) ++ "-"%char :: two_digits (dt_day d) ++ "-"%char ::
  two_digits (dt_year d mod 100) ++ " "%char :: two_digits (dt_hour d) ++ ":"%char ::
  two_digits (dt_minute d) ++ ":"%char :: two_digits (dt_second d).

Definition format_ts (d : datetime) : string := string_of_list_ascii (format_ts_chars d).

(** An instant the two-digit year of the capture can denote. *)
Definition log_time (d : datetime) : Prop :=
  valid_datetime d = true /\ (1969 <= dt_year d <= 2068)%Z.

(** A marker line: the label, a space, the timestamp, the line end. *)
Definition marker (label : string) (d : datetime) : string :=
  label +:+ " " +:+ format_ts d +:+ nl.

Definition chars (s : string) : list ascii := list_ascii_of_string s.

Definition dt_zero : datetime := mk_datetime 0 0 0 0 0 0.

(** ** Lines as the scanner sees them *)

Definition matched (o : option Match) : bool :=
  match o with Some _ => true | None => false end.

(** The line takes the [start_qmodem] branch. *)
Definition starts_call (line : string) : bool := matched (search r_start_qmodem line).

(** The line takes the [connected] branch: none of the three patterns
    tried before matches, the [connected] pattern does. *)
Definition marks_connected (line : string) : bool :=
  negb (matched (search r_start_qmodem line)) && negb (matched (search r_abort line)) &&
  negb (matched (search r_start_dial line)) && matched (search r_connected line).

(** No call of the log has two [connected] lines: [seen] tells whether the
    call being read has had one. *)
Fixpoint connects_once (seen : bool) (lines : list string) : bool :=
  match lines with
  | [] => true
  | l :: rest =>
      if starts_call l then connects_once false rest
      else if marks_connected l then (if seen then false else connects_once true rest)
      else connects_once seen rest
  end.

(** The line takes the download-result branch, with these two groups. *)
Definition download_result_line (line : string) (status cps : option string) : Prop :=
  search r_start_qmodem line = None /\ search r_abort line = None /\
  search r_start_dial line = None /\ search r_connected line = None /\
  search r_wc_banner line = None /\ search r_start_download line = None /\
  search r_end_download line = None /\
  exists mo, search r_dl_status_cps line = Some mo /\
             group mo 1 = status /\ group mo 2 = cps.

(** A line of text followed by its line end. *)
Definition ln (s : string) : string := s +:+ nl.

(** Number of lines of the log that satisfy [p]. *)
Definition count_lines (p : string -> bool) (lines : list string) : nat :=
  length (List.filter p lines).

(** All records a scanning state holds are modem calls. *)
Definition modem_only (st : LoopState) : Prop :=
  Forall (fun r => connect_type r = MODEM) (repo st) /\
  (forall r, record st = Some r -> connect_type r = MODEM).

(** The counters of a state agree with a call that has ([seen]) or has not
    had its [connected] line. *)
Definition connect_bound (st : LoopState) (seen : bool) : Prop :=
  (count_connected (counters st) <= count_start_dial (counters st))%nat /\
  (is_Some (record st) -> seen = false ->
   (count_connected (counters st) < count_start_dial (counters st))%nat).

(** The text of the CPS group is absent, or [int] accepts it once the
    commas are removed. *)
Definition cps_ok (cps : option string) : Prop :=
  match cps with
  | None => True
  | Some t => exists n, Py.int (Py.remove_commas t) = Ok n
  end.

(** A line none of the scanner's patterns matches. *)
Definition quiet (line : string) : bool :=
  negb (matched (search r_start_qmodem line)) && negb (matched (search r_abort line)) &&
  negb (matched (search r_start_dial line)) && negb (matched (search r_connected line)) &&
  negb (matched (search r_wc_banner line)) && negb (matched (search r_start_download line)) &&
  negb (matched (search r_end_download line)) && negb (matched (search r_dl_status_cps line)) &&
  negb (matched (rmatch r_end_call line)) && negb (matched (rmatch r_stats_ati6 line)) &&
  negb (matched (rmatch r_stats_ati6_end line)) && negb (matched (rmatch r_stats_ati11 line)) &&
  negb (matched (rmatch r_stats_ati11_end line)) && negb (matched (rmatch r_exit_qmodem line)).

(** One complete call, as the capture script logs it; [res] is the line
    with the result of the download, and [noise i] the other lines of the
    capture that come after the [i]-th of these eight lines ([noise 0]:
    before the first). *)
Definition complete_call (noise : nat -> list string)
    (t1 t2 t3 t4 t5 t6 t7 : datetime) (res : string) : list string :=
  noise 0%nat ++ marker "#### start_qmodem" t1 :: noise 1%nat ++
  marker "#### start_dial" t2 :: noise 2%nat ++
  marker "#### connected" t3 :: noise 3%nat ++
  marker "### start_download" t4 :: noise 4%nat ++
  marker "### end_download" t5 :: noise 5%nat ++ res :: noise 6%nat ++
  marker "#### end_call" t6 :: noise 7%nat ++
  marker "#### exit_qmodem" t7 :: noise 8%nat.

(** Text of the board between the markers. *)
Definition sample_noise (i : nat) : list string :=
  [ ln ""; ln "Wildcat! BBS  Node 1"; ln "Press [ENTER] to continue" ].

Definition modem_run : Args := {| nullmodem := false |}.
Definition nullmodem_run : Args := {| nullmodem := true |}.

(** The line takes the banner branch, with these three groups. *)
Definition banner_line (line : string) (bps reliable ansi : option string) : Prop :=
  search r_start_qmodem line = None /\ search r_abort line = None /\
  search r_start_dial line = None /\ search r_connected line = None /\
  exists mo, search r_wc_banner line = Some mo /\
             group mo g_wc_connect_bps = bps /\ group mo g_wc_reliable = reliable /\
             group mo g_wc_ansi_detect = ansi.

(** ** Sample captures *)

Definition sample_call : list string :=
  [ ln "#### start_qmodem 01-02-25 10:00:00"; ln "#### start_dial 01-02-25 10:00:05";
    ln "#### connected 01-02-25 10:00:30"; ln "### start_download 01-02-25 10:00:40";
    ln "### end_download 01-02-25 10:01:40"; ln "TEST.ZIP - SUCCESSFUL!  CPS = 3,204";
    ln "#### end_call 01-02-25 10:01:50"; ln "#### exit_qmodem 01-02-25 10:01:55" ].

(** A [connected] line before any call, then a complete call. *)
Definition stray_connected_log : list string :=
  ln "#### connected 01-02-25 09:59:00" :: sample_call.

(** One call with two [connected] lines. *)
Definition reconnect_log : list string :=
  [ ln "#### start_qmodem 01-02-25 10:00:00"; ln "#### connected 01-02-25 10:00:30";
    ln "#### connected 01-02-25 10:00:31"; ln "#### exit_qmodem 01-02-25 10:01:55" ].

(** The capture stops after a failed download. *)
Definition abrupt_log : list string :=
  [ ln "#### start_qmodem 01-02-25 10:00:00"; ln "#### start_dial 01-02-25 10:00:05";
    ln "#### connected 01-02-25 10:00:30"; ln "### start_download 01-02-25 10:00:40";
    ln "### end_download 01-02-25 10:01:40"; ln "TEST.ZIP - UNSUCCESSFUL." ].

(** A call aborted before it connected. *)
Definition aborted_log : list string :=
  [ ln "#### start_qmodem 01-02-25 10:00:00"; ln "#### start_dial 01-02-25 10:00:05";
    ln "### aborting 01-02-25 10:00:50, NO CARRIER";
    ln "#### exit_qmodem 01-02-25 10:00:55" ].

(** A call with the banner of the board. *)
Definition banner_log : list string :=
  [ ln "#### start_qmodem 01-02-25 10:00:00";
    ln "Connected at 28800 bps.Reliable connection. ANSI detected." ].

(** The state of the loop with [r] as the record being read. *)
Definition reading (r : CallRecord) (c : Counters) : LoopState :=
  {| repo := []; in_ati := false; ati_lines := []; aborted := false;
     record := Some r; counters := c |}.

(** ** The block parser as the specification words it

    The value stored for a field is decided by the matched text alone: an
    integer when the text is all digits, the trimmed text otherwise. *)

Definition all_digits (text : string) : bool :=
  nonempty text && forallb is_digit (chars text).

Definition value_of_text (text : string) : value :=
  if all_digits text then VInt (Py.digits_val 0 (chars text)) else VStr (Py.strip text).

Definition group_text (mo : Match) (n : nat) : string :=
  match group mo n with Some s => s | None => "" end.

Section ParseOutputSpec.
Variable mapping : gmap string string.

Definition store_spec (key text : string) (data : gmap string value)
  : gmap string value :=
  match mapping !! Py.strip key with
  | Some k => if nonempty k then <[k := value_of_text text]> data else data
  | None => data
  end.

Definition parse_line_spec (data : gmap string value) (line : string)
  : gmap string value :=
  match rmatch r_usr line with
  | Some _ => data
  | None =>
  match rmatch r_pair2 line with
  | Some mo =>
      store_spec (group_text mo 3) (group_text mo 4)
        (store_spec (group_text mo 1) (group_text mo 2) data)
  | None =>
  match rmatch r_pair1_num line with
  | Some mo => store_spec (group_text mo 1) (group_text mo 2) data
  | None =>
  match rmatch r_pair1_str line with
  | Some mo => store_spec (group_text mo 1) (group_text mo 2) data
  | None => data
  end end end end.

Definition parse_output_spec (input_lines : list string) : gmap string value :=
  fold_left parse_line_spec input_lines ∅.
End ParseOutputSpec.

(** Every key of a parsed block is an identifier of the mapping. *)
Definition mapped_keys (mapping : gmap string string) (data : gmap string value) : Prop :=
  forall k v, data !! k = Some v -> exists label, mapping !! label = Some k.

(** * Further notions: timestamps, stored records, the report *)

(** [TS] matches the whole of [ts]: the text is [dd-dd-dd dd:dd:dd]. *)
Definition ts_shaped (ts : string) : Prop :=
  m TS (chars ts) [] (fun s c => match s with [] => Some c | _ => None end) <> None.

(** The instant a [start_qmodem] line opens a call at, when it does. *)
Definition call_start (line : string) : option datetime :=
  match search r_start_qmodem line with
  | Some mo =>
      match parse_group mo g_ts_start_qmodem with
      | Ok d => Some d
      | Raise _ => None
      end
  | None => None
  end.

(** The start times the store and the open record of a state hold, oldest
    first. *)
Definition held_starts (st : LoopState) : list (option datetime) :=
  List.map start_qmodem (repo st) ++
  match record st with Some r => [start_qmodem r] | None => [] end.

(** What the scanner leaves true of every record it builds. *)
Definition scanned (r : CallRecord) : Prop :=
  connect_type r = MODEM /\ is_Some (start_qmodem r) /\
  (connected r = Some true <-> is_Some (connect_time r)) /\
  connected r <> Some false /\
  (is_Some (abort_reason r) -> is_Some (aborted_time r)) /\
  (is_Some (download_cps r) -> is_Some (download_success r)) /\
  remote_ansi r = None /\ aty11 r = None /\ atv r = None.

(** The line takes the download-result branch: [Some true] when its status
    is [SUCCESSFUL!], [Some false] for any other status. *)
Definition download_status (line : string) : option bool :=
  if matched (search r_start_qmodem line) || matched (search r_abort line) ||
     matched (search r_start_dial line) || matched (search r_connected line) ||
     matched (search r_wc_banner line) || matched (search r_start_download line) ||
     matched (search r_end_download line)
  then None
  else
    match search r_dl_status_cps line with
    | Some mo =>
        Some (match group mo 1 with Some s => String.eqb s "SUCCESSFUL!" | None => false end)
    | None => None
    end.

Definition is_success (line : string) : bool :=
  match download_status line with Some true => true | _ => false end.
Definition is_failure (line : string) : bool :=
  match download_status line with Some false => true | _ => false end.

(** The state with another value of the [aborted] flag. *)
Definition with_aborted (b : bool) (st : LoopState) : LoopState :=
  {| repo := repo st; in_ati := in_ati st; ati_lines := ati_lines st;
     aborted := b; record := record st; counters := counters st |}.

Fixpoint call_starts (lines : list string) : list datetime :=
  match lines with
  | [] => []
  | l :: rest =>
      match call_start l with
      | Some d => d :: call_starts rest
      | None => call_starts rest
      end
  end.

(** Apply [f] to the result of a computation that did not raise. *)
Definition rmap {A B} (f : A -> B) (x : result A) : result B :=
  match x with Ok a => Ok (f a) | Raise e => Raise e end.

(** A record for which the line of the report can be printed. *)
Definition printable (r : CallRecord) : Prop :=
  is_Some (start_dial r) /\ is_Some (connect_time r) /\
  (download_success r = Some true ->
   is_Some (start_download r) /\ is_Some (end_download r)).

(** A record that ended normally: no abort, and an [end_call] time. *)
Definition ended_normally (r : CallRecord) : bool :=
  match aborted_time r, end_call r with
  | None, Some _ => true
  | _, _ => false
  end.

(** A record that was aborted before it connected. *)
Definition aborted_unconnected (r : CallRecord) : Prop :=
  is_Some (aborted_time r) /\ connect_time r = None.

(** A value as [parse_output] stores them: a natural number, or a text
    without white space at either end. *)
Definition value_ok (v : value) : Prop :=
  match v with
  | VInt n => (0 <= n)%Z
  | VStr s => Py.strip s = s
  end.

(** The state after a diagnostic block was read into the open record. *)
Definition block_read (st : LoopState) (r : CallRecord) : LoopState :=
  {| repo := repo st; in_ati := false; ati_lines := []; aborted := aborted st;
     record := Some r; counters := counters st |}.

(** No white space at the head of a text. *)
Definition head_ok (l : list ascii) : Prop :=
  match l with
  | [] => True
  | a :: _ => is_space a = false
  end.

(** ** More sample captures *)

(** A call that starts over, as after a crash, before its exit marker. *)
Definition restart_log : list string :=
  [ ln "#### start_qmodem 01-02-25 10:00:00"; ln "#### start_dial 01-02-25 10:00:05";
    ln "#### start_qmodem 01-02-25 10:05:00"; ln "#### start_dial 01-02-25 10:05:05";
    ln "#### connected 01-02-25 10:05:30"; ln "#### exit_qmodem 01-02-25 10:06:00" ].

(** The lines of a call-statistics block, between its two markers. *)
Definition sample_block : list string :=
  [ ln "USRobotics Courier V.Everything Link Diagnostics...";
    ln "";
    ln "Chars sent                 1024      Chars Received            2048";
    ln "Speed                      28800/26400";
    ln "Protocol                   LAPM/V42BIS";
    ln "Disconnect Reason is  DTR dropped" ].

(** A call whose transfer succeeds and is then reported as failed. *)
Definition retry_log : list string :=
  [ ln "#### start_qmodem 01-02-25 10:00:00"; ln "#### start_dial 01-02-25 10:00:05";
    ln "#### connected 01-02-25 10:00:30";
    ln "TEST.ZIP - SUCCESSFUL!  CPS = 3,204"; ln "TEST.ZIP - UNSUCCESSFUL.";
    ln "#### exit_qmodem 01-02-25 10:01:55" ].

(** ** Where the entries of a parsed block come from *)

(** The label and value texts a line of a block gives, by the first
    pattern that matches it. *)
Definition line_pairs (line : string) : list (string * string) :=
  match rmatch r_usr line with
  | Some _ => []
  | None =>
  match rmatch r_pair2 line with
  | Some mo => [(group_text mo 1, group_text mo 2); (group_text mo 3, group_text mo 4)]
  | None =>
  match rmatch r_pair1_num line with
  | Some mo => [(group_text mo 1, group_text mo 2)]
  | None =>
  match rmatch r_pair1_str line with
  | Some mo => [(group_text mo 1, group_text mo 2)]
  | None => []
  end end end end.

(** [s] is [text] without the white space at its two ends. *)
Definition trim_of (text s : string) : Prop :=
  exists pre post,
    chars text = pre ++ chars s ++ post /\
    forallb is_space pre = true /\ forallb is_space post = true /\
    head_ok (chars s) /\ head_ok (rev (chars s)).

(** What a value text is stored as. *)
Definition reads_as (text : string) (v : value) : Prop :=
  match v with
  | VInt n => all_digits text = true /\ n = Py.digits_val 0 (chars text)
  | VStr s => all_digits text = false /\ trim_of text s
  end.

(** The entry [k], [v] of a parsed block was read from a line of the
    block, under a label the mapping names [k]. *)
Definition entry_source (mapping : gmap string string) (lines : list string)
    (k : string) (v : value) : Prop :=
  exists line label name text,
    In line lines /\ In (label, text) (line_pairs line) /\
    trim_of label name /\ mapping !! name = Some k /\ reads_as text v.

(** The line is within the number of digits [int] converts. *)
Definition short_line (line : string) : Prop :=
  (Z.of_nat (String.length line) <= Py.int_max_str_digits)%Z.

(** Every entry of [data] was read from a line of [lines]. *)
Definition sourced (mapping : gmap string string) (lines : list string)
    (data : gmap string value) : Prop :=
  forall k v, data !! k = Some v -> entry_source mapping lines k v.

(** A statistics line whose first value has one digit more than [int]
    converts. *)
Definition long_digits_line : string :=
  "Chars sent  " +:+ string_of_list_ascii (repeat "1"%char 4301).

(** * Properties of the matcher *)

Section MatcherFacts.

Lemma m_sound r : forall s c k x,
  m r s c k = Some x -> exists s' c', Matches r s c s' c' /\ k s' c' = Some x.
Proof.
  induction r as [|p|r1 IH1 r2 IH2|r1 IH1 r2 IH2|g r1 IH1|n r1 IH1]; intros s c k x H; simpl in H.
  - exists s, c. split; [constructor | exact H].
  - destruct s as [|a s']; [discriminate|].
    destruct (cls_test p a) eqn:E; [|discriminate].
    exists s', c. split; [constructor; exact E | exact H].
  - apply IH1 in H as (s1 & c1 & M1 & H).
    apply IH2 in H as (s2 & c2 & M2 & H).
    exists s2, c2. split; [econstructor; eassumption | exact H].
  - destruct (m r1 s c k) eqn:E.
    + injection H as ->. apply IH1 in E as (s1 & c1 & M1 & E).
      exists s1, c1. split; [apply M_alt_l; exact M1 | exact E].
    + apply IH2 in H as (s1 & c1 & M1 & H).
      exists s1, c1. split; [apply M_alt_r; exact M1 | exact H].
  - revert H. generalize (length s) as n. intros n. revert s c x.
    induction n as [|n IHn]; intros s c x H; simpl in H.
    + exists s, c. split; [constructor | exact H].
    + assert (More : forall y,
        m r1 s c (fun s' c' => if (length s' <? length s)%nat
                               then star_loop (m r1) g k n s' c' else None) = Some y ->
        exists s' c', Matches (Star g r1) s c s' c' /\ k s' c' = Some y).
      { intros y E. apply IH1 in E as (s1 & c1 & M1 & E).
        destruct (length s1 <? length s)%nat eqn:L; [|discriminate].
        apply Nat.ltb_lt in L.
        apply IHn in E as (s2 & c2 & M2 & E).
        exists s2, c2. split; [eapply M_star_more; eassumption | exact E]. }
      destruct g.
      * destruct (m r1 s c _) eqn:E.
        -- injection H as ->. apply More. reflexivity.
        -- exists s, c. split; [constructor | exact H].
      * destruct (k s c) eqn:E.
        -- injection H as ->. exists s, c. split; [constructor | exact E].
        -- apply More. exact H.
  - apply IH1 in H as (s1 & c1 & M1 & H).
    exists s1, ((n, (length s, length s1)) :: c1).
    split; [constructor; exact M1 | exact H].
Qed.

Lemma star_loop_complete r1 g k :
  (forall s c s' c' k0, Matches r1 s c s' c' -> k0 s' c' <> None -> m r1 s c k0 <> None) ->
  forall n s c s' c',
    (length s <= n)%nat -> Matches (Star g r1) s c s' c' -> k s' c' <> None ->
    star_loop (m r1) g k n s c <> None.
Proof.
  intros IH1 n. induction n as [|n IHn]; intros s c s' c' Hn HM Hk.
  - inversion HM; subst.
    + exact Hk.
    + lia.
  - simpl. inversion HM; subst.
    + destruct g.
      * destruct (m r1 s' c' _); [discriminate | exact Hk].
      * destruct (k s' c'); [discriminate | congruence].
    + assert (More :
        m r1 s c (fun s' c' => if (length s' <? length s)%nat
                               then star_loop (m r1) g k n s' c' else None) <> None).
      { eapply IH1; [eassumption|].
        destruct (length s1 <? length s)%nat eqn:L.
        - eapply IHn; [lia | eassumption | exact Hk].
        - apply Nat.ltb_ge in L. lia. }
      destruct g.
      * destruct (m r1 s c _); [discriminate | congruence].
      * destruct (k s c); [discriminate | exact More].
Qed.

Lemma m_complete r : forall s c s' c' k,
  Matches r s c s' c' -> k s' c' <> None -> m r s c k <> None.
Proof.
  induction r as [|p|r1 IH1 r2 IH2|r1 IH1 r2 IH2|g r1 IH1|n r1 IH1];
    intros s c s' c' k HM Hk; simpl.
  - inversion HM; subst. exact Hk.
  - inversion HM as [|? ? ? ? Hp| | | | | |]; subst. rewrite Hp. exact Hk.
  - inversion HM; subst. eapply IH1; [eassumption|]. eapply IH2; eassumption.
  - inversion HM; subst.
    + destruct (m r1 s c k) eqn:E; [discriminate|].
      exfalso. eapply IH1; eassumption.
    + destruct (m r1 s c k) eqn:E; [discriminate|]. eapply IH2; eassumption.
  - eapply star_loop_complete; [exact IH1 | reflexivity | eassumption | exact Hk].
  - inversion HM; subst. eapply IH1; [eassumption|]. exact Hk.
Qed.

End MatcherFacts.

Section MatchShape.

Lemma Matches_suffix r s c s' c' :
  Matches r s c s' c' -> exists pre, s = pre ++ s'.
Proof.
  induction 1 as [s c|p a s c _|r1 r2 s c s1 c1 s2 c2 _ IH1 _ IH2
                 |r1 r2 s c s1 c1 _ IH|r1 r2 s c s1 c1 _ IH
                 |g r s c|g r s c s1 c1 s2 c2 _ IH1 _ _ IH2
                 |n r s c s1 c1 _ IH].
  - exists []. reflexivity.
  - exists [a]. reflexivity.
  - destruct IH1 as [p1 ->], IH2 as [p2 ->]. exists (p1 ++ p2). now rewrite <- app_assoc.
  - exact IH.
  - exact IH.
  - exists []. reflexivity.
  - destruct IH1 as [p1 ->], IH2 as [p2 ->]. exists (p1 ++ p2). now rewrite <- app_assoc.
  - exact IH.
Qed.

Lemma Matches_star_chr g p s c s' c' :
  Matches (Star g (Chr p)) s c s' c' ->
  exists pre, s = pre ++ s' /\ forallb (cls_test p) pre = true /\ c' = c.
Proof.
  intros H. remember (Star g (Chr p)) as r eqn:Er.
  induction H as [| | | | |g0 r0 s c|g0 r0 s c s1 c1 s2 c2 H1 _ L _ IH| ];
    try discriminate; injection Er as -> ->.
  - exists []. auto.
  - inversion H1 as [|? ? ? ? Hp| | | | | |]; subst.
    destruct (IH eq_refl) as (pre & -> & Hall & ->).
    exists (a :: pre). simpl. rewrite Hp. auto.
Qed.

Lemma Matches_plus_chr g p s c s' c' :
  Matches (Plus g (Chr p)) s c s' c' ->
  exists pre, pre <> [] /\ s = pre ++ s' /\ forallb (cls_test p) pre = true /\ c' = c.
Proof.
  intros H. inversion H as [| |? ? ? ? s1 c1 ? ? H1 H2| | | | |]; subst.
  inversion H1 as [|? ? ? ? Hp| | | | | |]; subst.
  apply Matches_star_chr in H2 as (pre & -> & Hall & ->).
  exists (a :: pre). simpl. rewrite Hp. repeat split; auto; discriminate.
Qed.

Lemma Matches_star_chr_intro g p pre s c :
  forallb (cls_test p) pre = true -> Matches (Star g (Chr p)) (pre ++ s) c s c.
Proof.
  induction pre as [|a pre IH]; simpl; intros H.
  - constructor.
  - apply andb_true_iff in H as [Ha H].
    eapply M_star_more; [constructor; exact Ha | simpl; lia | exact (IH H)].
Qed.

Lemma Matches_plus_chr_intro g p pre s c :
  pre <> [] -> forallb (cls_test p) pre = true ->
  Matches (Plus g (Chr p)) (pre ++ s) c s c.
Proof.
  destruct pre as [|a pre]; [congruence|]. simpl. intros _ H.
  apply andb_true_iff in H as [Ha H].
  eapply M_seq; [constructor; exact Ha | apply Matches_star_chr_intro; exact H].
Qed.

Lemma slice_app (p0 pre s' : list ascii) :
  slice (p0 ++ pre ++ s') (length (pre ++ s')) (length s') = pre.
Proof.
  unfold slice. rewrite !length_app.
  replace (length p0 + (length pre + length s') - (length pre + length s'))%nat
    with (length p0) by lia.
  rewrite drop_app_length.
  replace (length pre + length s' - length s')%nat with (length pre) by lia.
  apply take_app_length.
Qed.

End MatchShape.

(** ** Digits are interchangeable for a pattern without digit literals *)

Section Blind.

Lemma same_class_cls p a b :
  blind_cls p = true -> same_class a b = true -> cls_test p a = cls_test p b.
Proof.
  unfold same_class. intros Hp H.
  apply orb_true_iff in H as [H|H].
  - apply Ascii.eqb_eq in H. now subst.
  - apply andb_true_iff in H as [Ha Hb].
    assert (D : forall x, is_digit x = true ->
              is_space x = false /\ is_newline x = false).
    { intros x Hx. unfold is_digit, is_space, is_newline in *.
      apply andb_true_iff in Hx as [H1 H2].
      apply Nat.leb_le in H1. apply Nat.leb_le in H2.
      split.
      - apply orb_false_iff. split; apply andb_false_iff.
        + right. apply Nat.leb_gt. lia.
        + right. apply Nat.leb_gt. lia.
      - apply Nat.eqb_neq. lia. }
    destruct (D a Ha) as [Sa Na], (D b Hb) as [Sb Nb].
    destruct p as [x| | | |]; simpl in *.
    + destruct (Ascii.eqb x a) eqn:E1.
      { apply Ascii.eqb_eq in E1. subst. rewrite Ha in Hp. discriminate. }
      destruct (Ascii.eqb x b) eqn:E2; [|reflexivity].
      apply Ascii.eqb_eq in E2. subst. rewrite Hb in Hp. discriminate.
    + now rewrite Na, Nb.
    + now rewrite Ha, Hb.
    + now rewrite Sa, Sb.
    + now rewrite Sa, Sb.
Qed.

Lemma m_blind r : blind r = true -> forall s s' c k k',
  Forall2 (fun a b => same_class a b = true) s s' -> agree k k' ->
  m r s c k = m r s' c k'.
Proof.
  induction r as [|p|r1 IH1 r2 IH2|r1 IH1 r2 IH2|g r1 IH1|n r1 IH1];
    simpl; intros Hb s s' c k k' Hs Hk.
  - apply Hk, Hs.
  - destruct Hs as [|a b s s' Hab Hs]; [reflexivity|].
    rewrite (same_class_cls p a b Hb Hab).
    destruct (cls_test p b); [apply Hk, Hs | reflexivity].
  - apply andb_true_iff in Hb as [Hb1 Hb2].
    apply IH1; [exact Hb1 | exact Hs |].
    intros t t' c0 Ht. apply IH2; assumption.
  - apply andb_true_iff in Hb as [Hb1 Hb2].
    rewrite (IH1 Hb1 s s' c k k' Hs Hk), (IH2 Hb2 s s' c k k' Hs Hk). reflexivity.
  - rewrite (Forall2_length _ _ _ Hs). generalize (length s') as n.
    intros n. revert s s' c Hs.
    induction n as [|n IHn]; intros s s' c Hs; simpl.
    + apply Hk, Hs.
    + assert (E : m r1 s c (fun t c' => if (length t <? length s)%nat
                               then star_loop (m r1) g k n t c' else None)
                = m r1 s' c (fun t c' => if (length t <? length s')%nat
                               then star_loop (m r1) g k' n t c' else None)).
      { apply IH1; [exact Hb | exact Hs |].
        intros t t' c0 Ht.
        rewrite (Forall2_length _ _ _ Ht), (Forall2_length _ _ _ Hs).
        destruct (length t' <? length s')%nat; [apply IHn, Ht | reflexivity]. }
      rewrite E, (Hk s s' c Hs). reflexivity.
  - apply IH1; [exact Hb | exact Hs |].
    intros t t' c0 Ht.
    rewrite (Forall2_length _ _ _ Ht), (Forall2_length _ _ _ Hs).
    apply Hk, Ht.
Qed.

Lemma search_from_blind r s s' :
  blind r = true -> Forall2 (fun a b => same_class a b = true) s s' ->
  search_from r s = search_from r s'.
Proof.
  intros Hb Hs. induction Hs as [|a b s s' Hab Hs IH].
  - reflexivity.
  - simpl. unfold match_here.
    rewrite (m_blind r Hb (a :: s) (b :: s') [] _ (fun _ c => Some c));
      [| constructor; assumption | intros ? ? ? ?; reflexivity].
    rewrite IH. reflexivity.
Qed.

End Blind.

(** * Marker lines *)

Section Markers.

Lemma digit_char_nat k : (0 <= k <= 9)%Z -> nat_of_ascii (digit_char k) = (48 + Z.to_nat k)%nat.
Proof.
  intros H. unfold digit_char. apply nat_ascii_embedding. lia.
Qed.

Lemma digit_char_is_digit k : (0 <= k <= 9)%Z -> is_digit (digit_char k) = true.
Proof.
  intros H. unfold is_digit. rewrite (digit_char_nat k H).
  apply andb_true_iff. split; apply Nat.leb_le; lia.
Qed.

Lemma digit_char_val k : (0 <= k <= 9)%Z -> Py.digit_val (digit_char k) = k.
Proof.
  intros H. unfold Py.digit_val. rewrite (digit_char_nat k H). lia.
Qed.

Lemma num2_two_digits n :
  (0 <= n < 100)%Z -> num2 (digit_char (n / 10)) (digit_char (n mod 10)) = n.
Proof.
  intros H. unfold num2.
  assert (0 <= n / 10 <= 9)%Z by (Z.div_mod_to_equations; lia).
  assert (0 <= n mod 10 <= 9)%Z by (Z.div_mod_to_equations; lia).
  rewrite !digit_char_val by assumption. Z.div_mod_to_equations; lia.
Qed.

Lemma two_digits_digits n :
  (0 <= n < 100)%Z ->
  is_digit (digit_char (n / 10)) = true /\ is_digit (digit_char (n mod 10)) = true.
Proof.
  intros H. split; apply digit_char_is_digit; Z.div_mod_to_equations; lia.
Qed.

Lemma days_in_month_le y mo : (days_in_month y mo <= 31)%Z.
Proof.
  unfold days_in_month. repeat match goal with |- context [if ?b then _ else _] => destruct b end; lia.
Qed.

Lemma log_time_fields d :
  log_time d ->
  (0 <= dt_month d < 100 /\ 0 <= dt_day d < 100 /\ 0 <= dt_year d mod 100 < 100 /\
   0 <= dt_hour d < 100 /\ 0 <= dt_minute d < 100 /\ 0 <= dt_second d < 100)%Z.
Proof.
  intros [V Y]. unfold valid_datetime in V.
  repeat (apply andb_true_iff in V as [V ?]).
  repeat match goal with H : (_ <=? _)%Z = true |- _ => apply Z.leb_le in H end.
  pose proof (days_in_month_le (dt_year d) (dt_month d)).
  Z.div_mod_to_equations; lia.
Qed.

Lemma parse_format_ts d : log_time d -> parse_log_ts (format_ts d) = Ok d.
Proof.
  intros H. pose proof (log_time_fields d H) as (Hm & Hd & Hy & Hh & Hn & Hs).
  destruct H as [V Y].
  unfold parse_log_ts, format_ts. rewrite list_ascii_of_string_of_list_ascii.
  unfold format_ts_chars, two_digits. cbn [app].
  destruct (two_digits_digits _ Hm) as [a1 a2], (two_digits_digits _ Hd) as [b1 b2],
    (two_digits_digits _ Hy) as [c1 c2], (two_digits_digits _ Hh) as [d1 d2],
    (two_digits_digits _ Hn) as [e1 e2], (two_digits_digits _ Hs) as [f1 f2].
  cbn [forallb]. rewrite a1, a2, b1, b2, c1, c2, d1, d2, e1, e2, f1, f2.
  cbn [andb Ascii.eqb Bool.eqb].
  rewrite !num2_two_digits by assumption.
  replace (if (dt_year d mod 100 <=? 68)%Z then (2000 + dt_year d mod 100)%Z
           else (1900 + dt_year d mod 100)%Z) with (dt_year d).
  2:{ destruct (dt_year d mod 100 <=? 68)%Z eqn:E;
        [apply Z.leb_le in E | apply Z.leb_gt in E]; Z.div_mod_to_equations; lia. }
  destruct d as [y mo dd h mi s]. simpl in *. rewrite V. reflexivity.
Qed.

Lemma chars_app a b : chars (a +:+ b) = chars a ++ chars b.
Proof.
  unfold chars. induction a as [|x a IH]; simpl; [reflexivity | now rewrite IH].
Qed.

Lemma same_class_refl l : Forall2 (fun a b => same_class a b = true) l l.
Proof.
  induction l as [|a l IH]; constructor; [|exact IH].
  unfold same_class. now rewrite Ascii.eqb_refl.
Qed.

Lemma same_class_digits a b :
  is_digit a = true -> is_digit b = true -> same_class a b = true.
Proof.
  intros Ha Hb. unfold same_class. rewrite Ha, Hb. apply orb_true_r.
Qed.

Lemma format_ts_class d :
  log_time d ->
  Forall2 (fun a b => same_class a b = true) (format_ts_chars d) (format_ts_chars dt_zero).
Proof.
  intros H. pose proof (log_time_fields d H) as (Hm & Hd & Hy & Hh & Hn & Hs).
  unfold format_ts_chars, two_digits. cbn [app].
  assert (Z0 : is_digit (digit_char (0 / 10)) = true) by reflexivity.
  assert (Z1 : is_digit (digit_char (0 mod 10)) = true) by reflexivity.
  assert (Z2 : is_digit (digit_char ((0 mod 100) / 10)) = true) by reflexivity.
  assert (Z3 : is_digit (digit_char ((0 mod 100) mod 10)) = true) by reflexivity.
  pose proof (two_digits_digits _ Hm) as [? ?]. pose proof (two_digits_digits _ Hd) as [? ?].
  pose proof (two_digits_digits _ Hy) as [? ?]. pose proof (two_digits_digits _ Hh) as [? ?].
  pose proof (two_digits_digits _ Hn) as [? ?]. pose proof (two_digits_digits _ Hs) as [? ?].
  repeat constructor; try (apply same_class_digits; assumption).
Qed.

Lemma marker_class label d :
  log_time d ->
  Forall2 (fun a b => same_class a b = true)
    (chars (marker label d)) (chars (marker label dt_zero)).
Proof.
  intros H. unfold marker. rewrite !chars_app.
  repeat apply Forall2_app; try apply same_class_refl.
  unfold format_ts, chars. rewrite !list_ascii_of_string_of_list_ascii.
  apply format_ts_class, H.
Qed.

Lemma search_marker_none r label d :
  blind r = true -> log_time d ->
  search_from r (chars (marker label dt_zero)) = None ->
  search r (marker label d) = None.
Proof.
  intros Hb H E. unfold search. fold (chars (marker label d)).
  rewrite (search_from_blind r _ _ Hb (marker_class label d H)).
  now rewrite E.
Qed.

Lemma search_marker_some r label d c :
  blind r = true -> log_time d ->
  search_from r (chars (marker label dt_zero)) = Some c ->
  search r (marker label d) = Some {| m_line := chars (marker label d); m_caps := c |}.
Proof.
  intros Hb H E. unfold search. fold (chars (marker label d)).
  rewrite (search_from_blind r _ _ Hb (marker_class label d H)).
  now rewrite E.
Qed.

Lemma rmatch_marker_none r label d :
  blind r = true -> log_time d ->
  match_here r (chars (marker label dt_zero)) = None ->
  rmatch r (marker label d) = None.
Proof.
  intros Hb H E. unfold rmatch, match_here. fold (chars (marker label d)).
  rewrite (m_blind r Hb _ _ [] _ (fun _ c => Some c) (marker_class label d H));
    [| intros ? ? ? ?; reflexivity].
  unfold match_here in E. now rewrite E.
Qed.

Lemma rmatch_marker_some r label d c :
  blind r = true -> log_time d ->
  match_here r (chars (marker label dt_zero)) = Some c ->
  rmatch r (marker label d) = Some {| m_line := chars (marker label d); m_caps := c |}.
Proof.
  intros Hb H E. unfold rmatch, match_here. fold (chars (marker label d)).
  rewrite (m_blind r Hb _ _ [] _ (fun _ c => Some c) (marker_class label d H));
    [| intros ? ? ? ?; reflexivity].
  unfold match_here in E. now rewrite E.
Qed.

(** The timestamp group of a marker line: the last 18 characters but the
    line end. *)
Lemma marker_group label d n :
  group {| m_line := chars (marker label d); m_caps := [(n, (18, 1))%nat] |} n
  = Some (format_ts d).
Proof.
  unfold group. simpl. rewrite Nat.eqb_refl. f_equal.
  unfold marker. rewrite !chars_app.
  change (chars label ++ chars " " ++ chars (format_ts d) ++ chars nl)
    with (chars label ++ [" "%char] ++ chars (format_ts d) ++ chars nl).
  rewrite (app_assoc (chars label)).
  assert (L : length (chars (format_ts d) ++ chars nl) = 18%nat).
  { unfold format_ts, chars. rewrite list_ascii_of_string_of_list_ascii. reflexivity. }
  pose proof (slice_app (chars label ++ [" "%char]) (chars (format_ts d)) (chars nl)) as S.
  rewrite L in S. simpl (length (chars nl)) in S. rewrite S.
  unfold chars. apply string_of_list_ascii_of_string.
Qed.

End Markers.

(** ** The scanner on marker lines *)

Section BodyOnMarkers.

Variable args : Args.
Variable d : datetime.
Hypothesis Hd : log_time d.

Ltac miss r label :=
  first
    [ rewrite (search_marker_none r label d eq_refl Hd) by (vm_compute; reflexivity)
    | rewrite (rmatch_marker_none r label d eq_refl Hd) by (vm_compute; reflexivity) ].

Ltac hit r label :=
  first
    [ rewrite (search_marker_some r label d _ eq_refl Hd ltac:(vm_compute; reflexivity))
    | rewrite (rmatch_marker_some r label d _ eq_refl Hd ltac:(vm_compute; reflexivity)) ];
  unfold stamp, parse_group; rewrite ?marker_group, ?(parse_format_ts d Hd).

Lemma body_start_qmodem st :
  body args (marker "#### start_qmodem" d) st =
  (ct <- (if nullmodem args then ConnectionType_DIRECT else Ok MODEM) ;;
   Ok {| repo := match record st with
                 | Some r => match start_qmodem r with
                             | Some _ => repo st ++ [r]
                             | None => repo st
                             end
                 | None => repo st
                 end;
         in_ati := in_ati st; ati_lines := ati_lines st; aborted := false;
         record := Some (set_start_qmodem (Some d)
                           (set_start_qmodem (Some d) (set_connect_type ct CallRecord_default)));
         counters := snd (new_CallRecord (counters st)) |}).
Proof.
  unfold body. hit r_start_qmodem "#### start_qmodem".
  unfold g_ts_start_qmodem. rewrite ?marker_group, ?(parse_format_ts d Hd).
  simpl. destruct (nullmodem args); reflexivity.
Qed.

Lemma body_start_dial st :
  body args (marker "#### start_dial" d) st =
  (r <- the_record st ;; Ok (with_record st (set_start_dial (Some d) r))).
Proof.
  unfold body.
  miss r_start_qmodem "#### start_dial". miss r_abort "#### start_dial".
  hit r_start_dial "#### start_dial". reflexivity.
Qed.

Lemma body_connected st :
  body args (marker "#### connected" d) st =
  (r <- the_record st ;;
   Ok {| repo := repo st; in_ati := in_ati st; ati_lines := ati_lines st;
         aborted := aborted st;
         record := Some (fst (mark_connected true (set_connect_time (Some d) r) (counters st)));
         counters := snd (mark_connected true (set_connect_time (Some d) r) (counters st)) |}).
Proof.
  unfold body.
  miss r_start_qmodem "#### connected". miss r_abort "#### connected".
  miss r_start_dial "#### connected". hit r_connected "#### connected". reflexivity.
Qed.

Lemma body_start_download st :
  body args (marker "### start_download" d) st =
  (r <- the_record st ;; Ok (with_record st (set_start_download (Some d) r))).
Proof.
  unfold body.
  miss r_start_qmodem "### start_download". miss r_abort "### start_download".
  miss r_start_dial "### start_download". miss r_connected "### start_download".
  miss r_wc_banner "### start_download".
  hit r_start_download "### start_download". reflexivity.
Qed.

Lemma body_end_download st :
  body args (marker "### end_download" d) st =
  (r <- the_record st ;; Ok (with_record st (set_end_download (Some d) r))).
Proof.
  unfold body.
  miss r_start_qmodem "### end_download". miss r_abort "### end_download".
  miss r_start_dial "### end_download". miss r_connected "### end_download".
  miss r_wc_banner "### end_download". miss r_start_download "### end_download".
  hit r_end_download "### end_download". reflexivity.
Qed.

Lemma body_end_call st :
  body args (marker "#### end_call" d) st =
  (r <- the_record st ;; Ok (with_record st (set_end_call (Some d) r))).
Proof.
  unfold body.
  miss r_start_qmodem "#### end_call". miss r_abort "#### end_call".
  miss r_start_dial "#### end_call". miss r_connected "#### end_call".
  miss r_wc_banner "#### end_call". miss r_start_download "#### end_call".
  miss r_end_download "#### end_call". miss r_dl_status_cps "#### end_call".
  hit r_end_call "#### end_call". reflexivity.
Qed.

Lemma rmatch_lit_exit r :
  In r [r_stats_ati6; r_stats_ati6_end; r_stats_ati11; r_stats_ati11_end] ->
  rmatch r (marker "#### exit_qmodem" d) = None.
Proof.
  simpl. intros [<-|[<-|[<-|[<-|[]]]]]; reflexivity.
Qed.

Lemma body_exit_qmodem st :
  body args (marker "#### exit_qmodem" d) st =
  (r <- the_record st ;;
   Ok {| repo := repo st ++ [set_exit_qmodem (Some d) r]; in_ati := in_ati st;
         ati_lines := if in_ati st
                      then ati_lines st ++ [Py.strip (marker "#### exit_qmodem" d)]
                      else ati_lines st;
         aborted := aborted st; record := None; counters := counters st |}).
Proof.
  unfold body.
  miss r_start_qmodem "#### exit_qmodem". miss r_abort "#### exit_qmodem".
  miss r_start_dial "#### exit_qmodem". miss r_connected "#### exit_qmodem".
  miss r_wc_banner "#### exit_qmodem". miss r_start_download "#### exit_qmodem".
  miss r_end_download "#### exit_qmodem". miss r_dl_status_cps "#### exit_qmodem".
  miss r_end_call "#### exit_qmodem".
  rewrite !rmatch_lit_exit by (simpl; tauto).
  hit r_exit_qmodem "#### exit_qmodem". reflexivity.
Qed.

End BodyOnMarkers.

(** * The scanning loop: what one turn can do *)

(** Case analysis of one successful turn of the loop, branch by branch. *)
Ltac body_step x :=
  lazymatch x with
  | context [match _ with _ => _ end] => fail
  | _ => destruct x eqn:?
  end.

Ltac body_cases H :=
  unfold body, stamp, rbind, the_record, with_record, mark_connected,
    mark_download_success, new_CallRecord, ConnectionType_DIRECT in H;
  repeat match type of H with
         | context [match ?x with _ => _ end] =>
             body_step x; simpl in H; try discriminate H
         end;
  try (injection H as <-); simpl in *.

Section BodyFacts.

Variable args : Args.

Lemma body_connect_type line st st' :
  body args line st = Ok st' -> modem_only st -> modem_only st'.
Proof.
  unfold modem_only. intros H [Hrepo Hrec].
  body_cases H;
    (split;
     [ first [ assumption
             | apply Forall_app_2; [assumption|]; constructor; [simpl; eauto | constructor] ]
     | intros ? E; first [ discriminate E | injection E as <-; simpl; eauto | eauto ] ]).
Qed.

Lemma body_counts line st st' :
  body args line st = Ok st' ->
  count_start_dial (counters st') =
    (count_start_dial (counters st) + (if starts_call line then 1 else 0))%nat /\
  count_connected (counters st') =
    (count_connected (counters st) + (if marks_connected line then 1 else 0))%nat.
Proof.
  intros H. unfold starts_call, marks_connected.
  body_cases H;
    repeat match goal with E : search _ _ = _ |- _ => rewrite E; clear E end;
    simpl; lia.
Qed.

Lemma body_opens line st st' :
  body args line st = Ok st' -> starts_call line = true ->
  exists r, record st' = Some r /\ is_Some (start_qmodem r).
Proof.
  intros H. unfold starts_call.
  body_cases H; intros E; try discriminate E; eexists; split; eauto.
Qed.

Lemma body_no_record line st st' :
  body args line st = Ok st' -> starts_call line = false ->
  record st = None -> record st' = None.
Proof.
  intros H. unfold starts_call.
  body_cases H; intros E1 E2; congruence.
Qed.

Lemma body_connected_open line st st' :
  body args line st = Ok st' -> marks_connected line = true -> is_Some (record st).
Proof.
  intros H. unfold marks_connected.
  body_cases H;
    repeat match goal with E : search _ _ = _ |- _ => rewrite E; clear E end;
    simpl; intros E; try discriminate E; eauto.
Qed.

Lemma body_keeps_record line st st' r :
  body args line st = Ok st' -> rmatch r_exit_qmodem line = None ->
  record st = Some r -> is_Some (start_qmodem r) ->
  exists r', record st' = Some r' /\ is_Some (start_qmodem r').
Proof.
  intros H.
  body_cases H; intros E1 E2 E3; try discriminate E1;
    try (injection E2 as <-); eexists; split; eauto.
Qed.

Lemma body_connect_bound line st st' seen :
  body args line st = Ok st' -> connect_bound st seen ->
  connects_once seen [line] = true ->
  connect_bound st'
    (if starts_call line then false else if marks_connected line then true else seen).
Proof.
  intros H [B1 B2] Once.
  pose proof (body_counts line st st' H) as [C1 C2].
  unfold connect_bound. rewrite C1, C2. simpl in Once.
  destruct (starts_call line) eqn:S.
  - assert (marks_connected line = false) as ->.
    { unfold marks_connected, starts_call in *. now rewrite S. }
    split; intros; lia.
  - destruct (marks_connected line) eqn:M.
    + destruct seen; [discriminate|].
      pose proof (body_connected_open line st st' H M) as Open.
      specialize (B2 Open eq_refl). split; [lia | intros _ E; discriminate E].
    + split; [lia|]. intros Open E. rewrite !Nat.add_0_r.
      apply B2; [|exact E].
      destruct (record st) eqn:R; [eauto|].
      rewrite (body_no_record line st st' H S R) in Open.
      destruct Open as [? Open]. discriminate Open.
Qed.

Lemma missed o : negb (matched o) = true -> o = None.
Proof. destruct o; [discriminate | reflexivity]. Qed.

Lemma body_quiet line st :
  quiet line = true -> in_ati st = false -> body args line st = Ok st.
Proof.
  unfold quiet. intros Q A.
  repeat (apply andb_true_iff in Q as [Q ?]).
  repeat match goal with H : negb (matched _) = true |- _ => apply missed in H end.
  unfold body.
  repeat match goal with H : _ = None |- _ => rewrite H; clear H end.
  rewrite A. destruct st. simpl in *. now subst.
Qed.

End BodyFacts.

(** * The whole loop *)

Section ScanFacts.

Variable args : Args.

Lemma scan_cons l rest st :
  scan args (l :: rest) st = (st' <- body args l st ;; scan args rest st').
Proof. reflexivity. Qed.

Lemma scan_app l1 l2 st :
  scan args (l1 ++ l2) st = (st1 <- scan args l1 st ;; scan args l2 st1).
Proof.
  revert st. induction l1 as [|l l1 IH]; intros st; simpl; [reflexivity|].
  destruct (body args l st); simpl; [apply IH | reflexivity].
Qed.

Lemma scan_quiet lines st :
  Forall (fun l => quiet l = true) lines -> in_ati st = false ->
  scan args lines st = Ok st.
Proof.
  intros H A. induction H as [|l lines Hl _ IH]; simpl; [reflexivity|].
  now rewrite (body_quiet args l st Hl A).
Qed.

Lemma scan_connect_type lines : forall st st',
  scan args lines st = Ok st' -> modem_only st -> modem_only st'.
Proof.
  induction lines as [|l lines IH]; simpl; intros st st' H Hm.
  - injection H as <-. exact Hm.
  - destruct (body args l st) as [st1|] eqn:B; [|discriminate]. simpl in H.
    eapply IH; [exact H|]. eapply body_connect_type; eassumption.
Qed.

Lemma scan_counts lines : forall st st',
  scan args lines st = Ok st' ->
  count_start_dial (counters st') =
    (count_start_dial (counters st) + count_lines starts_call lines)%nat /\
  count_connected (counters st') =
    (count_connected (counters st) + count_lines marks_connected lines)%nat.
Proof.
  unfold count_lines.
  induction lines as [|l lines IH]; simpl; intros st st' H.
  - injection H as <-. lia.
  - destruct (body args l st) as [st1|] eqn:B; [|discriminate]. simpl in H.
    apply IH in H as [H1 H2]. apply body_counts in B as [B1 B2].
    rewrite H1, H2, B1, B2.
    destruct (starts_call l), (marks_connected l); simpl; lia.
Qed.

Lemma scan_connect_bound lines : forall st st' seen,
  scan args lines st = Ok st' -> connect_bound st seen ->
  connects_once seen lines = true ->
  (count_connected (counters st') <= count_start_dial (counters st'))%nat.
Proof.
  induction lines as [|l lines IH]; simpl; intros st st' seen H Hb Once.
  - injection H as <-. apply Hb.
  - destruct (body args l st) as [st1|] eqn:B; [|discriminate]. simpl in H.
    assert (One : connects_once seen [l] = true).
    { simpl. destruct (starts_call l); [reflexivity|].
      destruct (marks_connected l); [|reflexivity].
      destruct seen; [exact Once | reflexivity]. }
    pose proof (body_connect_bound args l st st1 seen B Hb One) as Hb1.
    eapply IH; [exact H | exact Hb1 |].
    destruct (starts_call l); [exact Once|].
    destruct (marks_connected l); [|exact Once].
    destruct seen; [discriminate | exact Once].
Qed.

Lemma scan_keeps_record lines : forall st st' r,
  scan args lines st = Ok st' ->
  Forall (fun l => rmatch r_exit_qmodem l = None) lines ->
  record st = Some r -> is_Some (start_qmodem r) ->
  exists r', record st' = Some r' /\ is_Some (start_qmodem r').
Proof.
  induction lines as [|l lines IH]; simpl; intros st st' r H Hall R S.
  - injection H as <-. eauto.
  - destruct (body args l st) as [st1|] eqn:B; [|discriminate]. simpl in H.
    inversion Hall as [|? ? Hl Hrest]; subst.
    destruct (body_keeps_record args l st st1 r B Hl R S) as (r1 & R1 & S1).
    eapply IH; eassumption.
Qed.

End ScanFacts.

(** * Properties of the scanner *)

Section ReadFile.

Lemma read_file_inv args lines c0 recs c :
  read_file args lines c0 = Ok (recs, c) ->
  exists st, scan args lines (loop_init c0) = Ok st /\
             recs = match record st with
                    | Some r => repo st ++ [r]
                    | None => repo st
                    end /\
             c = counters st.
Proof.
  unfold read_file. intros H.
  destruct (scan args lines (loop_init c0)) as [st|]; [|discriminate]. simpl in H.
  destruct (connect_success_percent (counters st)); [|discriminate].
  simpl in H. injection H as <- <-. eauto.
Qed.

Lemma connect_success_percent_ok c : exists q, connect_success_percent c = Ok q.
Proof.
  unfold connect_success_percent, py_div.
  destruct (count_start_dial c) as [|n] eqn:E; simpl; [eauto|].
  destruct (Qeq_bool (Q_of_nat (S n)) 0) eqn:Q; simpl; [|eauto].
  apply Qeq_bool_eq in Q. unfold Q_of_nat, Qeq in Q. simpl in Q. lia.
Qed.

Lemma body_download_result args line st r status cps :
  record st = Some r -> download_result_line line (Some status) cps ->
  body args line st =
  (let rc := mark_download_success (String.eqb status "SUCCESSFUL!") r (counters st) in
   r2 <- match cps with
         | Some t => if nonempty t
                     then n <- Py.int (Py.remove_commas t) ;; Ok (set_download_cps (Some n) (fst rc))
                     else Ok (fst rc)
         | None => Ok (fst rc)
         end ;;
   Ok {| repo := repo st; in_ati := in_ati st; ati_lines := ati_lines st;
         aborted := aborted st; record := Some r2; counters := snd rc |}).
Proof.
  intros R (E1 & E2 & E3 & E4 & E5 & E6 & E7 & mo & E8 & G1 & G2).
  unfold body. rewrite E1, E2, E3, E4, E5, E6, E7, E8, G1, G2.
  unfold the_record. rewrite R. simpl.
  destruct (mark_download_success _ r (counters st)). reflexivity.
Qed.

Lemma body_banner args line st r bps reliable ansi :
  record st = Some r -> banner_line line (Some bps) reliable ansi ->
  body args line st =
  (n <- Py.int bps ;;
   Ok (with_record st
         (set_remote_ansi_detected (Some ansi)
            (set_remote_reliable (option_map PyStr reliable)
               (set_remote_connect_bps (Some n) r))))).
Proof.
  intros R (E1 & E2 & E3 & E4 & mo & E5 & G1 & G2 & G3).
  unfold body. rewrite E1, E2, E3, E4, E5.
  unfold int_group. rewrite G1, G2, G3. simpl.
  destruct (Py.int bps); simpl; [|reflexivity].
  unfold the_record. rewrite R. reflexivity.
Qed.

End ReadFile.

Ltac by_eval := vm_compute; reflexivity.

Ltac log_time_eval := split; [by_eval | vm_compute; split; discriminate].

(** ** C1: one complete call *)

#[local] Opaque body marker.
#[local] Arguments body : simpl never.
#[local] Arguments marker : simpl never.

Section CompleteCall.

Variable noise : nat -> list string.
Hypothesis Hq : forall i, Forall (fun l => quiet l = true) (noise i).

Lemma scan_past_noise args i l rest st :
  in_ati st = false ->
  scan args (noise i ++ l :: rest) st = (st' <- body args l st ;; scan args rest st').
Proof.
  intros A. now rewrite scan_app, (scan_quiet args (noise i) st (Hq i) A).
Qed.

End CompleteCall.

(** C1. For every log that contains one complete call sequence
    (start_qmodem, start_dial, connected, start_download, end_download, a
    SUCCESSFUL! result line, end_call, exit_qmodem) with valid,
    non-decreasing timestamps, and otherwise only lines the scanner takes no
    notice of, a modem run of [read_file] returns a store of exactly one
    record, with [connected = True], [download_success = True], and the
    handshake, download and call durations present and non-negative. *)
Theorem C1_complete_call noise t1 t2 t3 t4 t5 t6 t7 res cps c0 :
  (forall i, Forall (fun l => quiet l = true) (noise i)) ->
  log_time t1 -> log_time t2 -> log_time t3 -> log_time t4 ->
  log_time t5 -> log_time t6 -> log_time t7 ->
  (to_seconds t1 <= to_seconds t2 <= to_seconds t3)%Z ->
  (to_seconds t3 <= to_seconds t4 <= to_seconds t5)%Z ->
  (to_seconds t5 <= to_seconds t6 <= to_seconds t7)%Z ->
  download_result_line res (Some "SUCCESSFUL!") cps -> cps_ok cps ->
  exists r c handshake download call,
    read_file modem_run (complete_call noise t1 t2 t3 t4 t5 t6 t7 res) c0 = Ok ([r], c) /\
    connected r = Some true /\ download_success r = Some true /\
    handshake_duration r = Some handshake /\ (0 <= handshake)%Z /\
    download_duration r = Ok (Some download) /\ (0 <= download)%Z /\
    call_duration r = Ok (Some call) /\ (0 <= call)%Z.
Proof.
  intros Hq H1 H2 H3 H4 H5 H6 H7 O1 O2 O3 Hres Hcps.
  unfold read_file, complete_call.
  rewrite (scan_past_noise noise Hq) by reflexivity.
  rewrite (body_start_qmodem modem_run t1 H1). simpl.
  rewrite (scan_past_noise noise Hq) by reflexivity.
  rewrite (body_start_dial modem_run t2 H2). simpl.
  rewrite (scan_past_noise noise Hq) by reflexivity.
  rewrite (body_connected modem_run t3 H3). simpl.
  rewrite (scan_past_noise noise Hq) by reflexivity.
  rewrite (body_start_download modem_run t4 H4). simpl.
  rewrite (scan_past_noise noise Hq) by reflexivity.
  rewrite (body_end_download modem_run t5 H5). simpl.
  rewrite (scan_past_noise noise Hq) by reflexivity.
  erewrite (body_download_result modem_run res _ _ "SUCCESSFUL!" cps);
    [| reflexivity | exact Hres].
  simpl.
  lazymatch goal with
  | |- context [match cps with Some t => @?f t | None => Ok ?r0 end] =>
      assert (Hr : exists r5,
                match cps with Some t => f t | None => Ok r0 end = Ok r5 /\
                connected r5 = Some true /\ download_success r5 = Some true /\
                connect_type r5 = MODEM /\ start_dial r5 = Some t2 /\
                connect_time r5 = Some t3 /\ start_download r5 = Some t4 /\
                end_download r5 = Some t5)
  end.
  { destruct cps as [t|]; simpl in Hcps.
    - destruct (nonempty t).
      + destruct Hcps as [n ->]. simpl. eexists. repeat split.
      + eexists. repeat split.
    - eexists. repeat split. }
  destruct Hr as (r5 & -> & F1 & F2 & F3 & F4 & F5 & F6 & F7). simpl.
  rewrite (scan_past_noise noise Hq) by reflexivity.
  rewrite (body_end_call modem_run t6 H6). simpl.
  rewrite (scan_past_noise noise Hq) by reflexivity.
  rewrite (body_exit_qmodem modem_run t7 H7). simpl.
  rewrite (scan_quiet modem_run (noise 8%nat) _ (Hq 8%nat)) by reflexivity. simpl.
  eexists _, _, (seconds_between t3 t2), (seconds_between t5 t4), (seconds_between t6 t3).
  split; [reflexivity|].
  unfold handshake_duration, download_duration, call_duration, seconds_between.
  simpl. rewrite F1, F2, F3, F4, F5, F6, F7. simpl.
  repeat split; try reflexivity; lia.
Qed.

Lemma C1_complete_call_witness :
  exists r c handshake download call,
    read_file modem_run
      (complete_call sample_noise
         (mk_datetime 2025 1 2 10 0 0) (mk_datetime 2025 1 2 10 0 5)
         (mk_datetime 2025 1 2 10 0 30) (mk_datetime 2025 1 2 10 0 40)
         (mk_datetime 2025 1 2 10 1 40) (mk_datetime 2025 1 2 10 1 50)
         (mk_datetime 2025 1 2 10 1 55) (ln "TEST.ZIP - SUCCESSFUL!  CPS = 3,204"))
      counters0 = Ok ([r], c) /\
    connected r = Some true /\ download_success r = Some true /\
    handshake_duration r = Some handshake /\ (0 <= handshake)%Z /\
    download_duration r = Ok (Some download) /\ (0 <= download)%Z /\
    call_duration r = Ok (Some call) /\ (0 <= call)%Z.
Proof.
  apply (C1_complete_call _ _ _ _ _ _ _ _ _ (Some "3,204")); try log_time_eval.
  - intros i. repeat constructor; by_eval.
  - vm_compute. split; discriminate.
  - vm_compute. split; discriminate.
  - vm_compute. split; discriminate.
  - repeat split; try by_eval. eexists. repeat split; by_eval.
  - exists 3204%Z. by_eval.
Defined.

(** ** C2: a [connected] line with no call open *)

Lemma C2_counterexample :
  read_file modem_run stray_connected_log counters0 = Raise AttributeError.
Proof. by_eval. Qed.

(** C2 (as the code has it). When a [connected] marker line with a valid
    timestamp arrives while no record is open, the assignment to the absent
    record raises [AttributeError]: [read_file] stops there and returns no
    store, whatever follows in the log. *)
Theorem C2_stray_connected_raises args d pre post c0 st :
  log_time d ->
  scan args pre (loop_init c0) = Ok st -> record st = None ->
  read_file args (pre ++ marker "#### connected" d :: post) c0 = Raise AttributeError.
Proof.
  intros Hd Hpre Hrec. unfold read_file.
  rewrite scan_app, Hpre. simpl.
  rewrite ?scan_cons, (body_connected args d Hd).
  unfold the_record. rewrite Hrec. reflexivity.
Qed.

Lemma C2_stray_connected_raises_witness :
  read_file modem_run
    ([] ++ marker "#### connected" (mk_datetime 2025 1 2 9 59 0) :: sample_call) counters0
  = Raise AttributeError.
Proof.
  apply (C2_stray_connected_raises modem_run (mk_datetime 2025 1 2 9 59 0) []
           sample_call counters0 (loop_init counters0)).
  - log_time_eval.
  - reflexivity.
  - reflexivity.
Defined.

(** ** C3: the download success percentage *)

Lemma C3_counterexample :
  count_download_success counters0 = 0%nat /\ count_download_failure counters0 = 0%nat /\
  download_success_pct counters0 = Ok 100%Q /\ ~ (100 == 0)%Q.
Proof. repeat split. discriminate. Qed.

(** C3 (as the code has it). The percentage is 100 whenever the failure
    counter is zero, in particular when no download occurred; the
    computation never divides by zero: it returns a number for all values
    of the counters. *)
Theorem C3_download_success_pct c :
  (exists q, download_success_pct c = Ok q) /\
  (count_download_failure c = 0%nat -> download_success_pct c = Ok 100%Q).
Proof.
  unfold download_success_pct, py_div. split.
  - destruct (count_download_failure c) as [|n] eqn:E; simpl; [eauto|].
    destruct (Qeq_bool _ 0) eqn:Q; simpl; [|eauto].
    apply Qeq_bool_eq in Q. unfold Q_of_nat, Qeq in Q. simpl in Q. lia.
  - intros ->. reflexivity.
Qed.

(** ** C4: the direct-serial flag *)

(** C4 (what the code does). With the direct-serial flag set, a
    [start_qmodem] marker makes the scanner look up [ConnectionType.DIRECT],
    which the enum does not have: [read_file] never returns a store for a
    log with such a line, and raises [AttributeError] at once when the log
    starts with it.  ([handshake_duration] itself does return 0 for a
    direct-serial record.) *)
Theorem C4_nullmodem_raises d pre post c0 :
  log_time d ->
  (forall recs c,
     read_file nullmodem_run (pre ++ marker "#### start_qmodem" d :: post) c0
     <> Ok (recs, c)) /\
  read_file nullmodem_run (marker "#### start_qmodem" d :: post) c0 = Raise AttributeError /\
  (forall r, connect_type r = DIRECTSERIAL -> handshake_duration r = Some 0%Z).
Proof.
  intros Hd. repeat split.
  - intros recs c. unfold read_file. rewrite scan_app.
    destruct (scan nullmodem_run pre (loop_init c0)) as [st|]; simpl; [|discriminate].
    rewrite ?scan_cons, (body_start_qmodem nullmodem_run d Hd). discriminate.
  - unfold read_file. rewrite scan_cons, (body_start_qmodem nullmodem_run d Hd).
    reflexivity.
  - intros r E. unfold handshake_duration. now rewrite E.
Qed.

Lemma C4_nullmodem_raises_witness :
  read_file nullmodem_run
    (marker "#### start_qmodem" (mk_datetime 2025 1 2 10 0 0) :: List.tl sample_call) counters0
  = Raise AttributeError.
Proof.
  apply (C4_nullmodem_raises (mk_datetime 2025 1 2 10 0 0) [] (List.tl sample_call) counters0).
  log_time_eval.
Defined.

(** ** C5: the banner of the board *)

(** C5 (what the code does). On a banner line read while a record is open,
    the record gets the speed as an integer; [remote_reliable] receives the
    text of the fragment ([None] when it is absent), not a boolean;
    [remote_ansi] is left as it was: the text of the ANSI fragment goes to
    a new attribute [remote_ansi_detected]. *)
Theorem C5_banner_fields args line st r bps reliable ansi n :
  record st = Some r -> banner_line line (Some bps) reliable ansi ->
  Py.int bps = Ok n ->
  exists st' r',
    body args line st = Ok st' /\ record st' = Some r' /\
    remote_connect_bps r' = Some n /\
    remote_reliable r' = option_map PyStr reliable /\
    remote_ansi r' = remote_ansi r /\
    remote_ansi_detected r' = Some ansi.
Proof.
  intros R B I. rewrite (body_banner args line st r bps reliable ansi R B), I.
  simpl. eexists _, _. repeat split.
Qed.

Lemma C5_banner_fields_witness :
  exists st' r',
    body modem_run (ln "Connected at 28800 bps.Reliable connection. ANSI detected.")
      (reading CallRecord_default counters0) = Ok st' /\
    record st' = Some r' /\
    remote_connect_bps r' = Some 28800%Z /\
    remote_reliable r' = option_map PyStr (Some "Reliable connection. ") /\
    remote_ansi r' = remote_ansi CallRecord_default /\
    remote_ansi_detected r' = Some (Some "ANSI detected.").
Proof.
  apply (C5_banner_fields modem_run _ (reading CallRecord_default counters0)
           CallRecord_default "28800" (Some "Reliable connection. ") (Some "ANSI detected.")).
  - reflexivity.
  - repeat split; try by_eval. eexists. repeat split; by_eval.
  - by_eval.
Defined.

(** ** C6: the counters *)

Lemma C6_counterexample :
  exists recs c,
    read_file modem_run reconnect_log counters0 = Ok (recs, c) /\
    count_start_dial c = 1%nat /\ count_connected c = 2%nat.
Proof. eexists _, _. repeat split; by_eval. Qed.

(** C6 (as the code has it). When [read_file] returns, starting from fresh
    counters, the attempt counter is the number of [start_qmodem] lines of
    the log and the connected counter is the number of [connected] lines;
    the connected counter is at most the attempt counter when no call has
    two [connected] lines; and [connect_success_percent] is 0.0 when the
    attempt counter is 0. *)
Theorem C6_counters args lines recs c :
  read_file args lines counters0 = Ok (recs, c) ->
  count_start_dial c = count_lines starts_call lines /\
  count_connected c = count_lines marks_connected lines /\
  (connects_once false lines = true -> (count_connected c <= count_start_dial c)%nat) /\
  (count_start_dial c = 0%nat -> connect_success_percent c = Ok 0%Q).
Proof.
  intros H. apply read_file_inv in H as (st & Hscan & _ & ->).
  pose proof (scan_counts args lines _ _ Hscan) as [C1 C2]. simpl in C1, C2.
  repeat split; try assumption.
  - intros Once. eapply scan_connect_bound; [exact Hscan | | exact Once].
    split; simpl; [lia|]. intros [? E]. discriminate E.
  - intros Z. unfold connect_success_percent. now rewrite Z.
Qed.

Lemma C6_counters_witness :
  exists recs c,
    read_file modem_run sample_call counters0 = Ok (recs, c) /\
    count_start_dial c = count_lines starts_call sample_call /\
    count_connected c = count_lines marks_connected sample_call /\
    (connects_once false sample_call = true -> (count_connected c <= count_start_dial c)%nat) /\
    (count_start_dial c = 0%nat -> connect_success_percent c = Ok 0%Q).
Proof.
  eexists _, _. split; [by_eval|].
  eapply (C6_counters modem_run sample_call). by_eval.
Defined.

(** ** C7: the record open at the end of the input *)

(** C7. When the log has a [start_qmodem] line after which no line starts
    with the [exit_qmodem] marker, and [read_file] returns, the record open
    at the end of the input is the last record of the store. *)
Theorem C7_open_record_saved args pre line rest c0 recs c :
  starts_call line = true ->
  Forall (fun l => rmatch r_exit_qmodem l = None) rest ->
  read_file args (pre ++ line :: rest) c0 = Ok (recs, c) ->
  exists st r,
    scan args (pre ++ line :: rest) (loop_init c0) = Ok st /\
    record st = Some r /\ is_Some (start_qmodem r) /\
    recs = repo st ++ [r] /\ In r recs.
Proof.
  intros Hline Hrest H. apply read_file_inv in H as (st & Hscan & -> & ->).
  exists st. pose proof Hscan as Hs. rewrite scan_app in Hs.
  destruct (scan args pre (loop_init c0)) as [st1|]; [|discriminate]. simpl in Hs.
  rewrite ?scan_cons in Hs.
  destruct (body args line st1) as [st2|] eqn:B; [|discriminate]. simpl in Hs.
  destruct (body_opens args line st1 st2 B Hline) as (r2 & R2 & S2).
  destruct (scan_keeps_record args rest st2 st r2 Hs Hrest R2 S2) as (r & R & S).
  exists r. rewrite R. repeat split; try assumption.
  apply in_or_app. right. left. reflexivity.
Qed.

Lemma C7_open_record_saved_witness :
  exists recs c st r,
    read_file modem_run ([] ++ abrupt_log) counters0 = Ok (recs, c) /\
    scan modem_run ([] ++ abrupt_log) (loop_init counters0) = Ok st /\
    record st = Some r /\ is_Some (start_qmodem r) /\
    recs = repo st ++ [r] /\ In r recs.
Proof.
  assert (E : exists recs c, read_file modem_run ([] ++ abrupt_log) counters0 = Ok (recs, c))
    by (eexists _, _; by_eval).
  destruct E as (recs & c & E). exists recs, c.
  destruct (C7_open_record_saved modem_run [] (ln "#### start_qmodem 01-02-25 10:00:00")
              (List.tl abrupt_log) counters0 recs c) as (st & r & H);
    [by_eval | repeat constructor; by_eval | exact E |].
  exists st, r. split; [exact E | exact H].
Defined.

(** ** C8: a failed download *)

(** The field is not cleared.  In a call whose transfer is reported with
    [SUCCESSFUL!  CPS = 3,204] and then with [UNSUCCESSFUL.], the second
    line has no CPS group and finds the record open: it sets
    [download_success] to [False] and leaves [download_cps] at 3204, and
    that is the record [read_file] stores. *)
Lemma C8_counterexample :
  (exists st st' r',
     scan modem_run (firstn 4 retry_log) (loop_init counters0) = Ok st /\
     download_result_line (ln "TEST.ZIP - UNSUCCESSFUL.") (Some "UNSUCCESSFUL.") None /\
     body modem_run (ln "TEST.ZIP - UNSUCCESSFUL.") st = Ok st' /\
     record st' = Some r' /\
     download_success r' = Some false /\ download_cps r' = Some 3204%Z) /\
  exists r c,
    read_file modem_run retry_log counters0 = Ok ([r], c) /\
    download_success r = Some false /\ download_cps r = Some 3204%Z.
Proof.
  split.
  - eexists _, _, _. split; [by_eval|]. split.
    + repeat split; try by_eval. eexists. repeat split; by_eval.
    + repeat split; by_eval.
  - eexists _, _. repeat split; by_eval.
Qed.

(** C8 (as the code has it). On a download-result line whose status is
    [UNSUCCESSFUL.] and which has no CPS group, read while a record is
    open, the record gets [download_success = False] and its
    [download_cps] is not touched: it stays [None] when it was [None], it
    keeps the value an earlier result line of the call gave it, and it is
    never set to zero.  The failure counter goes up by one. *)
Theorem C8_unsuccessful_download args line st r :
  record st = Some r ->
  download_result_line line (Some "UNSUCCESSFUL.") None ->
  exists st' r',
    body args line st = Ok st' /\ record st' = Some r' /\
    download_success r' = Some false /\
    download_cps r' = download_cps r /\
    (download_cps r = None -> download_cps r' = None) /\
    count_download_failure (counters st') = S (count_download_failure (counters st)) /\
    count_download_success (counters st') = count_download_success (counters st).
Proof.
  intros R L.
  rewrite (body_download_result args line st r "UNSUCCESSFUL." None R L).
  simpl. eexists _, _. repeat split. intros E. exact E.
Qed.

Lemma C8_unsuccessful_download_witness :
  exists st' r',
    body modem_run (ln "TEST.ZIP - UNSUCCESSFUL.") (reading CallRecord_default counters0)
    = Ok st' /\
    record st' = Some r' /\ download_success r' = Some false /\
    download_cps r' = download_cps CallRecord_default /\
    (download_cps CallRecord_default = None -> download_cps r' = None) /\
    count_download_failure (counters st') = 1%nat /\
    count_download_success (counters st') = 0%nat.
Proof.
  apply (C8_unsuccessful_download modem_run (ln "TEST.ZIP - UNSUCCESSFUL.")
           (reading CallRecord_default counters0) CallRecord_default).
  - reflexivity.
  - repeat split; try by_eval. eexists. repeat split; by_eval.
Defined.

(** ** C10: an abort before the call connected *)

(** C10. For every record of a store [read_file] returns, if the record has
    an abort time and no connect time, then [termination_reason] and
    [call_duration] both raise [TypeError] (they subtract the missing
    connect time) instead of returning a value. *)
Theorem C10_aborted_before_connect args lines c0 recs c r a :
  read_file args lines c0 = Ok (recs, c) -> In r recs ->
  aborted_time r = Some a -> connect_time r = None ->
  termination_reason r = Raise TypeError /\ call_duration r = Raise TypeError.
Proof.
  intros H Hin Ha Hc. apply read_file_inv in H as (st & Hscan & -> & _).
  assert (Hm : connect_type r = MODEM).
  { assert (M0 : modem_only (loop_init c0)).
    { split; [constructor | intros ? E; discriminate E]. }
    destruct (scan_connect_type args lines _ _ Hscan M0) as [M1 M2].
    rewrite Forall_forall in M1.
    destruct (record st) as [r1|].
    - apply in_app_or in Hin as [Hin|[<-|[]]].
      + apply M1, list_elem_of_In, Hin.
      + apply M2. reflexivity.
    - apply M1, list_elem_of_In, Hin. }
  unfold termination_reason, call_duration. rewrite Hm, Ha, Hc. simpl.
  split; [reflexivity|]. destruct (end_call r); reflexivity.
Qed.

Lemma C10_aborted_before_connect_witness :
  exists r c a,
    read_file modem_run aborted_log counters0 = Ok ([r], c) /\
    aborted_time r = Some a /\ connect_time r = None /\
    termination_reason r = Raise TypeError /\ call_duration r = Raise TypeError.
Proof.
  eexists _, _, _. split; [by_eval|]. split; [by_eval|]. split; [by_eval|].
  eapply (C10_aborted_before_connect modem_run aborted_log counters0).
  - by_eval.
  - left. reflexivity.
  - by_eval.
  - by_eval.
Defined.

(** * The diagnostic-block parser *)

Section IntOfDigits.

Lemma digit_not_space a : is_digit a = true -> is_space a = false.
Proof.
  unfold is_digit, is_space. intros H.
  apply andb_true_iff in H as [H1 H2]. apply Nat.leb_le in H1. apply Nat.leb_le in H2.
  apply orb_false_iff. split; apply andb_false_iff; right; apply Nat.leb_gt; lia.
Qed.

Lemma lstrip_digits l : forallb is_digit l = true -> Py.lstrip l = l.
Proof.
  destruct l as [|a l]; simpl; [reflexivity|]. intros H.
  apply andb_true_iff in H as [Ha _]. now rewrite (digit_not_space a Ha).
Qed.

Lemma strip_chars_digits l : forallb is_digit l = true -> Py.strip_chars l = l.
Proof.
  intros H. unfold Py.strip_chars. rewrite (lstrip_digits l H).
  rewrite lstrip_digits; [apply rev_involutive|].
  rewrite forallb_forall in *. intros x Hx. apply H. now apply in_rev.
Qed.

Lemma int_body_digits l : forall prev acc,
  forallb is_digit l = true -> (l <> [] \/ prev = true) ->
  Py.int_body prev acc l = Some (Py.digits_val acc l).
Proof.
  induction l as [|a l IH]; simpl; intros prev acc H Hne.
  - destruct Hne as [Hne| ->]; [congruence | reflexivity].
  - apply andb_true_iff in H as [Ha H]. rewrite Ha. apply IH; auto.
Qed.

Lemma digit_not_sign a :
  is_digit a = true -> Ascii.eqb a "-"%char = false /\ Ascii.eqb a "+"%char = false.
Proof.
  intros H. split; apply Ascii.eqb_neq; intros ->; discriminate H.
Qed.

Lemma digit_not_int_space a : is_digit a = true -> Py.is_int_space a = false.
Proof.
  unfold is_digit, Py.is_int_space. intros H.
  apply andb_true_iff in H as [H1 H2]. apply Nat.leb_le in H1. apply Nat.leb_le in H2.
  apply orb_false_iff. split.
  - apply andb_false_iff; right; apply Nat.leb_gt; lia.
  - apply Nat.eqb_neq. lia.
Qed.

Lemma int_lstrip_digits l : forallb is_digit l = true -> Py.int_lstrip l = l.
Proof.
  destruct l as [|a l]; simpl; [reflexivity|]. intros H.
  apply andb_true_iff in H as [Ha _]. now rewrite (digit_not_int_space a Ha).
Qed.

Lemma int_strip_digits l : forallb is_digit l = true -> Py.int_strip l = l.
Proof.
  intros H. unfold Py.int_strip. rewrite (int_lstrip_digits l H).
  rewrite int_lstrip_digits; [apply rev_involutive|].
  rewrite forallb_forall in *. intros x Hx. apply H. now apply in_rev.
Qed.

Lemma count_digits_all l :
  forallb is_digit l = true -> Py.count_digits l = Z.of_nat (length l).
Proof.
  unfold Py.count_digits. intros H. f_equal. f_equal.
  induction l as [|a l IH]; simpl in *; [reflexivity|].
  apply andb_true_iff in H as [-> H]. now rewrite (IH H).
Qed.

(** [int] on a run of digits: its value, unless the run is longer than the
    interpreter converts. *)
Lemma int_digits l :
  l <> [] -> forallb is_digit l = true ->
  Py.int (string_of_list_ascii l)
  = if (Z.of_nat (length l) <=? Py.int_max_str_digits)%Z
    then Ok (Py.digits_val 0 l) else Raise ValueError.
Proof.
  intros Hne H. unfold Py.int.
  rewrite list_ascii_of_string_of_list_ascii, (int_strip_digits l H).
  destruct l as [|a l]; [congruence|].
  pose proof H as H'. simpl in H'. apply andb_true_iff in H' as [Ha _].
  destruct (digit_not_sign a Ha) as [-> ->].
  unfold Py.int_unsigned.
  rewrite (int_body_digits (a :: l) false 0 H) by (left; discriminate).
  now rewrite (count_digits_all (a :: l) H).
Qed.

Lemma length_chars s : length (chars s) = String.length s.
Proof.
  unfold chars. induction s as [|a s IH]; simpl; [reflexivity|]. now rewrite IH.
Qed.

Lemma all_digits_chars l :
  all_digits (string_of_list_ascii l) = match l with [] => false | _ => forallb is_digit l end.
Proof.
  unfold all_digits, chars. rewrite list_ascii_of_string_of_list_ascii.
  destruct l; reflexivity.
Qed.

End IntOfDigits.

Ltac len := repeat (rewrite length_app || cbn [length]); lia.

Ltac split_match :=
  repeat match goal with
  | H : Matches (Plus _ (Chr _)) _ _ _ _ |- _ =>
      apply Matches_plus_chr in H; destruct H as (? & ? & ? & ? & ?); subst
  | H : Matches (Seq _ _) _ _ _ _ |- _ => inversion H; subst; clear H
  | H : Matches (Grp _ _) _ _ _ _ |- _ => inversion H; subst; clear H
  | H : Matches (Chr _) _ _ _ _ |- _ => inversion H; subst; clear H
  end.

Section PairShapes.

Lemma slice_at l p0 pre s' :
  l = p0 ++ pre ++ s' -> slice l (length (pre ++ s')) (length s') = pre.
Proof. intros ->. apply slice_app. Qed.

Lemma group_at l c n p0 pre s' :
  cap_lookup n c = Some (length (pre ++ s'), length s') -> l = p0 ++ pre ++ s' ->
  group {| m_line := l; m_caps := c |} n = Some (string_of_list_ascii pre).
Proof.
  intros Hc Hl. unfold group. simpl. rewrite Hc. f_equal. f_equal.
  eapply slice_at. exact Hl.
Qed.

Lemma pair1_num_shape l c :
  match_here r_pair1_num l = Some c ->
  exists key val,
    group {| m_line := l; m_caps := c |} 1 = Some (string_of_list_ascii key) /\
    group {| m_line := l; m_caps := c |} 2 = Some (string_of_list_ascii val) /\
    val <> [] /\ forallb is_digit val = true /\ (length val <= length l)%nat.
Proof.
  unfold match_here. intros H.
  apply m_sound in H as (s' & c' & HM & E). injection E as <-.
  unfold r_pair1_num in HM. split_match.
  match goal with
  | Hk : forallb (cls_test CAny) ?key = true, Hv : forallb (cls_test CDigit) ?val = true,
    Hw : forallb (cls_test CSpace) ?ws = true |- _ =>
      exists key, val; repeat split; try assumption;
      [ apply (group_at _ _ 1%nat [] key (a :: ws ++ val ++ s')); reflexivity
      | apply (group_at _ _ 2%nat (key ++ a :: ws) val s');
        [reflexivity | now rewrite <- app_assoc]
      | len ]
  end.
Qed.

Lemma pair2_shape l c :
  match_here r_pair2 l = Some c ->
  exists key1 val1 key2 val2,
    group {| m_line := l; m_caps := c |} 1 = Some (string_of_list_ascii key1) /\
    group {| m_line := l; m_caps := c |} 2 = Some (string_of_list_ascii val1) /\
    group {| m_line := l; m_caps := c |} 3 = Some (string_of_list_ascii key2) /\
    group {| m_line := l; m_caps := c |} 4 = Some (string_of_list_ascii val2) /\
    val1 <> [] /\ forallb is_digit val1 = true /\
    val2 <> [] /\ forallb is_digit val2 = true /\
    (length val1 <= length l)%nat /\ (length val2 <= length l)%nat.
Proof.
  unfold match_here. intros H.
  apply m_sound in H as (s' & c' & HM & E). injection E as <-.
  unfold r_pair2 in HM.
  inversion HM as [| |? ? ? ? s1 c1 ? ? G1 HM1| | | | |]; subst; clear HM.
  inversion HM1 as [| |? ? ? ? s2 c2 ? ? W1 HM2| | | | |]; subst; clear HM1.
  inversion HM2 as [| |? ? ? ? s3 c3 ? ? G2 HM3| | | | |]; subst; clear HM2.
  inversion HM3 as [| |? ? ? ? s4 c4 ? ? W2 HM4| | | | |]; subst; clear HM3.
  inversion HM4 as [| |? ? ? ? s5 c5 ? ? G3 HM5| | | | |]; subst; clear HM4.
  inversion HM5 as [| |? ? ? ? s6 c6 ? ? W3 G4| | | | |]; subst; clear HM5.
  inversion G1 as [| | | | | | |? ? ? ? ? ? K1]; subst; clear G1.
  inversion G2 as [| | | | | | |? ? ? ? ? ? V1]; subst; clear G2.
  inversion G3 as [| | | | | | |? ? ? ? ? ? K2]; subst; clear G3.
  inversion G4 as [| | | | | | |? ? ? ? ? ? V2]; subst; clear G4.
  apply Matches_plus_chr in K1 as (key1 & Nk1 & -> & Ak1 & ->).
  apply Matches_plus_chr in W1 as (w1 & Nw1 & -> & Aw1 & ->).
  apply Matches_plus_chr in V1 as (val1 & Nv1 & -> & Av1 & ->).
  apply Matches_plus_chr in W2 as (w2 & Nw2 & -> & Aw2 & ->).
  apply Matches_plus_chr in K2 as (key2 & Nk2 & -> & Ak2 & ->).
  apply Matches_plus_chr in W3 as (w3 & Nw3 & -> & Aw3 & ->).
  apply Matches_plus_chr in V2 as (val2 & Nv2 & -> & Av2 & ->).
  exists key1, val1, key2, val2. repeat split; try assumption.
  - eapply (group_at _ _ 1%nat [] key1); reflexivity.
  - eapply (group_at _ _ 2%nat (key1 ++ w1) val1);
      [reflexivity | now rewrite <- !app_assoc].
  - eapply (group_at _ _ 3%nat (key1 ++ w1 ++ val1 ++ w2) key2);
      [reflexivity | now rewrite <- !app_assoc].
  - eapply (group_at _ _ 4%nat (key1 ++ w1 ++ val1 ++ w2 ++ key2 ++ w3) val2);
      [reflexivity | now rewrite <- !app_assoc].
  - len.
  - len.
Qed.

Lemma pair1_str_shape l c :
  match_here r_pair1_num l = None ->
  match_here r_pair1_str l = Some c ->
  exists key val,
    group {| m_line := l; m_caps := c |} 1 = Some (string_of_list_ascii key) /\
    group {| m_line := l; m_caps := c |} 2 = Some (string_of_list_ascii val) /\
    all_digits (string_of_list_ascii val) = false.
Proof.
  unfold match_here. intros Hnum H.
  apply m_sound in H as (s' & c' & HM & E). injection E as <-.
  unfold r_pair1_str in HM. split_match.
  match goal with
  | Hk : forallb (cls_test CAny) ?key = true, Nk : ?key <> [],
    Hw : forallb (cls_test CSpace) ?ws = true, Nw : ?ws <> [],
    Hs : cls_test CSpace a = true |- _ =>
      match goal with
      | Hv : forallb (cls_test CAny) ?val = true, Nv : ?val <> [] |- _ =>
          lazymatch val with
          | key => fail
          | _ =>
              exists key, val; repeat split;
              [ apply (group_at _ _ 1%nat [] key (a :: ws ++ val ++ s')); reflexivity
              | apply (group_at _ _ 2%nat (key ++ a :: ws) val s');
                [reflexivity | now rewrite <- app_assoc]
              | rewrite all_digits_chars; destruct val as [|v0 val'] eqn:Ev; [reflexivity|];
                rewrite <- Ev in *;
                destruct (forallb is_digit val) eqn:Dv; [exfalso | reflexivity];
                apply (m_complete r_pair1_num (key ++ a :: ws ++ val ++ s') []
                         s' [(2, (length (val ++ s'), length s'));
                             (1, (length (key ++ a :: ws ++ val ++ s'),
                                  length (a :: ws ++ val ++ s')))]%nat
                         (fun _ c => Some c));
                [ unfold r_pair1_num;
                  eapply M_seq;
                  [ apply M_grp, (Matches_plus_chr_intro false CAny key); assumption
                  | eapply M_seq;
                    [ apply M_chr; exact Hs
                    | eapply M_seq;
                      [ apply (Matches_plus_chr_intro true CSpace ws); assumption
                      | apply M_grp, (Matches_plus_chr_intro true CDigit val);
                        [assumption | exact Dv] ] ] ]
                | discriminate
                | exact Hnum ] ]
          end
      end
  end.
Qed.

End PairShapes.

Section ParseOutputFacts.

Variable mapping : gmap string string.

(** Storing an integer field: the entry of the specification, unless the
    label is mapped and the digits are more than [int] converts. *)
Lemma store_int key val data :
  val <> [] -> forallb is_digit val = true ->
  ((Z.of_nat (length val) <= Py.int_max_str_digits)%Z ->
   store mapping key (int_value (string_of_list_ascii val)) data
   = Ok (store_spec mapping key (string_of_list_ascii val) data)) /\
  (store mapping key (int_value (string_of_list_ascii val)) data
   = Ok (store_spec mapping key (string_of_list_ascii val) data) \/
   store mapping key (int_value (string_of_list_ascii val)) data = Raise ValueError).
Proof.
  intros Hne Hd. unfold store, store_spec, mapped_name, int_value, value_of_text.
  rewrite (int_digits val Hne Hd), all_digits_chars.
  unfold chars. rewrite list_ascii_of_string_of_list_ascii.
  destruct val as [|v0 val'] eqn:Ev; [congruence|]. rewrite <- Ev in *. rewrite Hd.
  destruct (mapping !! Py.strip key) as [k|]; [|split; auto].
  destruct (nonempty k); [|split; auto].
  destruct (Z.leb_spec (Z.of_nat (length val)) Py.int_max_str_digits) as [L|L]; simpl.
  - split; auto.
  - split; [lia | now right].
Qed.

Lemma store_str key text data :
  all_digits text = false ->
  store mapping key (Ok (VStr (Py.strip text))) data = Ok (store_spec mapping key text data).
Proof.
  intros Hd. unfold store, store_spec, mapped_name, value_of_text. rewrite Hd.
  destruct (mapping !! Py.strip key) as [k|]; [|reflexivity].
  destruct (nonempty k); reflexivity.
Qed.

Lemma rmatch_inv r line mo :
  rmatch r line = Some mo ->
  exists c, match_here r (chars line) = Some c /\ mo = {| m_line := chars line; m_caps := c |}.
Proof.
  unfold rmatch, chars. destruct (match_here r (list_ascii_of_string line)) as [c|];
    [|discriminate].
  intros E. injection E as <-. eauto.
Qed.

Lemma rmatch_none r line :
  rmatch r line = None -> match_here r (chars line) = None.
Proof.
  unfold rmatch, chars. destruct (match_here r (list_ascii_of_string line)); [discriminate|].
  reflexivity.
Qed.

(** One line: what the specification computes, when the line is short
    enough for [int]; in any case that or a [ValueError]. *)
Lemma parse_line_refines data line :
  (short_line line ->
   parse_line mapping data line = Ok (parse_line_spec mapping data line)) /\
  (parse_line mapping data line = Ok (parse_line_spec mapping data line) \/
   parse_line mapping data line = Raise ValueError).
Proof.
  unfold short_line. rewrite <- length_chars.
  unfold parse_line, parse_line_spec.
  destruct (rmatch r_usr line); [split; auto|].
  destruct (rmatch r_pair2 line) as [mo|] eqn:E2.
  { apply rmatch_inv in E2 as (c & Hc & ->).
    apply pair2_shape in Hc
      as (k1 & v1 & k2 & v2 & G1 & G2 & G3 & G4 & N1 & D1 & N2 & D2 & L1 & L2).
    unfold group_str, group_text. rewrite G1, G2, G3, G4. cbn [rbind].
    destruct (store_int (string_of_list_ascii k1) v1 data N1 D1) as [A1 B1].
    destruct (store_int (string_of_list_ascii k2) v2
                (store_spec mapping (string_of_list_ascii k1) (string_of_list_ascii v1) data)
                N2 D2) as [A2 B2].
    split.
    - intros L. rewrite A1 by lia. cbn [rbind]. apply A2. lia.
    - destruct B1 as [-> | ->]; cbn [rbind]; [exact B2 | now right]. }
  destruct (rmatch r_pair1_num line) as [mo|] eqn:E3.
  { apply rmatch_inv in E3 as (c & Hc & ->).
    apply pair1_num_shape in Hc as (k & v & G1 & G2 & N & D & L1).
    unfold group_str, group_text. rewrite G1, G2. cbn [rbind].
    destruct (store_int (string_of_list_ascii k) v data N D) as [A B].
    split; [intros L; apply A; lia | exact B]. }
  destruct (rmatch r_pair1_str line) as [mo|] eqn:E4; [|split; auto].
  apply rmatch_inv in E4 as (c & Hc & ->). apply rmatch_none in E3.
  apply (pair1_str_shape _ _ E3) in Hc as (k & v & G1 & G2 & D).
  unfold group_str, group_text. rewrite G1, G2. cbn [rbind].
  rewrite (store_str _ _ data D). split; auto.
Qed.

Lemma parse_lines_refines lines : forall data,
  (Forall short_line lines ->
   parse_lines mapping data lines = Ok (fold_left (parse_line_spec mapping) lines data)) /\
  (parse_lines mapping data lines = Ok (fold_left (parse_line_spec mapping) lines data) \/
   parse_lines mapping data lines = Raise ValueError).
Proof.
  induction lines as [|l lines IH]; intros data; simpl; [split; auto|].
  destruct (parse_line_refines data l) as [A B].
  destruct (IH (parse_line_spec mapping data l)) as [A' B'].
  split.
  - intros H. apply Forall_cons in H as [Hl H]. rewrite (A Hl). cbn [rbind]. auto.
  - destruct B as [-> | ->]; cbn [rbind]; [exact B' | now right].
Qed.

(** [parse_output] on lines within the limit of [int]. *)
Lemma parse_output_short lines :
  Forall short_line lines ->
  parse_output mapping lines = Ok (parse_output_spec mapping lines).
Proof.
  unfold parse_output, parse_output_spec.
  destruct lines as [|l lines]; [reflexivity|]. apply parse_lines_refines.
Qed.

Lemma parse_output_cases lines :
  parse_output mapping lines = Ok (parse_output_spec mapping lines) \/
  parse_output mapping lines = Raise ValueError.
Proof.
  unfold parse_output, parse_output_spec.
  destruct lines as [|l lines]; [now left|]. apply parse_lines_refines.
Qed.

(** What [parse_output] returns is what the specification computes. *)
Lemma parse_output_refines lines data :
  parse_output mapping lines = Ok data -> data = parse_output_spec mapping lines.
Proof.
  destruct (parse_output_cases lines) as [-> | ->]; congruence.
Qed.

Lemma store_spec_keys key text data :
  mapped_keys mapping data -> mapped_keys mapping (store_spec mapping key text data).
Proof.
  intros H. unfold store_spec.
  destruct (mapping !! Py.strip key) as [k|] eqn:E; [|exact H].
  destruct (nonempty k); [|exact H].
  intros k' v'. rewrite lookup_insert. case_decide as Ek.
  - subst. eauto.
  - apply H.
Qed.

Lemma parse_line_spec_keys data line :
  mapped_keys mapping data -> mapped_keys mapping (parse_line_spec mapping data line).
Proof.
  intros H. unfold parse_line_spec.
  repeat match goal with |- context [match ?x with _ => _ end] =>
    lazymatch x with
    | rmatch _ _ => destruct x
    end
  end; auto using store_spec_keys.
Qed.

Lemma parse_output_spec_keys lines : mapped_keys mapping (parse_output_spec mapping lines).
Proof.
  unfold parse_output_spec.
  assert (G : forall data, mapped_keys mapping data ->
                mapped_keys mapping (fold_left (parse_line_spec mapping) lines data)).
  { induction lines as [|l ls IH]; simpl; intros data H; [exact H|].
    apply IH, parse_line_spec_keys, H. }
  apply G. intros k v E. rewrite lookup_empty in E. discriminate.
Qed.

End ParseOutputFacts.

Section Trimmed.

Lemma lstrip_split l :
  exists p, l = p ++ Py.lstrip l /\ forallb is_space p = true /\ head_ok (Py.lstrip l).
Proof.
  induction l as [|a l (p & E & Hp & Hh)]; simpl.
  - exists []. repeat split.
  - destruct (is_space a) eqn:Ea.
    + exists (a :: p). simpl. rewrite Ea, Hp.
      split; [now rewrite <- E | split; [reflexivity | exact Hh]].
    + exists []. repeat split. exact Ea.
Qed.

Lemma strip_chars_trim l :
  exists pre post,
    l = pre ++ Py.strip_chars l ++ post /\
    forallb is_space pre = true /\ forallb is_space post = true /\
    head_ok (Py.strip_chars l) /\ head_ok (rev (Py.strip_chars l)).
Proof.
  unfold Py.strip_chars.
  destruct (lstrip_split l) as (p & E & Hp & Hx).
  set (x := Py.lstrip l) in *.
  destruct (lstrip_split (rev x)) as (q & E' & Hq & Hz).
  set (z := Py.lstrip (rev x)) in *.
  assert (Ex : x = rev z ++ rev q).
  { rewrite <- (rev_involutive x), E'. apply rev_app_distr. }
  exists p, (rev q). split; [now rewrite <- Ex|]. split; [exact Hp|]. split; [|split].
  - rewrite forallb_forall in *. intros a Ha. apply Hq, in_rev, Ha.
  - destruct (rev z) as [|a y] eqn:Ey; [exact I|]. rewrite Ex in Hx. exact Hx.
  - rewrite rev_involutive. exact Hz.
Qed.

Lemma strip_trim text : trim_of text (Py.strip text).
Proof.
  unfold trim_of, Py.strip, chars. rewrite list_ascii_of_string_of_list_ascii.
  apply strip_chars_trim.
Qed.

Lemma strip_short l : short_line l -> short_line (Py.strip l).
Proof.
  unfold short_line. rewrite <- !length_chars. intros H.
  destruct (strip_trim l) as (pre & post & E & _).
  rewrite E in H. revert H. repeat rewrite length_app. lia.
Qed.

Lemma value_reads text : reads_as text (value_of_text text).
Proof.
  unfold value_of_text. destruct (all_digits text) eqn:E; simpl; split; auto.
  apply strip_trim.
Qed.

End Trimmed.

Section EntrySources.

Variable mapping : gmap string string.

Lemma store_spec_sourced lines line label text data :
  In line lines -> In (label, text) (line_pairs line) ->
  sourced mapping lines data -> sourced mapping lines (store_spec mapping label text data).
Proof.
  intros Hl Hp H. unfold store_spec.
  destruct (mapping !! Py.strip label) as [k|] eqn:E; [|exact H].
  destruct (nonempty k); [|exact H].
  intros k' v'. rewrite lookup_insert. case_decide as Ek; [|apply H].
  subst k'. intros [= <-]. exists line, label, (Py.strip label), text.
  split; [exact Hl|]. split; [exact Hp|]. split; [apply strip_trim|].
  split; [exact E | apply value_reads].
Qed.

Lemma parse_line_spec_pairs data line :
  parse_line_spec mapping data line
  = fold_left (fun d p => store_spec mapping (fst p) (snd p) d) (line_pairs line) data.
Proof.
  unfold parse_line_spec, line_pairs.
  destruct (rmatch r_usr line); [reflexivity|].
  destruct (rmatch r_pair2 line); [reflexivity|].
  destruct (rmatch r_pair1_num line); [reflexivity|].
  destruct (rmatch r_pair1_str line); reflexivity.
Qed.

Lemma parse_line_spec_sourced lines line data :
  In line lines -> sourced mapping lines data ->
  sourced mapping lines (parse_line_spec mapping data line).
Proof.
  intros Hl H. rewrite parse_line_spec_pairs.
  assert (G : forall ps d, (forall p, In p ps -> In p (line_pairs line)) ->
                sourced mapping lines d ->
                sourced mapping lines
                  (fold_left (fun d p => store_spec mapping (fst p) (snd p) d) ps d)).
  { induction ps as [|[label text] ps IH]; simpl; intros d Hin Hd; [exact Hd|].
    apply IH; [auto|]. eapply store_spec_sourced; eauto. }
  apply G; auto.
Qed.

Lemma parse_output_spec_sourced lines :
  sourced mapping lines (parse_output_spec mapping lines).
Proof.
  unfold parse_output_spec.
  assert (G : forall ls data, (forall l, In l ls -> In l lines) ->
                sourced mapping lines data ->
                sourced mapping lines (fold_left (parse_line_spec mapping) ls data)).
  { induction ls as [|l ls IH]; simpl; intros data Hin Hd; [exact Hd|].
    apply IH; [auto|]. apply parse_line_spec_sourced; auto. }
  apply G; auto. intros k v E. rewrite lookup_empty in E. discriminate.
Qed.

End EntrySources.

(** A value of 4301 digits under a mapped label: [int] refuses it, and
    [parse_output] raises. *)
Lemma parse_output_over_limit :
  parse_output ATI6_mapping [long_digits_line] = Raise ValueError.
Proof. vm_cast_no_check (eq_refl (@Raise (gmap string value) ValueError)). Qed.

(** ** C9: the parsed block *)

(** C9. What [parse_output] produces.  On lines no longer than the number
    of digits [int] converts it returns, and whenever it returns, every
    entry of the mapping it returns was read from a line of the block: its
    key is what the fixed mapping gives for the trimmed label, so a label
    the mapping does not have contributes no entry, and its value is the
    integer of the matched value text when that text is all digits and
    otherwise that text without the white space at its two ends.  The
    result is the one the fold [parse_output_spec] computes, and the only
    exception is the [ValueError] of [int].  With the call-statistics
    mapping the line [Chars sent        1024   Chars Received     2048]
    gives [chars_tx = 1024] and [chars_rx = 2048]. *)
Theorem C9_parse_output mapping lines :
  (Forall short_line lines -> exists data, parse_output mapping lines = Ok data) /\
  (forall data, parse_output mapping lines = Ok data ->
     data = parse_output_spec mapping lines /\
     forall k v, data !! k = Some v -> entry_source mapping lines k v) /\
  (forall e, parse_output mapping lines = Raise e -> e = ValueError) /\
  exists data,
    ATI6Parser ["Chars sent        1024   Chars Received     2048"] = Ok data /\
    data !! "chars_tx" = Some (VInt 1024) /\ data !! "chars_rx" = Some (VInt 2048).
Proof.
  split; [intros H; eexists; apply parse_output_short, H|].
  split.
  { intros data E. apply parse_output_refines in E. subst data.
    split; [reflexivity | apply parse_output_spec_sourced]. }
  split.
  { intros e E. destruct (parse_output_cases mapping lines) as [E'|E']; congruence. }
  eexists. split; [vm_compute; reflexivity|]. split; vm_compute; reflexivity.
Qed.

(** * Further properties of the code *)

#[local] Transparent body marker.

Section Timestamps.

Lemma digit_val_range a : is_digit a = true -> (0 <= Py.digit_val a <= 9)%Z.
Proof.
  unfold is_digit, Py.digit_val. intros H.
  apply andb_true_iff in H as [H1 H2]. apply Nat.leb_le in H1. apply Nat.leb_le in H2. lia.
Qed.

Lemma digit_char_of_val a : is_digit a = true -> digit_char (Py.digit_val a) = a.
Proof.
  intros H. unfold digit_char, Py.digit_val.
  pose proof H as H'. unfold is_digit in H'.
  apply andb_true_iff in H' as [H1 H2]. apply Nat.leb_le in H1. apply Nat.leb_le in H2.
  rewrite Nat2Z.id. replace (48 + (nat_of_ascii a - 48))%nat with (nat_of_ascii a) by lia.
  apply ascii_nat_embedding.
Qed.

Lemma two_digits_num2 a b :
  is_digit a = true -> is_digit b = true -> two_digits (num2 a b) = [a; b].
Proof.
  intros Ha Hb. unfold two_digits, num2.
  pose proof (digit_val_range a Ha). pose proof (digit_val_range b Hb).
  replace ((10 * Py.digit_val a + Py.digit_val b) / 10)%Z with (Py.digit_val a)
    by (Z.div_mod_to_equations; lia).
  replace ((10 * Py.digit_val a + Py.digit_val b) mod 10)%Z with (Py.digit_val b)
    by (Z.div_mod_to_equations; lia).
  now rewrite !digit_char_of_val.
Qed.

Lemma num2_range a b :
  is_digit a = true -> is_digit b = true -> (0 <= num2 a b < 100)%Z.
Proof.
  intros Ha Hb. unfold num2.
  pose proof (digit_val_range a Ha). pose proof (digit_val_range b Hb). lia.
Qed.

End Timestamps.

(** X2. When [parse_log_ts] accepts a text, the instant it returns is a
    valid date and time of the years 1969 to 2068, and writing it back as
    [MM-DD-YY HH:MM:SS] gives the text again. *)
Theorem X2_parse_then_format ts d :
  ts_shaped ts -> parse_log_ts ts = Ok d -> log_time d /\ format_ts d = ts.
Proof.
  intros _ H. unfold parse_log_ts in H.
  destruct (list_ascii_of_string ts) as
    [|m1 [|m2 [|s1 [|d1 [|d2 [|s2 [|y1 [|y2 [|s3 [|h1 [|h2 [|s4 [|n1 [|n2 [|s5 [|c1 [|c2 [|? ?]]]]]]]]]]]]]]]]]]
    eqn:L; try discriminate H.
  match type of H with (if ?b then _ else _) = _ => destruct b eqn:B end; [|discriminate H].
  do 5 (apply andb_true_iff in B as [B ?]).
  rewrite forallb_forall in B.
  assert (Dg : forall a, In a [m1; m2; d1; d2; y1; y2; h1; h2; n1; n2; c1; c2] ->
                         is_digit a = true) by exact B.
  clear B.
  assert (is_digit m1 = true /\ is_digit m2 = true /\ is_digit d1 = true /\
          is_digit d2 = true /\ is_digit y1 = true /\ is_digit y2 = true /\
          is_digit h1 = true /\ is_digit h2 = true /\ is_digit n1 = true /\
          is_digit n2 = true /\ is_digit c1 = true /\ is_digit c2 = true)
    as (? & ? & ? & ? & ? & ? & ? & ? & ? & ? & ? & ?)
    by (repeat split; apply Dg; simpl; tauto).
  repeat match goal with E : Ascii.eqb _ _ = true |- _ => apply Ascii.eqb_eq in E end.
  subst s1 s2 s3 s4 s5.
  match type of H with (if ?b then _ else _) = _ => destruct b eqn:V end; [|discriminate H].
  injection H as <-.
  pose proof (num2_range y1 y2 ltac:(assumption) ltac:(assumption)) as Ry.
  assert (Y : ((if (num2 y1 y2 <=? 68)%Z then 2000 + num2 y1 y2 else 1900 + num2 y1 y2)
               mod 100 = num2 y1 y2)%Z).
  { destruct (num2 y1 y2 <=? 68)%Z; Z.div_mod_to_equations; lia. }
  split.
  - split; [exact V|]. simpl.
    destruct (num2 y1 y2 <=? 68)%Z eqn:E; [apply Z.leb_le in E | apply Z.leb_gt in E]; lia.
  - unfold format_ts, format_ts_chars. cbn [dt_year dt_month dt_day dt_hour dt_minute dt_second].
    rewrite Y, !two_digits_num2 by assumption. cbn [app].
    rewrite <- L. apply string_of_list_ascii_of_string.
Qed.

Section StoreFacts.

Variable args : Args.

Lemma body_held_starts line st st' :
  body args line st = Ok st' ->
  (forall r, record st = Some r -> is_Some (start_qmodem r)) ->
  held_starts st' =
    held_starts st ++ match call_start line with Some d => [Some d] | None => [] end /\
  (forall r, record st' = Some r -> is_Some (start_qmodem r)) /\
  starts_call line = match call_start line with Some _ => true | None => false end.
Proof.
  intros H Hrec. unfold held_starts, call_start, starts_call.
  body_cases H;
    repeat match goal with E : search _ _ = _ |- _ => rewrite E; clear E end;
    repeat match goal with E : parse_group _ _ = _ |- _ => rewrite E; clear E end;
    simpl.
  all: try (exfalso; destruct (Hrec _ eq_refl) as [? E]; congruence).
  all: split;
    [ rewrite ?map_app, ?app_nil_r; simpl; rewrite ?app_nil_r; first [reflexivity | congruence]
    | split; [|reflexivity];
      intros ? E; first [discriminate E | injection E as <-; simpl; eauto | eauto] ].
Qed.

Lemma scan_held_starts lines : forall st st',
  scan args lines st = Ok st' ->
  (forall r, record st = Some r -> is_Some (start_qmodem r)) ->
  held_starts st' = held_starts st ++ List.map Some (call_starts lines) /\
  length (call_starts lines) = count_lines starts_call lines.
Proof.
  unfold count_lines.
  induction lines as [|l lines IH]; simpl; intros st st' H Hrec.
  - injection H as <-. now rewrite app_nil_r.
  - destruct (body args l st) as [st1|] eqn:B; [|discriminate]. simpl in H.
    destruct (body_held_starts l st st1 B Hrec) as (E1 & Hrec1 & S).
    destruct (IH st1 st' H Hrec1) as [E2 L].
    rewrite E2, E1, S. destruct (call_start l); simpl.
    + split; [now rewrite <- app_assoc | now rewrite L].
    + split; [now rewrite app_nil_r | exact L].
Qed.

Lemma body_scanned line st st' :
  body args line st = Ok st' ->
  Forall scanned (repo st) -> (forall r, record st = Some r -> scanned r) ->
  Forall scanned (repo st') /\ (forall r, record st' = Some r -> scanned r).
Proof.
  intros H Hrepo Hrec.
  body_cases H;
    (split;
     [ first [ assumption
             | apply Forall_app_2; [assumption|]; constructor; [|constructor] ]
     | intros ? E; first [ discriminate E | injection E as <- | auto ] ]);
    try (specialize (Hrec _ eq_refl));
    try assumption;
    unfold scanned in *; simpl;
    repeat match goal with H : _ /\ _ |- _ => destruct H end;
    repeat split; try assumption; try discriminate; eauto;
    try (intros [? E0]; discriminate E0); try tauto.
Qed.

Lemma scan_scanned lines : forall st st',
  scan args lines st = Ok st' ->
  Forall scanned (repo st) -> (forall r, record st = Some r -> scanned r) ->
  Forall scanned (repo st') /\ (forall r, record st' = Some r -> scanned r).
Proof.
  induction lines as [|l lines IH]; simpl; intros st st' H Hrepo Hrec.
  - injection H as <-. auto.
  - destruct (body args l st) as [st1|] eqn:B; [|discriminate]. simpl in H.
    destruct (body_scanned l st st1 B Hrepo Hrec). eauto.
Qed.

Lemma body_download_counts line st st' :
  body args line st = Ok st' ->
  count_download_success (counters st') =
    (count_download_success (counters st) + (if is_success line then 1 else 0))%nat /\
  count_download_failure (counters st') =
    (count_download_failure (counters st) + (if is_failure line then 1 else 0))%nat.
Proof.
  intros H. unfold is_success, is_failure, download_status.
  body_cases H;
    repeat match goal with E : search _ _ = _ |- _ => rewrite E; clear E end;
    simpl; try lia.
  all: repeat match goal with E : group _ _ = _ |- _ => rewrite E; clear E end;
    repeat match goal with E : String.eqb _ _ = _ |- _ => rewrite E; clear E end;
    simpl; lia.
Qed.

Lemma scan_download_counts lines : forall st st',
  scan args lines st = Ok st' ->
  count_download_success (counters st') =
    (count_download_success (counters st) + count_lines is_success lines)%nat /\
  count_download_failure (counters st') =
    (count_download_failure (counters st) + count_lines is_failure lines)%nat.
Proof.
  unfold count_lines.
  induction lines as [|l lines IH]; simpl; intros st st' H.
  - injection H as <-. lia.
  - destruct (body args l st) as [st1|] eqn:B; [|discriminate]. simpl in H.
    apply IH in H as [H1 H2]. apply body_download_counts in B as [B1 B2].
    rewrite H1, H2, B1, B2.
    destruct (is_success l), (is_failure l); simpl; lia.
Qed.

Lemma body_aborted_flag line st b x :
  rmap (with_aborted x) (body args line (with_aborted b st))
  = rmap (with_aborted x) (body args line st).
Proof.
  unfold body, stamp, rbind, the_record, with_record, with_aborted. simpl.
  repeat match goal with
         | |- context [match ?y with _ => _ end] => body_step y; simpl; try reflexivity
         end.
Qed.

End StoreFacts.

Section Report.

Lemma report_row_printable r :
  scanned r -> printable r -> exists row, report_row r = Ok row.
Proof.
  intros (Hm & [d Hs] & _) ([sd Hsd] & [ct Hct] & Hdl).
  unfold report_row, handshake_duration, download_duration, call_duration,
    termination_reason.
  rewrite Hs, Hm, Hsd, Hct. cbn [rbind].
  assert (D : exists dd, match download_success r with
                         | Some true =>
                             d0 <- sub_seconds (end_download r) (start_download r) ;;
                             Ok (Some d0)
                         | _ => Ok None
                         end = Ok dd).
  { destruct (download_success r) as [[|]|]; eauto.
    destruct (Hdl eq_refl) as [[a ->] [b ->]]. simpl. eauto. }
  destruct D as [dd ->]. cbn [rbind].
  destruct (end_call r), (aborted_time r), (exit_qmodem r); simpl; eauto.
Qed.

Lemma report_row_unprintable r :
  scanned r -> ~ printable r -> report_row r = Raise TypeError.
Proof.
  intros (Hm & [d Hs] & _) Hn.
  unfold report_row, handshake_duration, download_duration, call_duration,
    termination_reason.
  rewrite Hs, Hm. cbn [rbind].
  destruct (start_dial r) as [sd|] eqn:Hsd; [|reflexivity].
  destruct (connect_time r) as [ct|] eqn:Hct; [|reflexivity].
  cbn [rbind].
  destruct (download_success r) as [[|]|] eqn:Hd;
    try (exfalso; apply Hn; unfold printable; rewrite Hsd, Hct, Hd;
         repeat split; eauto; discriminate).
  destruct (end_download r) as [e|] eqn:He; [|reflexivity].
  destruct (start_download r) as [s|] eqn:Hsdl; [|reflexivity].
  exfalso. apply Hn. unfold printable. rewrite Hsd, Hct, Hsdl, He. repeat split; eauto.
Qed.

Lemma print_rows_all rs :
  Forall scanned rs -> Forall printable rs ->
  exists rows, print_rows rs = (rows, Ok tt) /\ length rows = length rs.
Proof.
  induction rs as [|r rs IH]; intros Hs Hp; simpl; [eauto|].
  inversion Hs; inversion Hp; subst.
  destruct (report_row_printable r) as [row ->]; try assumption.
  destruct IH as (rows & -> & L); try assumption.
  exists (row :: rows). simpl. now rewrite L.
Qed.

Lemma print_rows_some rs r :
  Forall scanned rs -> In r rs -> ~ printable r ->
  snd (print_rows rs) = Raise TypeError.
Proof.
  induction rs as [|x rs IH]; intros Hs Hin Hn; [destruct Hin|].
  inversion Hs; subst. simpl.
  destruct (report_row x) as [row|e] eqn:E.
  - destruct Hin as [->|Hin].
    + rewrite (report_row_unprintable r) in E by assumption. discriminate.
    + specialize (IH ltac:(assumption) Hin Hn).
      destruct (print_rows rs) as [out res]. exact IH.
  - assert (Hx : ~ printable x).
    { intros Hp. destruct (report_row_printable x ltac:(assumption) Hp) as [? E'].
      congruence. }
    rewrite (report_row_unprintable x) in E by assumption. now injection E as <-.
Qed.

End Report.

Section Aggregates.

Lemma termination_reason_cases r :
  (aborted_unconnected r /\ termination_reason r = Raise TypeError) \/
  (~ aborted_unconnected r /\
   exists t, termination_reason r = Ok t /\
             (ended_normally r = true <-> t = NormalEnd)).
Proof.
  unfold aborted_unconnected, termination_reason, ended_normally, sub_seconds.
  destruct (aborted_time r) as [a|], (connect_time r) as [c|], (end_call r) as [e|];
    simpl.
  all: try (left; split; [split; eauto | reflexivity]).
  all: right; (split; [intros [[? ?] ?]; discriminate|]); eexists; split; try reflexivity;
    split; intros; congruence.
Qed.

Lemma termination_reasons_spec rs : forall n a,
  match termination_reasons rs n a with
  | Ok (n', a') =>
      (n' + a' = n + a + length rs)%nat /\
      n' = (n + length (List.filter ended_normally rs))%nat /\
      Forall (fun r => ~ aborted_unconnected r) rs
  | Raise e => e = TypeError /\ Exists aborted_unconnected rs
  end.
Proof.
  induction rs as [|r rs IH]; intros n a; simpl.
  - repeat split; try lia. constructor.
  - destruct (termination_reason_cases r) as [[Hb ->]|(Hb & t & -> & Ht)]; simpl.
    + split; [reflexivity | now left].
    + assert (St : forall n1 a1,
                match termination_reasons rs n1 a1 with
                | Ok (n', a') =>
                    (n' + a' = n1 + a1 + length rs)%nat /\
                    n' = (n1 + length (List.filter ended_normally rs))%nat /\
                    Forall (fun r => ~ aborted_unconnected r) rs
                | Raise e => e = TypeError /\ Exists aborted_unconnected rs
                end) by exact IH.
      destruct t; [specialize (St n (S a)) | specialize (St (S n) a) | specialize (St n (S a))].
      all: destruct (termination_reasons rs _ _) as [[n' a']|e];
        [ destruct St as (S1 & S2 & S3) | destruct St as [-> S2]; split; [reflexivity | now right] ].
      all: destruct (ended_normally r) eqn:E;
        try (assert (X : NormalEnd = NormalEnd) by reflexivity; apply Ht in X; discriminate X);
        try (assert (X : true = true) by reflexivity; apply Ht in X; discriminate X);
        simpl; repeat split; try lia; constructor; assumption.
Qed.

Lemma fold_min_le rest : forall x,
  (fold_left Z.min rest x <= x)%Z /\
  Forall (fun v => (fold_left Z.min rest x <= v)%Z) rest /\
  In (fold_left Z.min rest x) (x :: rest).
Proof.
  induction rest as [|y rest IH]; intros x; simpl.
  - repeat split; [lia | constructor | now left].
  - destruct (IH (Z.min x y)) as (H1 & H2 & H3). repeat split.
    + lia.
    + constructor; [lia | exact H2].
    + destruct H3 as [H3|H3]; [|now right; right].
      destruct (Z.min_spec x y) as [[_ E]|[_ E]]; [left | right; left];
        (transitivity (Z.min x y); [symmetry; exact E | exact H3]).
Qed.

Lemma fold_max_ge rest : forall x,
  (x <= fold_left Z.max rest x)%Z /\
  Forall (fun v => (v <= fold_left Z.max rest x)%Z) rest /\
  In (fold_left Z.max rest x) (x :: rest).
Proof.
  induction rest as [|y rest IH]; intros x; simpl.
  - repeat split; [lia | constructor | now left].
  - destruct (IH (Z.max x y)) as (H1 & H2 & H3). repeat split.
    + lia.
    + constructor; [lia | exact H2].
    + destruct H3 as [H3|H3]; [|now right; right].
      destruct (Z.max_spec x y) as [[_ E]|[_ E]]; [right; left | left];
        (transitivity (Z.max x y); [symmetry; exact E | exact H3]).
Qed.

Lemma fold_sum_bounds lo hi values : forall acc,
  Forall (fun v => (lo <= v <= hi)%Z) values ->
  (acc + lo * Z.of_nat (length values) <= fold_left Z.add values acc
   <= acc + hi * Z.of_nat (length values))%Z.
Proof.
  induction values as [|v values IH]; intros acc H; simpl length.
  - simpl. lia.
  - inversion H; subst. specialize (IH (acc + v)%Z ltac:(assumption)).
    simpl fold_left. rewrite Nat2Z.inj_succ. nia.
Qed.

End Aggregates.

Section Values.

Lemma lstrip_head l : head_ok (Py.lstrip l).
Proof.
  induction l as [|a l IH]; simpl; [exact I|].
  destruct (is_space a) eqn:E; [exact IH | exact E].
Qed.

Lemma lstrip_fix l : head_ok l -> Py.lstrip l = l.
Proof. destruct l as [|a l]; simpl; [reflexivity|]. now intros ->. Qed.

Lemma lstrip_suffix l : exists p, l = p ++ Py.lstrip l.
Proof.
  induction l as [|a l [p IH]]; simpl; [now exists []|].
  destruct (is_space a).
  - exists (a :: p). simpl. now rewrite <- IH.
  - now exists [].
Qed.

Lemma strip_chars_idem l : Py.strip_chars (Py.strip_chars l) = Py.strip_chars l.
Proof.
  unfold Py.strip_chars.
  set (x := Py.lstrip l). set (z := Py.lstrip (rev x)).
  pose proof (lstrip_head l) as Hx. fold x in Hx.
  pose proof (lstrip_head (rev x)) as Hz. fold z in Hz.
  destruct (lstrip_suffix (rev x)) as [p Hp]. fold z in Hp.
  assert (Ex : x = rev z ++ rev p).
  { rewrite <- (rev_involutive x), Hp. apply rev_app_distr. }
  assert (Hy : head_ok (rev z)).
  { destruct (rev z) as [|a y'] eqn:E; [exact I|]. rewrite Ex in Hx. exact Hx. }
  rewrite (lstrip_fix (rev z) Hy), rev_involutive, (lstrip_fix z Hz). reflexivity.
Qed.

Lemma strip_idem s : Py.strip (Py.strip s) = Py.strip s.
Proof.
  unfold Py.strip. rewrite list_ascii_of_string_of_list_ascii, strip_chars_idem.
  reflexivity.
Qed.

Lemma digits_val_nonneg l : forall acc, (0 <= acc)%Z -> (0 <= Py.digits_val acc l)%Z.
Proof.
  induction l as [|a l IH]; simpl; intros acc H; [exact H|].
  apply IH. unfold Py.digit_val. lia.
Qed.

Lemma value_of_text_ok text : value_ok (value_of_text text).
Proof.
  unfold value_of_text. destruct (all_digits text); simpl.
  - now apply digits_val_nonneg.
  - apply strip_idem.
Qed.

Variable mapping : gmap string string.

Lemma store_spec_ok key text data :
  map_Forall (fun _ v => value_ok v) data ->
  map_Forall (fun _ v => value_ok v) (store_spec mapping key text data).
Proof.
  intros H. unfold store_spec.
  destruct (mapping !! Py.strip key) as [k|]; [|exact H].
  destruct (nonempty k); [|exact H].
  apply map_Forall_insert_2; [apply value_of_text_ok | exact H].
Qed.

Lemma parse_line_spec_ok data line :
  map_Forall (fun _ v => value_ok v) data ->
  map_Forall (fun _ v => value_ok v) (parse_line_spec mapping data line).
Proof.
  intros H. unfold parse_line_spec.
  repeat match goal with |- context [match ?x with _ => _ end] =>
    lazymatch x with
    | rmatch _ _ => destruct x
    end
  end; auto using store_spec_ok.
Qed.

Lemma parse_output_spec_ok lines :
  map_Forall (fun _ v => value_ok v) (parse_output_spec mapping lines).
Proof.
  unfold parse_output_spec.
  assert (G : forall data, map_Forall (fun _ v => value_ok v) data ->
                map_Forall (fun _ v => value_ok v)
                  (fold_left (parse_line_spec mapping) lines data)).
  { induction lines as [|l ls IH]; simpl; intros data H; [exact H|].
    apply IH, parse_line_spec_ok, H. }
  apply G, map_Forall_empty.
Qed.

Lemma parse_output_spec_snoc lines l :
  parse_output_spec mapping (lines ++ [l])
  = parse_line_spec mapping (parse_output_spec mapping lines) l.
Proof. unfold parse_output_spec. now rewrite fold_left_app. Qed.

End Values.

Ltac eval_patterns :=
  repeat match goal with
         | |- context [search ?r ?l] =>
             let v := eval vm_compute in (search r l) in
             replace (search r l) with v by (vm_compute; reflexivity)
         | |- context [rmatch ?r ?l] =>
             let v := eval vm_compute in (rmatch r l) in
             replace (rmatch r l) with v by (vm_compute; reflexivity)
         end.

Section Blocks.

Variable args : Args.

Lemma end_marker_inert mapping data line :
  In line ["### end_stats_ati6"; "### end_stats_ati11"] ->
  parse_line_spec mapping data line = data.
Proof.
  intros [<-|[<-|[]]]; unfold parse_line_spec; eval_patterns; reflexivity.
Qed.

Lemma body_begin_ati6 st :
  body args (ln "### stats_ati6") st =
  Ok {| repo := repo st; in_ati := true; ati_lines := []; aborted := aborted st;
        record := record st; counters := counters st |}.
Proof. unfold body. eval_patterns. reflexivity. Qed.

Lemma body_begin_ati11 st :
  body args (ln "### stats_ati11") st =
  Ok {| repo := repo st; in_ati := true; ati_lines := []; aborted := aborted st;
        record := record st; counters := counters st |}.
Proof. unfold body. eval_patterns. reflexivity. Qed.

Lemma body_end_ati6 st :
  in_ati st = true ->
  body args (ln "### end_stats_ati6") st =
  (parsed <- ATI6Parser (ati_lines st ++ ["### end_stats_ati6"]) ;;
   r <- the_record st ;;
   Ok (block_read st (set_ati6 (Some parsed) r))).
Proof.
  intros A. unfold body. eval_patterns. cbn iota beta. rewrite A.
  replace (Py.strip (ln "### end_stats_ati6")) with "### end_stats_ati6"
    by (vm_compute; reflexivity).
  reflexivity.
Qed.

Lemma body_end_ati11 st :
  in_ati st = true ->
  body args (ln "### end_stats_ati11") st =
  (parsed <- ATI11Parser (ati_lines st ++ ["### end_stats_ati11"]) ;;
   r <- the_record st ;;
   Ok (block_read st (set_ati11 (Some parsed) r))).
Proof.
  intros A. unfold body. eval_patterns. cbn iota beta. rewrite A.
  replace (Py.strip (ln "### end_stats_ati11")) with "### end_stats_ati11"
    by (vm_compute; reflexivity).
  reflexivity.
Qed.

Lemma body_quiet_block line st :
  quiet line = true -> in_ati st = true ->
  body args line st =
  Ok {| repo := repo st; in_ati := true; ati_lines := ati_lines st ++ [Py.strip line];
        aborted := aborted st; record := record st; counters := counters st |}.
Proof.
  unfold quiet. intros Q A.
  repeat (apply andb_true_iff in Q as [Q ?]).
  repeat match goal with H : negb (matched _) = true |- _ => apply missed in H end.
  unfold body.
  repeat match goal with H : _ = None |- _ => rewrite H; clear H end.
  rewrite A. reflexivity.
Qed.

Lemma scan_quiet_block blk : forall st,
  Forall (fun l => quiet l = true) blk -> in_ati st = true ->
  scan args blk st =
  Ok {| repo := repo st; in_ati := true;
        ati_lines := ati_lines st ++ List.map Py.strip blk;
        aborted := aborted st; record := record st; counters := counters st |}.
Proof.
  induction blk as [|l blk IH]; intros st H A; simpl.
  - rewrite app_nil_r. destruct st. simpl in *. now subst.
  - inversion H; subst. rewrite (body_quiet_block l st) by assumption. simpl.
    rewrite IH by (simpl; auto). simpl. now rewrite <- app_assoc.
Qed.

End Blocks.


Section MoreProperties.

Lemma scanned_init c0 :
  Forall scanned (repo (loop_init c0)) /\
  (forall r, record (loop_init c0) = Some r -> scanned r).
Proof. split; [constructor | intros ? E; discriminate E]. Qed.

Lemma read_file_scanned args lines c0 recs c :
  read_file args lines c0 = Ok (recs, c) -> Forall scanned recs.
Proof.
  intros H. apply read_file_inv in H as (st & Hscan & -> & _).
  destruct (scanned_init c0) as [I1 I2].
  destruct (scan_scanned args lines _ _ Hscan I1 I2) as [S1 S2].
  destruct (record st) as [r|]; [|exact S1].
  apply Forall_app_2; [exact S1|]. constructor; [now apply S2 | constructor].
Qed.

Lemma printable_dec r : printable r \/ ~ printable r.
Proof.
  unfold printable.
  destruct (start_dial r); [|right; intros ([? E] & _); discriminate E].
  destruct (connect_time r); [|right; intros (_ & [? E] & _); discriminate E].
  destruct (download_success r) as [[|]|];
    try (left; repeat split; eauto; discriminate).
  destruct (start_download r);
    [|right; intros (_ & _ & H); destruct (H eq_refl) as [[? E] _]; discriminate E].
  destruct (end_download r);
    [|right; intros (_ & _ & H); destruct (H eq_refl) as [_ [? E]]; discriminate E].
  left. repeat split; eauto.
Qed.

Lemma call_duration_cases r :
  (exists v, call_duration r = Ok v) \/ call_duration r = Raise TypeError.
Proof.
  unfold call_duration, sub_seconds.
  destruct (connect_type r), (end_call r), (aborted_time r), (exit_qmodem r),
    (connect_time r), (start_qmodem r); simpl; eauto.
Qed.

Lemma durations_raises f rs r :
  (forall x, (exists v, f x = Ok v) \/ f x = Raise TypeError) ->
  In r rs -> f r = Raise TypeError -> durations f rs = Raise TypeError.
Proof.
  intros Hf. induction rs as [|x rs IH]; intros Hin Hr; [destruct Hin|]. simpl.
  destruct (f x) as [v|e] eqn:E; simpl.
  - destruct Hin as [->|Hin]; [congruence|]. now rewrite (IH Hin Hr).
  - destruct (Hf x) as [[v E']|E']; congruence.
Qed.

End MoreProperties.

(** X1. Writing a valid instant of the years 1969 to 2068 as
    [MM-DD-YY HH:MM:SS] gives a text of the shape the scanner captures, and
    [parse_log_ts] reads the same instant back from it. *)
Theorem X1_format_then_parse d :
  log_time d -> ts_shaped (format_ts d) /\ parse_log_ts (format_ts d) = Ok d.
Proof.
  intros H. split; [|apply parse_format_ts, H].
  unfold ts_shaped, format_ts, chars. rewrite list_ascii_of_string_of_list_ascii.
  rewrite (m_blind TS eq_refl _ (format_ts_chars dt_zero) [] _
             (fun s c => match s with [] => Some c | _ => None end)
             (format_ts_class d H)).
  - vm_compute. discriminate.
  - intros t t' c Ht. destruct Ht; reflexivity.
Qed.

Lemma X1_format_then_parse_witness :
  ts_shaped (format_ts (mk_datetime 2024 2 29 23 59 59)) /\
  parse_log_ts (format_ts (mk_datetime 2024 2 29 23 59 59))
  = Ok (mk_datetime 2024 2 29 23 59 59).
Proof. apply (X1_format_then_parse (mk_datetime 2024 2 29 23 59 59)). log_time_eval. Defined.

Lemma X2_parse_then_format_witness :
  log_time (mk_datetime 1999 12 31 23 59 59) /\
  format_ts (mk_datetime 1999 12 31 23 59 59) = "12-31-99 23:59:59".
Proof.
  apply (X2_parse_then_format "12-31-99 23:59:59").
  - vm_compute. discriminate.
  - by_eval.
Defined.

(** X3. When [read_file] returns, the store holds one record for each
    [start_qmodem] line of the log, in the order of the lines, each with
    the time of its line as [start_qmodem]: a call that is still open when
    the next one starts, or when the input ends, is stored like one that
    reached its exit marker. *)
Theorem X3_store_lists_calls args lines c0 recs c :
  read_file args lines c0 = Ok (recs, c) ->
  List.map start_qmodem recs = List.map Some (call_starts lines) /\
  length recs = count_lines starts_call lines.
Proof.
  intros H. apply read_file_inv in H as (st & Hscan & -> & _).
  destruct (scan_held_starts args lines _ _ Hscan) as [E L].
  { intros ? X. discriminate X. }
  unfold held_starts in E. simpl in E.
  assert (M : List.map start_qmodem
                (match record st with Some r => repo st ++ [r] | None => repo st end)
              = List.map Some (call_starts lines)).
  { rewrite <- E. destruct (record st); [apply map_app | now rewrite app_nil_r]. }
  split; [exact M|].
  rewrite <- L, <- (length_map start_qmodem), M. apply length_map.
Qed.

Lemma X3_store_lists_calls_witness :
  exists recs c,
    read_file modem_run restart_log counters0 = Ok (recs, c) /\
    List.map start_qmodem recs = List.map Some (call_starts restart_log) /\
    length recs = count_lines starts_call restart_log.
Proof.
  eexists _, _. split; [by_eval|].
  eapply (X3_store_lists_calls modem_run restart_log counters0). by_eval.
Defined.

(** X4. Every record of a store [read_file] returns is a modem record with
    its start time set; its [connected] flag is never [False], and is
    [True] exactly when a connect time was recorded; an abort reason comes
    with an abort time and a download speed with a download result; and
    [remote_ansi], [aty11] and [atv] are always [None]. *)
Theorem X4_stored_records args lines c0 recs c r :
  read_file args lines c0 = Ok (recs, c) -> In r recs -> scanned r.
Proof.
  intros H Hin. apply read_file_scanned in H.
  rewrite Forall_forall in H. apply H, list_elem_of_In, Hin.
Qed.

Lemma X4_stored_records_witness :
  exists r c, read_file modem_run sample_call counters0 = Ok ([r], c) /\ scanned r.
Proof.
  eexists _, _. split; [by_eval|].
  eapply (X4_stored_records modem_run sample_call counters0); [by_eval | now left].
Defined.

(** X5. When [read_file] returns, starting from fresh counters, the
    download success counter is the number of result lines of the log
    whose status is [SUCCESSFUL!] and the failure counter the number of
    result lines with any other status. *)
Theorem X5_download_counters args lines recs c :
  read_file args lines counters0 = Ok (recs, c) ->
  count_download_success c = count_lines is_success lines /\
  count_download_failure c = count_lines is_failure lines.
Proof.
  intros H. apply read_file_inv in H as (st & Hscan & _ & ->).
  exact (scan_download_counts args lines _ _ Hscan).
Qed.

Lemma X5_download_counters_witness :
  exists recs c,
    read_file modem_run (sample_call ++ abrupt_log) counters0 = Ok (recs, c) /\
    count_download_success c = count_lines is_success (sample_call ++ abrupt_log) /\
    count_download_failure c = count_lines is_failure (sample_call ++ abrupt_log).
Proof.
  eexists _, _. split; [by_eval|].
  eapply (X5_download_counters modem_run (sample_call ++ abrupt_log)). by_eval.
Defined.

(** X6. The [aborted] flag of the loop has no effect: from two states that
    differ only in that flag, the scan of any lines raises the same
    exception or ends in states that differ only in that flag.  An abort
    line does not stop the scanner from reading the lines after it. *)
Theorem X6_aborted_flag_unused args lines : forall st b x,
  rmap (with_aborted x) (scan args lines (with_aborted b st))
  = rmap (with_aborted x) (scan args lines st).
Proof.
  induction lines as [|l lines IH]; simpl; intros st b x; [reflexivity|].
  pose proof (body_aborted_flag args l st b false) as B.
  destruct (body args l (with_aborted b st)) as [s1|e1],
           (body args l st) as [s2|e2]; cbn [rmap rbind] in *; try discriminate B.
  - assert (E : with_aborted false s1 = with_aborted false s2) by congruence.
    rewrite <- (IH s1 false x), <- (IH s2 false x), E. reflexivity.
  - congruence.
Qed.

(** X7. A diagnostic block read while a record is open, when no line of
    the block is longer than the number of digits [int] converts: after
    the begin marker, the lines of the block (lines no pattern of the
    scanner matches) and the end marker, the record holds the parsed block
    of the trimmed lines.  The end marker line is in the buffer that is
    parsed and adds no field.  This holds for both kinds of block. *)
Theorem X7_block_read args blk st r :
  Forall (fun l => quiet l = true) blk -> Forall short_line blk ->
  record st = Some r ->
  scan args (ln "### stats_ati6" :: blk ++ [ln "### end_stats_ati6"]) st
  = Ok (block_read st
          (set_ati6 (Some (parse_output_spec ATI6_mapping (List.map Py.strip blk))) r)) /\
  scan args (ln "### stats_ati11" :: blk ++ [ln "### end_stats_ati11"]) st
  = Ok (block_read st
          (set_ati11 (Some (parse_output_spec ATI11_mapping (List.map Py.strip blk))) r)).
Proof.
  intros Hq Hs Hr.
  assert (Hb : forall e, short_line e ->
                 Forall short_line (List.map Py.strip blk ++ [e])).
  { intros e He. apply Forall_app_2.
    - clear Hq. induction Hs as [|l ls Hl _ IH]; simpl; constructor;
        [apply strip_short, Hl | exact IH].
    - constructor; [exact He | constructor]. }
  split.
  - rewrite scan_cons, body_begin_ati6. cbn [rbind].
    rewrite scan_app, scan_quiet_block by (auto). cbn [rbind].
    rewrite scan_cons, body_end_ati6 by reflexivity.
    unfold ATI6Parser. simpl ati_lines. rewrite parse_output_short.
    2:{ apply Hb. vm_compute. discriminate. }
    cbn [rbind].
    unfold the_record. simpl. rewrite Hr. simpl.
    rewrite parse_output_spec_snoc, end_marker_inert by (simpl; tauto).
    reflexivity.
  - rewrite scan_cons, body_begin_ati11. cbn [rbind].
    rewrite scan_app, scan_quiet_block by (auto). cbn [rbind].
    rewrite scan_cons, body_end_ati11 by reflexivity.
    unfold ATI11Parser. simpl ati_lines. rewrite parse_output_short.
    2:{ apply Hb. vm_compute. discriminate. }
    cbn [rbind].
    unfold the_record. simpl. rewrite Hr. simpl.
    rewrite parse_output_spec_snoc, end_marker_inert by (simpl; tauto).
    reflexivity.
Qed.

Lemma X7_block_read_witness :
  scan modem_run (ln "### stats_ati6" :: sample_block ++ [ln "### end_stats_ati6"])
    (reading CallRecord_default counters0)
  = Ok (block_read (reading CallRecord_default counters0)
          (set_ati6 (Some (parse_output_spec ATI6_mapping (List.map Py.strip sample_block)))
             CallRecord_default)) /\
  scan modem_run (ln "### stats_ati11" :: sample_block ++ [ln "### end_stats_ati11"])
    (reading CallRecord_default counters0)
  = Ok (block_read (reading CallRecord_default counters0)
          (set_ati11 (Some (parse_output_spec ATI11_mapping (List.map Py.strip sample_block)))
             CallRecord_default)).
Proof.
  apply (X7_block_read modem_run sample_block (reading CallRecord_default counters0)
           CallRecord_default).
  - repeat constructor; by_eval.
  - repeat constructor; vm_compute; discriminate.
  - reflexivity.
Defined.

(** X8. Every value [parse_output] stores is a non-negative integer or a
    text without white space at its ends. *)
Theorem X8_parsed_values mapping lines data k v :
  parse_output mapping lines = Ok data -> data !! k = Some v -> value_ok v.
Proof.
  intros E Hk. apply parse_output_refines in E. subst data.
  exact (parse_output_spec_ok mapping lines k v Hk).
Qed.

Lemma X8_parsed_values_witness :
  parse_output ATI6_mapping ["Disconnect Reason is  DTR dropped "]
  = Ok {["disconnect_reason" := VStr "DTR dropped"]} /\
  value_ok (VStr "DTR dropped").
Proof.
  split; [by_eval|].
  apply (X8_parsed_values ATI6_mapping ["Disconnect Reason is  DTR dropped "]
           {["disconnect_reason" := VStr "DTR dropped"]} "disconnect_reason").
  - by_eval.
  - by_eval.
Defined.

(** X9. The line of the report cannot be printed for a stored record
    without a dial time or without a connect time: formatting its missing
    handshake duration raises [TypeError], and so does the loop of
    [print_report2] over a store with such a record. *)
Theorem X9_report_row_raises args lines c0 recs c r :
  read_file args lines c0 = Ok (recs, c) -> In r recs ->
  start_dial r = None \/ connect_time r = None ->
  report_row r = Raise TypeError /\ snd (print_rows recs) = Raise TypeError.
Proof.
  intros H Hin Hmiss. apply read_file_scanned in H.
  assert (Hn : ~ printable r).
  { intros ([? E1] & [? E2] & _). destruct Hmiss; congruence. }
  split.
  - apply report_row_unprintable; [|exact Hn].
    rewrite Forall_forall in H. apply H, list_elem_of_In, Hin.
  - eapply print_rows_some; eassumption.
Qed.

Lemma X9_report_row_raises_witness :
  exists r c,
    read_file modem_run aborted_log counters0 = Ok ([r], c) /\
    report_row r = Raise TypeError /\ snd (print_rows [r]) = Raise TypeError.
Proof.
  eexists _, _. split; [by_eval|].
  eapply (X9_report_row_raises modem_run aborted_log counters0);
    [by_eval | now left | right; by_eval].
Defined.

(** X10. When every record of a store [read_file] returns has its dial and
    connect times, and both download times if its download succeeded, the
    loop of [print_report2] prints one line for each record and does not
    raise. *)
Theorem X10_report_rows_print args lines c0 recs c :
  read_file args lines c0 = Ok (recs, c) -> Forall printable recs ->
  exists rows, print_rows recs = (rows, Ok tt) /\ length rows = length recs.
Proof.
  intros H Hp. apply read_file_scanned in H. now apply print_rows_all.
Qed.

Lemma X10_report_rows_print_witness :
  exists recs c rows,
    read_file modem_run sample_call counters0 = Ok (recs, c) /\
    print_rows recs = (rows, Ok tt) /\ length rows = length recs.
Proof.
  assert (E : exists recs c, read_file modem_run sample_call counters0 = Ok (recs, c) /\
                             Forall printable recs).
  { eexists _, _. split; [by_eval|]. repeat constructor; simpl; eauto. }
  destruct E as (recs & c & E & P). exists recs, c.
  destruct (X10_report_rows_print modem_run sample_call counters0 recs c E P) as (rows & R).
  exists rows. split; [exact E | exact R].
Defined.

(** X11. The count of termination reasons in [report_aggregates]: it raises
    [TypeError] exactly when some record was aborted and has no connect
    time; otherwise the two counts add up to the number of records, and the
    [normal] count is the number of records with an [end_call] time and no
    abort. *)
Theorem X11_termination_totals recs :
  match termination_reasons recs 0 0 with
  | Ok (normal, other) =>
      (normal + other = length recs)%nat /\
      normal = length (List.filter ended_normally recs) /\
      Forall (fun r => ~ aborted_unconnected r) recs
  | Raise e => e = TypeError /\ Exists aborted_unconnected recs
  end.
Proof. exact (termination_reasons_spec recs 0 0). Qed.

(** X12. For a non-empty list of integers, the average [stats] prints
    ([sum(values)//len(values)]) lies between the minimum and the maximum
    it prints, which are both values of the list and bound all of them; for
    the empty list there are no numbers (the line is [N/A]). *)
Theorem X12_stats_bounds values avg lo hi :
  stats_numbers values = Some (avg, lo, hi) ->
  (lo <= avg <= hi)%Z /\ In lo values /\ In hi values /\
  Forall (fun v => (lo <= v <= hi)%Z) values.
Proof.
  destruct values as [|x rest]; [discriminate|]. unfold stats_numbers.
  intros E. injection E as <- <- <-.
  destruct (fold_min_le rest x) as (L1 & L2 & L3).
  destruct (fold_max_ge rest x) as (U1 & U2 & U3).
  set (lo := fold_left Z.min rest x) in *. set (hi := fold_left Z.max rest x) in *.
  assert (B : Forall (fun v => (lo <= v <= hi)%Z) (x :: rest)).
  { constructor; [lia|].
    rewrite Forall_forall in *. intros v Hv. split; [apply L2, Hv | apply U2, Hv]. }
  repeat split; try assumption.
  - pose proof (fold_sum_bounds lo hi (x :: rest) 0 B) as [S1 _].
    cbn [fold_left length] in S1 |- *. apply Z.div_le_lower_bound; lia.
  - pose proof (fold_sum_bounds lo hi (x :: rest) 0 B) as [_ S2].
    cbn [fold_left length] in S2 |- *. apply Z.div_le_upper_bound; lia.
Qed.

Lemma X12_stats_bounds_witness :
  (100 <= 250 <= 400)%Z /\ In 100%Z [100; 200; 300; 400]%Z /\
  In 400%Z [100; 200; 300; 400]%Z /\
  Forall (fun v => (100 <= v <= 400)%Z) [100; 200; 300; 400]%Z.
Proof. apply (X12_stats_bounds [100; 200; 300; 400]%Z 250 100 400). reflexivity. Defined.

(** X13. The call durations cannot be collected from a store [read_file]
    returns when it has a record without a connect time that has an
    [end_call], abort or exit time: [durations] over [call_duration]
    raises [TypeError]. *)
Theorem X13_call_durations_raise args lines c0 recs c r :
  read_file args lines c0 = Ok (recs, c) -> In r recs -> connect_time r = None ->
  is_Some (end_call r) \/ is_Some (aborted_time r) \/ is_Some (exit_qmodem r) ->
  durations call_duration recs = Raise TypeError.
Proof.
  intros H Hin Hc Hend. apply read_file_scanned in H.
  rewrite Forall_forall in H. destruct (H r) as (Hm & _); [apply list_elem_of_In, Hin|].
  apply (durations_raises call_duration recs r call_duration_cases Hin).
  unfold call_duration, sub_seconds. rewrite Hm, Hc.
  destruct (end_call r); [reflexivity|].
  destruct (aborted_time r); [reflexivity|].
  destruct (exit_qmodem r); [reflexivity|].
  destruct Hend as [[? E]|[[? E]|[? E]]]; discriminate E.
Qed.

Lemma X13_call_durations_raise_witness :
  exists r c,
    read_file modem_run aborted_log counters0 = Ok ([r], c) /\
    durations call_duration [r] = Raise TypeError.
Proof.
  eexists _, _. split; [by_eval|].
  eapply (X13_call_durations_raise modem_run aborted_log counters0);
    [by_eval | now left | by_eval | right; right; eexists; by_eval].
Defined.
